(** * JQQuant back-test engine: ledger, order settlement, event loop, report

    A shallow embedding of [core/backtest_engine.py] (class [BacktestEngine])
    together with the two collaborators it drives, [OrderManager] and
    [Portfolio].

    Conventions.
    - Python [float] quantities (cash, prices, amounts, rates) are exact
      rationals [Q]; rounding of binary64 arithmetic is not modelled.  The
      special values that pandas produces without raising (NaN, +inf, -inf)
      are modelled where the code can meet them: a price cell may be NaN, and
      the return series lives in the extended reals [xreal].  Overflow is
      written out where the code raises on it, in the float power of the
      annualised return.
    - A Python exception is an explicit outcome: the left injection in the
      [M] monad of the event loop, a dedicated constructor elsewhere.
    - Mutable objects are threaded as state.  The order backlog is a list of
      order records; the engine's loop mutates the entries in place.  The
      list of securities handed to [run] is one object, shared with the
      strategy's context. *)

From Stdlib Require Import QArith Qabs Qreals Reals Psatz Sorted Permutation.
From stdpp Require Import gmap strings list fin_maps.

Local Open Scope Q_scope.

(** A point in time ([datetime] / [pd.Timestamp]), counted in seconds. *)
Definition Date := Z.

(** Python's [x > y] and [x >= y] on numbers. *)
Definition Qgtb (x y : Q) : bool := negb (Qle_bool x y).
Definition Qgeb (x y : Q) : bool := Qle_bool y x.

(** ** Orders *)

Inductive OrderStatus := PENDING | FILLED | REJECTED.

#[global] Instance OrderStatus_eq_dec : EqDecision OrderStatus.
Proof. solve_decision. Defined.

Module Order.
(** Modelled from the spec: the [Order] class of [core/order_manager.py]
    (security, signed requested amount, status, fill price, fill amount,
    fill timestamp, submission timestamp).  An unset attribute is [None]. *)
Record t := mk {
  security : string;
  amount : Q;
  status : OrderStatus;
  fill_price : option Q;
  fill_amount : option Q;
  fill_time : option Date;
  add_time : Date
}.

(** A freshly submitted order. *)
Definition new (sec : string) (amt : Q) (now : Date) : t :=
  mk sec amt PENDING None None None now.

Definition is_pending (o : t) : bool := bool_decide (status o = PENDING).
Definition is_filled (o : t) : bool := bool_decide (status o = FILLED).
End Order.

Module OrderManager.
(** Modelled from the spec: the [OrderManager] class of
    [core/order_manager.py]; the engine constructs it with
    [commission_rate] and [slippage] and reads its [orders] backlog. *)
Record t := mk {
  commission_rate : Q;
  slippage : Q;
  orders : list Order.t
}.

Definition set_orders (om : t) (os : list Order.t) : t :=
  mk (commission_rate om) (slippage om) os.

(** Modelled from the spec: [OrderManager.process_order] is missing from
    the sources.  A pending order always fills, in full, at the current
    price moved by the slippage: up for a buy (positive amount), down
    otherwise.  The result is the mutated order and the returned boolean;
    an order that is no longer pending is left alone and [False] comes
    back. *)
Definition process_order (om : t) (o : Order.t) (current_price : Q)
  : Order.t * bool :=
  match Order.status o with
  | PENDING =>
      let fp := if Qgtb (Order.amount o) 0
                then current_price * (1 + slippage om)
                else current_price * (1 - slippage om) in
      (Order.mk (Order.security o) (Order.amount o) FILLED
                (Some fp) (Some (Order.amount o))
                (Order.fill_time o) (Order.add_time o), true)
  | _ => (o, false)
  end.

(** Modelled from the spec: [OrderManager.get_commission] is missing from
    the sources.  [|fill_amount * fill_price| * commission_rate]; with an
    unset operand the product raises [TypeError], which is [None] here. *)
Definition get_commission (om : t) (o : Order.t) : option Q :=
  match Order.fill_amount o, Order.fill_price o with
  | Some a, Some p => Some (Qabs (a * p) * commission_rate om)
  | _, _ => None
  end.

(** Modelled from the spec: [OrderManager.get_filled_orders] is missing
    from the sources.  The filled orders, in submission order. *)
Definition get_filled_orders (om : t) : list Order.t :=
  List.filter Order.is_filled (orders om).
End OrderManager.

(** ** The ledger *)

Module Position.
(** Modelled from the spec: the [Position] class of [core/portfolio.py]. *)
Record t := mk {
  security : string;
  amount : Q;
  avg_cost : Q;
  last_price : Q
}.
End Position.

Module Portfolio.
(** Modelled from the spec: the [Portfolio] class of [core/portfolio.py]:
    cash, the positions keyed by security and the three parallel
    histories that [record] extends. *)
Record t := mk {
  initial_cash : Q;
  cash : Q;
  positions : gmap string Position.t;
  date_history : list Date;
  total_value_history : list Q;
  cash_history : list Q
}.

(** [Portfolio(initial_cash=...)] *)
Definition init (initial : Q) : t := mk initial initial ∅ [] [] [].

(** [portfolio.cash = c] *)
Definition set_cash (pf : t) (c : Q) : t :=
  mk (initial_cash pf) c (positions pf)
     (date_history pf) (total_value_history pf) (cash_history pf).

Definition set_positions (pf : t) (ps : gmap string Position.t) : t :=
  mk (initial_cash pf) (cash pf) ps
     (date_history pf) (total_value_history pf) (cash_history pf).

(** Modelled from the spec: [Portfolio.get_position] is missing from the
    sources.  The position, or [None]; never fails. *)
Definition get_position (pf : t) (sec : string) : option Position.t :=
  positions pf !! sec.

(** Modelled from the spec: [Portfolio.add_position] is missing from the
    sources.  A first buy opens the position at that price; a further buy
    raises the amount and takes the amount-weighted average cost. *)
Definition add_position (pf : t) (sec : string) (amt price : Q) : t :=
  let p' :=
    match positions pf !! sec with
    | None => Position.mk sec amt price price
    | Some p =>
        let total := Position.amount p + amt in
        Position.mk sec total
          ((Position.amount p * Position.avg_cost p + amt * price) / total)
          (Position.last_price p)
    end in
  set_positions pf (<[sec := p']> (positions pf)).

(** Modelled from the spec: [Portfolio.remove_position] is missing from
    the sources.  The amount goes down, the cost basis stays, and a
    position sold out stays in the book with amount 0.  Sufficiency is
    the caller's business. *)
Definition remove_position (pf : t) (sec : string) (amt price : Q) : t :=
  match positions pf !! sec with
  | None => pf
  | Some p =>
      set_positions pf
        (<[sec := Position.mk sec (Position.amount p - amt)
                    (Position.avg_cost p) (Position.last_price p)]>
           (positions pf))
  end.

(** Modelled from the spec: [Portfolio.update_prices] is missing from the
    sources.  Every held security that has a price in the mapping is
    re-marked; cash is not touched. *)
Definition update_prices (pf : t) (prices : gmap string Q) : t :=
  set_positions pf
    (map_imap (fun sec p =>
       Some match prices !! sec with
            | Some px => Position.mk (Position.security p)
                           (Position.amount p) (Position.avg_cost p) px
            | None => p
            end) (positions pf)).

(** Modelled from the spec: the total value is cash plus the marked value
    of every position with a positive amount. *)
Definition positions_value (ps : gmap string Position.t) : Q :=
  map_fold (fun _ p acc =>
    if Qgtb (Position.amount p) 0
    then acc + Position.amount p * Position.last_price p
    else acc) 0 ps.

Definition total_value (pf : t) : Q := cash pf + positions_value (positions pf).

(** Modelled from the spec: [Portfolio.record] is missing from the
    sources.  One snapshot is appended to each history. *)
Definition record (pf : t) (d : Date) : t :=
  mk (initial_cash pf) (cash pf) (positions pf)
     (date_history pf ++ [d])
     (total_value_history pf ++ [total_value pf])
     (cash_history pf ++ [cash pf]).

Record Summary := mkSummary {
  s_cash : Q;
  s_total_value : Q;
  s_total_profit_rate : Q
}.

(** Modelled from the spec: [Portfolio.get_summary] is missing from the
    sources.  Cash, total value and [total value / initial cash - 1]; the
    specification is silent on an initial cash of 0, for which the quotient
    here is 0. *)
Definition get_summary (pf : t) : Summary :=
  mkSummary (cash pf) (total_value pf) (total_value pf / initial_cash pf - 1).
End Portfolio.

(** ** The price table *)

(** A numeric cell of the table: a number or NaN. *)
Inductive Cell := CNum (q : Q) | CNaN.

(** One row of the table returned by the data provider: its index value,
    its [security] cell (meaningful when the table has that column) and its
    [close] cell (meaningful when the table has that column). *)
Record Row := mkRow {
  row_index : Date;
  row_security : string;
  row_close : Cell
}.

(** A [pd.DataFrame]: whether its index is a [pd.DatetimeIndex], its column
    labels and its rows in storage order. *)
Record DataFrame := mkDataFrame {
  index_is_datetime : bool;
  columns : list string;
  rows : list Row
}.

Definition has_column (c : string) (cols : list string) : bool :=
  bool_decide (c ∈ cols).

(** [df.empty]: some axis has length 0. *)
Definition df_empty (df : DataFrame) : bool :=
  match rows df, columns df with
  | [], _ | _, [] => true
  | _, _ => false
  end.

(** What the loop hands around as [daily_data]: [.loc] gives a [pd.Series]
    (one row, indexed by the column labels) or a [pd.DataFrame]. *)
Inductive DailyData :=
| DSeries (cols : list string) (r : Row)
| DFrame (df : DataFrame).

Definition daily_empty (dd : DailyData) : bool :=
  match dd with
  | DSeries cols _ => match cols with [] => true | _ => false end
  | DFrame df => df_empty df
  end.

(** The outcome of reading a price: the read raised, it gave Python's
    [None], or it gave a cell. *)
Inductive PriceRead := PRaised | PNone | PCell (c : Cell).

(** [frame['close'].iloc[0]]; [IndexError] on a frame without rows. *)
Definition close_iloc0 (rs : list Row) : PriceRead :=
  match rs with
  | [] => PRaised
  | r :: _ => PCell (row_close r)
  end.

(** [frame[frame['security'] == sec]] *)
Definition rows_of_security (sec : string) (rs : list Row) : list Row :=
  List.filter (fun r => bool_decide (row_security r = sec)) rs.

(** Lines 189-204 of [_process_orders]: the price the order is settled at. *)
Definition current_price_of (dd : DailyData) (sec : string) : PriceRead :=
  match dd with
  | DSeries cols r =>
      if has_column "close" cols then PCell (row_close r) else PNone
  | DFrame df =>
      if has_column "security" (columns df) then
        let sec_data := rows_of_security sec (rows df) in
        match sec_data with
        | [] => PNone
        | _ => if has_column "close" (columns df)
               then close_iloc0 sec_data else PNone
        end
      else
        if has_column "close" (columns df)
        then close_iloc0 (rows df) else PNone
  end.

(** [current_price is None or pd.isna(current_price)] fails, and
    [float(current_price)] is this number.  A read that raised ends the
    turn of the order in the handler of its [try], as a missing price ends
    it in [continue]: nothing was touched either way. *)
Definition price_available (pr : PriceRead) : option Q :=
  match pr with
  | PCell (CNum q) => Some q
  | _ => None
  end.

(** ** Order settlement *)

Module Settlement.
(** The state of one pass of [_process_orders] over an order: the order
    object, the portfolio, and the arguments of the calls made to
    [OrderManager.process_order] (kept to speak about which orders are
    handed to it). *)
Record t := mk {
  order : Order.t;
  portfolio : Portfolio.t;
  calls : list Order.t
}.
End Settlement.

(** [if order.fill_time is None: order.fill_time = date] *)
Definition stamp_fill_time (o : Order.t) (date : Date) : Order.t :=
  match Order.fill_time o with
  | Some _ => o
  | None =>
      Order.mk (Order.security o) (Order.amount o) (Order.status o)
               (Order.fill_price o) (Order.fill_amount o) (Some date)
               (Order.add_time o)
  end.

(** Lines 217-238: the ledger effect of an order that [process_order] has
    just filled.  An unset fill attribute makes the arithmetic raise; the
    handler of the surrounding [try] swallows that, the ledger is as it
    was. *)
Definition apply_fill (om : OrderManager.t) (o : Order.t) (pf : Portfolio.t)
  : Portfolio.t :=
  match OrderManager.get_commission om o,
        Order.fill_amount o, Order.fill_price o with
  | Some commission, Some fa, Some fp =>
      if Qgtb fa 0 then
        let cost := fa * fp + commission in
        if Qgeb (Portfolio.cash pf) cost then
          Portfolio.add_position
            (Portfolio.set_cash pf (Portfolio.cash pf - cost))
            (Order.security o) fa fp
        else pf
      else
        match Portfolio.get_position pf (Order.security o) with
        | Some position =>
            if Qgeb (Position.amount position) (Qabs fa) then
              let revenue := Qabs fa * fp - commission in
              Portfolio.remove_position
                (Portfolio.set_cash pf (Portfolio.cash pf + revenue))
                (Order.security o) (Qabs fa) fp
            else pf
        | None => pf
        end
  | _, _, _ => pf
  end.

(** Lines 186-241: the body of the loop for one pending order. *)
Definition settle_order (om : OrderManager.t) (date : Date) (dd : DailyData)
    (o : Order.t) (pf : Portfolio.t) : Settlement.t :=
  match price_available (current_price_of dd (Order.security o)) with
  | None => Settlement.mk o pf []
  | Some current_price =>
      let '(o1, ok) := OrderManager.process_order om o current_price in
      if ok then
        let o2 := stamp_fill_time o1 date in
        Settlement.mk o2 (apply_fill om o2 pf) [o]
      else Settlement.mk o1 pf [o]
  end.

(** What one turn of the loop does to backlog entry [o] when the ledger
    stands at [pf]. *)
Definition turn (om : OrderManager.t) (date : Date) (dd : DailyData)
    (o : Order.t) (pf : Portfolio.t) : Settlement.t :=
  if Order.is_pending o then settle_order om date dd o pf
  else Settlement.mk o pf [].

(** The loop of [_process_orders].  The comprehension picks the pending
    orders of the backlog once; the loop then mutates exactly those objects,
    each once, in backlog order.  Walking the backlog and stepping over the
    entries that are not pending is that computation.  The result is the
    backlog, the portfolio and the orders handed to [process_order]. *)
Fixpoint settle_all (om : OrderManager.t) (date : Date) (dd : DailyData)
    (os : list Order.t) (pf : Portfolio.t)
  : list Order.t * Portfolio.t * list Order.t :=
  match os with
  | [] => ([], pf, [])
  | o :: rest =>
      let s := turn om date dd o pf in
      let '(rest', pf', log) :=
        settle_all om date dd rest (Settlement.portfolio s) in
      (Settlement.order s :: rest', pf', Settlement.calls s ++ log)
  end.

(** ** Return series and metrics *)

(** The values a float64 [pd.Series] holds: a real number, an infinity or
    NaN.  Arithmetic follows IEEE 754 on the special values (numpy never
    raises on them) and is exact on the numbers. *)
Inductive xreal := XFin (r : R) | XPInf | XNInf | XNaN.

Definition Rgtb (x y : R) : bool := if Rlt_dec y x then true else false.
Definition Reqb (x y : R) : bool := if Req_dec_T x y then true else false.

Definition xopp (x : xreal) : xreal :=
  match x with
  | XFin r => XFin (- r)
  | XPInf => XNInf
  | XNInf => XPInf
  | XNaN => XNaN
  end.

Definition xadd (x y : xreal) : xreal :=
  match x, y with
  | XNaN, _ | _, XNaN => XNaN
  | XFin a, XFin b => XFin (a + b)
  | XPInf, XNInf | XNInf, XPInf => XNaN
  | XPInf, _ | _, XPInf => XPInf
  | XNInf, _ | _, XNInf => XNInf
  end.

Definition xsub (x y : xreal) : xreal := xadd x (xopp y).

(** The infinity with the sign of [r], NaN for [r = 0]. *)
Definition xinf_signed (r : R) : xreal :=
  if Rgtb r 0 then XPInf else if Rgtb 0 r then XNInf else XNaN.

Definition xmul (x y : xreal) : xreal :=
  match x, y with
  | XNaN, _ | _, XNaN => XNaN
  | XFin a, XFin b => XFin (a * b)
  | XFin a, XPInf | XPInf, XFin a => xinf_signed a
  | XFin a, XNInf | XNInf, XFin a => xinf_signed (- a)
  | XPInf, XPInf | XNInf, XNInf => XPInf
  | XPInf, XNInf | XNInf, XPInf => XNInf
  end.

Definition xdiv (x y : xreal) : xreal :=
  match x, y with
  | XNaN, _ | _, XNaN => XNaN
  | XFin a, XFin b => if Reqb b 0 then xinf_signed a else XFin (a / b)
  | XFin _, _ => XFin 0
  | XPInf, XFin b => if Rgtb 0 b then XNInf else XPInf
  | XNInf, XFin b => if Rgtb 0 b then XPInf else XNInf
  | _, _ => XNaN
  end.

Definition xsqrt (x : xreal) : xreal :=
  match x with
  | XFin r => if Rgtb 0 r then XNaN else XFin (sqrt r)
  | XPInf => XPInf
  | _ => XNaN
  end.

(** [x > y]; false as soon as a NaN is involved. *)
Definition xgtb (x y : xreal) : bool :=
  match x, y with
  | XNaN, _ | _, XNaN => false
  | XFin a, XFin b => Rgtb a b
  | XPInf, XPInf | XNInf, XNInf => false
  | XPInf, _ | _, XNInf => true
  | _, _ => false
  end.

Definition xis_nan (x : xreal) : bool :=
  match x with XNaN => true | _ => false end.

Definition xsum (l : list xreal) : xreal := fold_left xadd l (XFin 0).

Definition xof_nat (n : nat) : xreal := XFin (INR n).

(** [Series.pct_change()]: each value over its predecessor, minus one; the
    first entry has no predecessor and is NaN. *)
Fixpoint pct_change_from (prev : xreal) (l : list xreal) : list xreal :=
  match l with
  | [] => []
  | x :: l' => xsub (xdiv x prev) (XFin 1) :: pct_change_from x l'
  end.

Definition pct_change (l : list xreal) : list xreal :=
  match l with
  | [] => []
  | x :: l' => XNaN :: pct_change_from x l'
  end.

(** [Series.fillna(v)] *)
Definition fillna (v : xreal) (l : list xreal) : list xreal :=
  List.map (fun x => if xis_nan x then v else x) l.

(** What [mean] and [std] work on: pandas skips the NaN entries. *)
Definition dropna (l : list xreal) : list xreal :=
  List.filter (fun x => negb (xis_nan x)) l.

(** [Series.mean()]; NaN for a series without values. *)
Definition mean (l : list xreal) : xreal :=
  let vs := dropna l in
  match vs with
  | [] => XNaN
  | _ => xdiv (xsum vs) (xof_nat (length vs))
  end.

(** [Series.std()], the sample standard deviation (one degree of freedom
    removed); NaN for fewer than two values. *)
Definition std (l : list xreal) : xreal :=
  let vs := dropna l in
  match vs with
  | [] | [_] => XNaN
  | _ =>
      let avg := xdiv (xsum vs) (xof_nat (length vs)) in
      let sqr := List.map (fun x => xmul (xsub avg x) (xsub avg x)) vs in
      xsqrt (xdiv (xsum sqr) (xof_nat (length vs - 1)))
  end.

(** [pd.Series(self.portfolio.total_value_history, ...)] *)
Definition returns_series (totals : list Q) : list xreal :=
  List.map (fun q => XFin (Q2R q)) totals.

(** Line 249: [returns.pct_change().fillna(0)] *)
Definition returns_pct_series (totals : list Q) : list xreal :=
  fillna (XFin 0) (pct_change (returns_series totals)).

(** Line 254 *)
Definition sharpe_of (returns_pct : list xreal) : xreal :=
  if xgtb (std returns_pct) (XFin 0)
  then xmul (xdiv (mean returns_pct) (std returns_pct)) (XFin (sqrt 252))
  else XFin 0.

Definition xis_fin (x : xreal) : bool :=
  match x with XFin _ => true | _ => false end.

(** The formula in the words of the specification, on a series of real
    numbers: the arithmetic mean and the sample standard deviation. *)
Definition rsum (rs : list R) : R := fold_left Rplus rs 0%R.

Definition spec_mean (rs : list R) : R := (rsum rs / INR (length rs))%R.

Definition spec_stdev (rs : list R) : R :=
  sqrt (rsum (List.map (fun x => (x - spec_mean rs) * (x - spec_mean rs))%R rs)
        / INR (length rs - 1)).

Definition spec_sharpe (rs : list R) : R :=
  (spec_mean rs / spec_stdev rs * sqrt 252)%R.

(** ** Maximum drawdown *)

(** [abs] *)
Definition xabs (x : xreal) : xreal :=
  match x with
  | XFin r => XFin (Rabs r)
  | XPInf | XNInf => XPInf
  | XNaN => XNaN
  end.

(** The larger and the smaller of two values, neither of them NaN. *)
Definition xmax (x y : xreal) : xreal := if xgtb y x then y else x.
Definition xmin (x y : xreal) : xreal := if xgtb x y then y else x.

(** One more value for a running extremum that skips NaN: [best] is the
    extremum of the values seen so far that are not NaN, if any. *)
Definition xbest (pick : xreal -> xreal -> xreal) (best : option xreal)
    (x : xreal) : option xreal :=
  if xis_nan x then best
  else Some (match best with Some b => pick b x | None => x end).

(** [Series.cumprod()]: the running product; a NaN entry is skipped by the
    product and gives NaN at its place. *)
Fixpoint cumprod_from (acc : xreal) (l : list xreal) : list xreal :=
  match l with
  | [] => []
  | x :: l' =>
      if xis_nan x then XNaN :: cumprod_from acc l'
      else xmul acc x :: cumprod_from (xmul acc x) l'
  end.

Definition cumprod (l : list xreal) : list xreal := cumprod_from (XFin 1) l.

(** [Series.expanding().max()]: the largest value so far among those that
    are not NaN; NaN while there is none. *)
Fixpoint expanding_max_from (best : option xreal) (l : list xreal)
  : list xreal :=
  match l with
  | [] => []
  | x :: l' =>
      let best' := xbest xmax best x in
      default XNaN best' :: expanding_max_from best' l'
  end.

Definition expanding_max (l : list xreal) : list xreal :=
  expanding_max_from None l.

(** [Series.min()]: the smallest value that is not NaN; NaN if there is
    none. *)
Definition xmin_skipna (l : list xreal) : xreal :=
  default XNaN (fold_left (xbest xmin) l None).

(** [BacktestEngine._calculate_max_drawdown] *)
Definition _calculate_max_drawdown (returns : list xreal) : xreal :=
  match returns with
  | [] => XFin 0
  | _ =>
      let cumulative :=
        cumprod (List.map (xadd (XFin 1))
                   (fillna (XFin 0) (pct_change returns))) in
      let running_max := expanding_max cumulative in
      let drawdown :=
        zip_with (fun c m => xdiv (xsub c m) m) cumulative running_max in
      xabs (xmin_skipna drawdown)
  end.

(** ** The annualised return *)

(** The value of an arithmetic expression on Python floats: a float or,
    from a negative base under a fractional exponent, a complex number. *)
Inductive PyNumber := PyFloat (x : R) | PyComplex (re im : R).

(** The exceptions that float arithmetic raises. *)
Inductive ArithmeticError := OverflowError | ZeroDivisionError.

(** The largest binary64 number, (2 - 2^-52) * 2^1023. *)
Definition float_max : R := IZR (2 ^ 1024 - 2 ^ 971).

(** [y == floor(y)] *)
Definition is_whole (y : R) : bool := Reqb (IZR (Int_part y)) y.

(** [x ** y] on two floats that are numbers, as [float_pow] of CPython
    goes through its cases: anything to the power 0 is 1; 0 to a negative
    power raises [ZeroDivisionError]; a negative base under an exponent that
    is not whole gives a complex number, in polar form; a result beyond the
    largest float raises [OverflowError], also on the complex path.  The
    power itself is exact. *)
Definition float_pow (x y : R) : ArithmeticError + PyNumber :=
  if Reqb y 0 then inr (PyFloat 1)
  else if Reqb x 0 then
    if Rgtb 0 y then inl ZeroDivisionError else inr (PyFloat 0)
  else
    let len := Rpower (Rabs x) y in
    if Rgtb len float_max then inl OverflowError
    else if Rgtb x 0 then inr (PyFloat len)
    else if is_whole y then
      inr (PyFloat (if Z.even (Int_part y) then len else (- len)%R))
    else inr (PyComplex (len * cos (PI * y))%R (len * sin (PI * y))%R).

(** [v - 1] *)
Definition py_minus_one (v : PyNumber) : PyNumber :=
  match v with
  | PyFloat x => PyFloat (x - 1)%R
  | PyComplex re im => PyComplex (re - 1)%R im
  end.

(** Line 253:
    [(1 + total_return) ** (252 / len(returns)) - 1 if len(returns) > 0 else 0] *)
Definition annual_return_of (total_return : Q) (n : nat)
  : ArithmeticError + PyNumber :=
  match n with
  | O => inr (PyFloat 0)
  | _ =>
      match float_pow (1 + Q2R total_return)%R (252 / INR n)%R with
      | inl err => inl err
      | inr v => inr (py_minus_one v)
      end
  end.

(** ** Trade ledger *)

Inductive TradeType := Buy | Sell.

(** One entry of [trade_history].  [t_date] is the fill time; the source
    stores it formatted as ['%Y-%m-%d %H:%M:%S'] and sorts on that text,
    which orders time stamps as the clock does. *)
Record Trade := mkTrade {
  t_date : Date;
  t_security : string;
  t_type : TradeType;
  t_amount : Q;
  t_price : Q;
  t_value : Q;
  t_commission : Q;
  t_net_value : Q
}.

(** Lines 261-283 for one filled order: no entry ([Some None]) unless the
    order is filled and carries a fill time; [None] when an unset fill
    attribute makes the arithmetic raise. *)
Definition trade_entry (om : OrderManager.t) (o : Order.t)
  : option (option Trade) :=
  match Order.is_filled o, Order.fill_time o with
  | true, Some ft =>
      match Order.fill_amount o, Order.fill_price o,
            OrderManager.get_commission om o with
      | Some fa, Some fp, Some commission =>
          let trade_value := Qabs (fa * fp) in
          let net_value :=
            if Qgtb fa 0
            then - (trade_value + commission)
            else trade_value - commission in
          Some (Some (mkTrade ft (Order.security o)
                        (if Qgtb fa 0 then Buy else Sell)
                        (Qabs fa) fp trade_value commission net_value))
      | _, _, _ => None
      end
  | _, _ => Some None
  end.

(** The loop of lines 260-283 over the filled orders. *)
Fixpoint trade_entries (om : OrderManager.t) (os : list Order.t)
  : option (list Trade) :=
  match os with
  | [] => Some []
  | o :: rest =>
      match trade_entry om o with
      | None => None
      | Some e =>
          match trade_entries om rest with
          | None => None
          | Some es => Some (match e with Some t => t :: es | None => es end)
          end
      end
  end.

(** [list.sort(key=lambda x: x['date'])]: a stable sort on the date.  The
    entries are inserted from the last to the first, each in front of the
    entries that are not earlier, so entries of one date keep their order. *)
Fixpoint insert_by_date (t : Trade) (l : list Trade) : list Trade :=
  match l with
  | [] => [t]
  | u :: l' =>
      if (t_date t <=? t_date u)%Z then t :: u :: l'
      else u :: insert_by_date t l'
  end.

Definition sort_by_date (l : list Trade) : list Trade :=
  fold_right insert_by_date [] l.

(** ** The report *)

Record Metrics := mkMetrics {
  total_return : Q;
  annual_return : PyNumber;
  sharpe_ratio : xreal;
  max_drawdown : xreal;
  total_trades : nat
}.

Record PortfolioHistory := mkPortfolioHistory {
  ph_dates : list Date;
  ph_total_value : list Q;
  ph_cash : list Q
}.

(** The dictionary [_generate_results] returns. *)
Record Results := mkResults {
  summary : Portfolio.Summary;
  returns : list xreal;
  returns_pct : list xreal;
  metrics : Metrics;
  portfolio_history : PortfolioHistory;
  trade_history : list Trade
}.

(** [BacktestEngine._generate_results]; [None] when it raises.  It can
    raise in three places: [pd.Series(values, index=dates)] of line 248
    raises [ValueError] unless there are as many dates as values; the power
    of line 253 can raise; and the arithmetic of the trade history raises on
    an unset fill attribute. *)
Definition _generate_results (pf : Portfolio.t) (om : OrderManager.t)
  : option Results :=
  let summary := Portfolio.get_summary pf in
  if negb (length (Portfolio.total_value_history pf)
           =? length (Portfolio.date_history pf))%nat
  then None
  else
    let returns := returns_series (Portfolio.total_value_history pf) in
    let returns_pct :=
      returns_pct_series (Portfolio.total_value_history pf) in
    let total_return := Portfolio.s_total_profit_rate summary in
    match annual_return_of total_return (length returns) with
    | inl _ => None
    | inr annual_return =>
        let sharpe_ratio := sharpe_of returns_pct in
        let max_drawdown := _calculate_max_drawdown returns in
        let filled_orders := OrderManager.get_filled_orders om in
        match trade_entries om filled_orders with
        | None => None
        | Some trade_history =>
            Some (mkResults summary returns returns_pct
                    (mkMetrics total_return annual_return sharpe_ratio
                       max_drawdown (length filled_orders))
                    (mkPortfolioHistory (Portfolio.date_history pf)
                       (Portfolio.total_value_history pf)
                       (Portfolio.cash_history pf))
                    (sort_by_date trade_history))
        end
    end.

(** ** The strategy *)

(** An exception object, as far as the handlers of [run] tell exceptions
    apart: whether it is an instance of [Exception] ([SystemExit],
    [KeyboardInterrupt] and [GeneratorExit] are not), and whether [str()] of
    it returns (a class may override [__str__] with code that raises). *)
Record PyException := mkPyException {
  is_Exception : bool;
  str_returns : bool
}.

(** How a call into strategy code ends. *)
Inductive Completion := Normal | Raise (x : PyException).

(** What strategy code can reach and mutate: its own attributes and the
    objects of the context dictionary built by [set_strategy].
    [w_securities] is the contents of the list object that the engine has
    put under ['securities']: the empty list of line 58 and then, from line
    98 on, the very list that was handed to [run].  A callback that changes
    this list in place changes what the loop of line 137 iterates over; a
    callback that puts a list of its own under the key changes an attribute
    of its own, which the engine never reads. *)
Record World (S : Type) := mkWorld {
  w_state : S;
  w_portfolio : Portfolio.t;
  w_order_manager : OrderManager.t;
  w_securities : list string
}.
Arguments mkWorld {S}.
Arguments w_state {S}.
Arguments w_portfolio {S}.
Arguments w_order_manager {S}.
Arguments w_securities {S}.

(** A [BaseStrategy] object: its attributes and its four callbacks.  A
    callback may mutate the world and may raise, in any combination. *)
Record Strategy (S : Type) := mkStrategy {
  st_state : S;
  initialize : World S -> World S * Completion;
  before_trading_start : Date -> World S -> World S * Completion;
  handle_data : DailyData -> Date -> World S -> World S * Completion;
  after_trading_end : Date -> World S -> World S * Completion
}.
Arguments mkStrategy {S}.
Arguments st_state {S}.
Arguments initialize {S}.
Arguments before_trading_start {S}.
Arguments handle_data {S}.
Arguments after_trading_end {S}.

Definition set_state {S} (st : Strategy S) (s : S) : Strategy S :=
  mkStrategy s (initialize st) (before_trading_start st)
             (handle_data st) (after_trading_end st).

(** ** The engine *)

(** The steps of the per-date pipeline, as they are entered, and the entry
    that the handler of the date loop writes to the error log (line 170). *)
Inductive Event :=
| EvBeforeTradingStart (d : Date)
| EvHandleData (d : Date)
| EvProcessOrders (d : Date)
| EvUpdatePrices (d : Date)
| EvAfterTradingEnd (d : Date)
| EvRecord (d : Date)
| EvLogError (d : Date).

(** What leaves [run]: an exception or the result dictionary. *)
Inductive Exn :=
| NoStrategy        (* Exception("未设置策略，请先调用set_strategy()") *)
| NoData            (* Exception("未获取到数据") *)
| Uncaught (x : PyException)
                    (* [x] is no [Exception]: the handler of line 169 lets it pass *)
| HandlerError (x : PyException)
                    (* [str(x)] raised inside the handler of line 170 *)
| ResultsError.     (* an exception out of _generate_results *)

Inductive Outcome := Raised (x : Exn) | Returned (r : Results).

#[global] Instance Event_eq_dec : EqDecision Event.
Proof. solve_decision. Defined.

Module BacktestEngine.
(** The attributes of a [BacktestEngine]; the list object that the engine
    has put under ['securities'] in the strategy's context, which from line
    98 on is the list handed to [run] and iterated on line 137; and two
    journals that the source does not keep: the pipeline steps entered and
    the error-log entries of the date loop so far, and the orders handed to
    [OrderManager.process_order] so far. *)
Record t (S : Type) := mk {
  data_provider : list string -> Date -> Date -> string -> DataFrame;
  portfolio : Portfolio.t;
  order_manager : OrderManager.t;
  strategy : option (Strategy S);
  context_securities : list string;
  results : option Results;
  trace : list Event;
  process_order_calls : list Order.t
}.
Arguments mk {S}.
Arguments data_provider {S}.
Arguments portfolio {S}.
Arguments order_manager {S}.
Arguments strategy {S}.
Arguments context_securities {S}.
Arguments results {S}.
Arguments trace {S}.
Arguments process_order_calls {S}.

(** [BacktestEngine.__init__] *)
Definition init {S}
    (dp : list string -> Date -> Date -> string -> DataFrame)
    (initial_cash commission_rate slippage : Q) : t S :=
  mk dp (Portfolio.init initial_cash)
     (OrderManager.mk commission_rate slippage [])
     None [] None [] [].
End BacktestEngine.

Section EngineOps.
Context {S : Type}.
#[local] Abbreviation Engine := (BacktestEngine.t S).

Definition set_portfolio (e : Engine) (pf : Portfolio.t) : Engine :=
  BacktestEngine.mk (BacktestEngine.data_provider e) pf
    (BacktestEngine.order_manager e) (BacktestEngine.strategy e)
    (BacktestEngine.context_securities e) (BacktestEngine.results e)
    (BacktestEngine.trace e) (BacktestEngine.process_order_calls e).

Definition set_order_manager (e : Engine) (om : OrderManager.t) : Engine :=
  BacktestEngine.mk (BacktestEngine.data_provider e)
    (BacktestEngine.portfolio e) om (BacktestEngine.strategy e)
    (BacktestEngine.context_securities e) (BacktestEngine.results e)
    (BacktestEngine.trace e) (BacktestEngine.process_order_calls e).

Definition set_strategy_obj (e : Engine) (st : option (Strategy S)) : Engine :=
  BacktestEngine.mk (BacktestEngine.data_provider e)
    (BacktestEngine.portfolio e) (BacktestEngine.order_manager e) st
    (BacktestEngine.context_securities e) (BacktestEngine.results e)
    (BacktestEngine.trace e) (BacktestEngine.process_order_calls e).

Definition set_context_securities (e : Engine) (secs : list string) : Engine :=
  BacktestEngine.mk (BacktestEngine.data_provider e)
    (BacktestEngine.portfolio e) (BacktestEngine.order_manager e)
    (BacktestEngine.strategy e) secs (BacktestEngine.results e)
    (BacktestEngine.trace e) (BacktestEngine.process_order_calls e).

Definition set_results (e : Engine) (r : option Results) : Engine :=
  BacktestEngine.mk (BacktestEngine.data_provider e)
    (BacktestEngine.portfolio e) (BacktestEngine.order_manager e)
    (BacktestEngine.strategy e) (BacktestEngine.context_securities e) r
    (BacktestEngine.trace e) (BacktestEngine.process_order_calls e).

Definition log_event (e : Engine) (ev : Event) : Engine :=
  BacktestEngine.mk (BacktestEngine.data_provider e)
    (BacktestEngine.portfolio e) (BacktestEngine.order_manager e)
    (BacktestEngine.strategy e) (BacktestEngine.context_securities e)
    (BacktestEngine.results e)
    (BacktestEngine.trace e ++ [ev]) (BacktestEngine.process_order_calls e).

Definition log_calls (e : Engine) (cs : list Order.t) : Engine :=
  BacktestEngine.mk (BacktestEngine.data_provider e)
    (BacktestEngine.portfolio e) (BacktestEngine.order_manager e)
    (BacktestEngine.strategy e) (BacktestEngine.context_securities e)
    (BacktestEngine.results e)
    (BacktestEngine.trace e) (BacktestEngine.process_order_calls e ++ cs).

(** The world a callback of strategy [st] sees, and the engine after the
    callback has left the world as [w]. *)
Definition world_of (e : Engine) (st : Strategy S) : World S :=
  mkWorld (st_state st) (BacktestEngine.portfolio e)
          (BacktestEngine.order_manager e)
          (BacktestEngine.context_securities e).

Definition absorb_world (e : Engine) (st : Strategy S) (w : World S) : Engine :=
  BacktestEngine.mk (BacktestEngine.data_provider e)
    (w_portfolio w) (w_order_manager w)
    (Some (set_state st (w_state w))) (w_securities w)
    (BacktestEngine.results e)
    (BacktestEngine.trace e) (BacktestEngine.process_order_calls e).

(** [BacktestEngine.set_strategy]: the strategy is attached first, then
    initialised; [Raise] when [initialize] raises. *)
Definition set_strategy (e : Engine) (st : Strategy S) : Engine * Completion :=
  let e1 := set_context_securities (set_strategy_obj e (Some st)) [] in
  let '(w, c) := initialize st (world_of e1 st) in
  (absorb_world e1 st w, c).

(** Computations inside the [try] of the date loop: they run on the
    engine and either yield a value or raise, the engine keeping what was
    done before the exception. *)
Definition M (A : Type) : Type := Engine -> Engine * (PyException + A).

Definition ret {A} (a : A) : M A := fun e => (e, inr a).

Definition bind {A B} (m : M A) (k : A -> M B) : M B :=
  fun e =>
    match m e with
    | (e', inr a) => k a e'
    | (e', inl x) => (e', inl x)
    end.

(** [AttributeError], as a call on [None] raises it. *)
Definition attribute_error : PyException := mkPyException true true.

(** A callback of the attached strategy. *)
Definition call_hook (ev : Event)
    (hook : Strategy S -> World S -> World S * Completion) : M unit :=
  fun e =>
    match BacktestEngine.strategy e with
    | None => (e, inl attribute_error)
    | Some st =>
        let '(w, c) := hook st (world_of (log_event e ev) st) in
        (absorb_world (log_event e ev) st w,
         match c with Normal => inr tt | Raise x => inl x end)
    end.

(** [BacktestEngine._process_orders] *)
Definition _process_orders (date : Date) (daily_data : DailyData) : M unit :=
  fun e =>
    let e := log_event e (EvProcessOrders date) in
    let om := BacktestEngine.order_manager e in
    let '(os, pf, log) :=
      settle_all om date daily_data (OrderManager.orders om)
                 (BacktestEngine.portfolio e) in
    (log_calls (set_portfolio (set_order_manager e (OrderManager.set_orders om os)) pf) log,
     inr tt).
#[local] Notation "m >> k" := (bind m (fun _ => k))
  (at level 90, right associativity).

(** Lines 112-117: the rows of the day.  With a [security] column the
    boolean mask gives a frame; without it [.loc[current_date]] gives a
    series when the date labels one row and a frame when it labels
    several. *)
Definition rows_at (d : Date) (rs : list Row) : list Row :=
  List.filter (fun r => bool_decide (row_index r = d)) rs.

Definition in_index (d : Date) (df : DataFrame) : bool :=
  bool_decide (d ∈ List.map row_index (rows df)).

Definition daily_slice (all_data : DataFrame) (d : Date) : DailyData :=
  if has_column "security" (columns all_data) then
    if in_index d all_data
    then DFrame (mkDataFrame (index_is_datetime all_data)
                   (columns all_data) (rows_at d (rows all_data)))
    else DFrame (mkDataFrame false [] [])
  else
    if in_index d all_data then
      match rows_at d (rows all_data) with
      | [r] => DSeries (columns all_data) r
      | rs => DFrame (mkDataFrame (index_is_datetime all_data)
                        (columns all_data) rs)
      end
    else DSeries [] (mkRow d EmptyString CNaN).

(** Lines 139-153: the closing price used to mark security [sec]. *)
Definition mark_price (all_data : DataFrame) (dd : DailyData) (sec : string)
  : PriceRead :=
  if has_column "security" (columns all_data) then
    match dd with
    | DFrame df =>
        if has_column "security" (columns df) then
          match rows_of_security sec (rows df) with
          | [] => PNone
          | sec_data =>
              if has_column "close" (columns df)
              then close_iloc0 sec_data else PNone
          end
        else PRaised
    | DSeries _ _ => PNone
    end
  else
    match dd with
    | DSeries cols r =>
        if has_column "close" cols then PCell (row_close r) else PNone
    | DFrame df =>
        if has_column "close" (columns df)
        then close_iloc0 (rows df) else PNone
    end.

(** Lines 136-159: the [prices] dictionary. *)
Definition collect_prices (all_data : DataFrame) (dd : DailyData)
    (securities : list string) : gmap string Q :=
  fold_left
    (fun prices sec =>
       match price_available (mark_price all_data dd sec) with
       | Some p => <[sec := p]> prices
       | None => prices
       end)
    securities ∅.

(** Line 161 *)
Definition update_prices_step (d : Date) (prices : gmap string Q) : M unit :=
  fun e =>
    let e := log_event e (EvUpdatePrices d) in
    (set_portfolio e (Portfolio.update_prices (BacktestEngine.portfolio e) prices),
     inr tt).

(** Line 167 *)
Definition record_step (d : Date) : M unit :=
  fun e =>
    let e := log_event e (EvRecord d) in
    (set_portfolio e (Portfolio.record (BacktestEngine.portfolio e) d), inr tt).

(** Lines 136-161: the prices are collected for the securities of the
    list handed to [run], as that list stands when the loop of line 137
    starts: it is the object stored in the context on line 98. *)
Definition mark_prices_step (all_data : DataFrame) (daily_data : DailyData)
    (d : Date) : M unit :=
  fun e =>
    update_prices_step d
      (collect_prices all_data daily_data
         (BacktestEngine.context_securities e)) e.

(** Lines 111-167: the body of the [try] for one date. *)
Definition process_date (all_data : DataFrame) (current_date : Date)
  : M unit :=
  let daily_data := daily_slice all_data current_date in
  if daily_empty daily_data then ret tt
  else
    call_hook (EvBeforeTradingStart current_date)
              (fun st => before_trading_start st current_date) >>
    call_hook (EvHandleData current_date)
              (fun st => handle_data st daily_data current_date) >>
    _process_orders current_date daily_data >>
    mark_prices_step all_data daily_data current_date >>
    call_hook (EvAfterTradingEnd current_date)
              (fun st => after_trading_end st current_date) >>
    record_step current_date.

(** Lines 169-171: the handler of the date loop.  It takes instances of
    [Exception] only; it formats the message with [str()] of the exception,
    which can raise in its turn, and then writes the log entry.  What it
    does not take, or raises itself, leaves [run]. *)
Definition handle_date_error (current_date : Date) (x : PyException)
    (e : Engine) : Engine * option Exn :=
  if is_Exception x then
    if str_returns x then (log_event e (EvLogError current_date), None)
    else (e, Some (HandlerError x))
  else (e, Some (Uncaught x)).

(** Lines 109-171: one turn of the loop.  After a handled exception the
    loop goes on with what the date has done so far. *)
Definition try_date (all_data : DataFrame) (e : Engine)
    (current_date : Date) : Engine * option Exn :=
  match process_date all_data current_date e with
  | (e', inr _) => (e', None)
  | (e', inl x) => handle_date_error current_date x e'
  end.

(** The loop of line 109 *)
Fixpoint date_loop (all_data : DataFrame) (dates : list Date) (e : Engine)
  : Engine * option Exn :=
  match dates with
  | [] => (e, None)
  | current_date :: rest =>
      match try_date all_data e current_date with
      | (e', None) => date_loop all_data rest e'
      | (e', Some x) => (e', Some x)
      end
  end.

(** [sorted(all_data.index.unique())] *)
Fixpoint insert_date (d : Date) (l : list Date) : list Date :=
  match l with
  | [] => [d]
  | x :: l' => if (d <=? x)%Z then d :: x :: l' else x :: insert_date d l'
  end.

Definition sorted_dates (l : list Date) : list Date :=
  fold_right insert_date [] l.

(** Lines 102-107; both branches are the same expression. *)
Definition trading_dates (all_data : DataFrame) : list Date :=
  if index_is_datetime all_data
  then sorted_dates (remove_dups (List.map row_index (rows all_data)))
  else [].

(** Line 174: [self.results] is assigned when [_generate_results]
    returns and stays as it is when it raises. *)
Definition store_results (e : Engine) (res : option Results) : Engine :=
  BacktestEngine.mk (BacktestEngine.data_provider e)
    (BacktestEngine.portfolio e) (BacktestEngine.order_manager e)
    (BacktestEngine.strategy e) (BacktestEngine.context_securities e)
    (match res with Some r => Some r | None => BacktestEngine.results e end)
    (BacktestEngine.trace e) (BacktestEngine.process_order_calls e).

(** [BacktestEngine.run] *)
Definition run (e : Engine) (start_date end_date : Date)
    (securities : list string) (frequency : string) : Engine * Outcome :=
  match BacktestEngine.strategy e with
  | None => (e, Raised NoStrategy)
  | Some _ =>
      let all_data :=
        BacktestEngine.data_provider e securities start_date end_date
                                     frequency in
      if df_empty all_data then (e, Raised NoData)
      else
        let e1 := set_context_securities e securities in
        let dates := trading_dates all_data in
        match date_loop all_data dates e1 with
        | (e2, Some x) => (e2, Raised x)
        | (e2, None) =>
            let res := _generate_results (BacktestEngine.portfolio e2)
                                         (BacktestEngine.order_manager e2) in
            (store_results e2 res,
             match res with
             | Some r => Returned r
             | None => Raised ResultsError
             end)
        end
  end.
End EngineOps.

(** ** Well-formed backlogs *)

(** A filled order carries its fill amount, fill price and fill time.
    [process_order] and the settlement loop establish this for every order
    they fill. *)
Definition filled_complete (o : Order.t) : Prop :=
  Order.status o = FILLED ->
  is_Some (Order.fill_amount o) /\ is_Some (Order.fill_price o) /\
  is_Some (Order.fill_time o).

(** The part of it that report generation cannot do without: the fill
    amount and the fill price of a filled order are set, so that the
    arithmetic on them does not raise. *)
Definition filled_priced (o : Order.t) : Prop :=
  Order.status o = FILLED ->
  is_Some (Order.fill_amount o) /\ is_Some (Order.fill_price o).

(** Entry [t] of the trade history is the one of order [o]. *)
Definition trade_of_order (rate : Q) (o : Order.t) (t : Trade) : Prop :=
  exists fa fp ft,
    Order.fill_amount o = Some fa /\ Order.fill_price o = Some fp /\
    Order.fill_time o = Some ft /\
    t_date t = ft /\ t_security t = Order.security o /\
    t_amount t = Qabs fa /\ t_price t = fp /\
    t_value t = Qabs (fa * fp) /\
    t_commission t = Qabs (fa * fp) * rate /\
    (0 < fa -> t_type t = Buy /\
               t_net_value t = - (t_value t + t_commission t)) /\
    (fa <= 0 -> t_type t = Sell /\
                t_net_value t = t_value t - t_commission t).

(** Chronological order of two entries. *)
Definition date_le (a b : Trade) : Prop := (t_date a <= t_date b)%Z.

(** ** Strategies and the backlog *)

Definition backlog_ok (om : OrderManager.t) : Prop :=
  Forall filled_priced (OrderManager.orders om).

(** A callback that does not corrupt the backlog: whatever it does to the
    world, raising or not, the filled orders of the backlog have their fill
    amount and price afterwards if they had before.  Submitting orders does
    so. *)
Definition hook_respects_backlog {S}
    (h : World S -> World S * Completion) : Prop :=
  forall w, backlog_ok (w_order_manager w) ->
            backlog_ok (w_order_manager (h w).1).

Definition strategy_respects_backlog {S} (st : Strategy S) : Prop :=
  (forall d, hook_respects_backlog (before_trading_start st d)) /\
  (forall dd d, hook_respects_backlog (handle_data st dd d)) /\
  (forall d, hook_respects_backlog (after_trading_end st d)).

(** Two strategy objects with the same callbacks (the attributes may
    differ). *)
Definition same_hooks {S} (st st' : Strategy S) : Prop :=
  before_trading_start st' = before_trading_start st /\
  handle_data st' = handle_data st /\
  after_trading_end st' = after_trading_end st.

(** The steps of one date, in the order of the source. *)
Definition pipeline (d : Date) : list Event :=
  [EvBeforeTradingStart d; EvHandleData d; EvProcessOrders d;
   EvUpdatePrices d; EvAfterTradingEnd d; EvRecord d].

(** The exceptions that the handler of the date loop takes and logs. *)
Definition catchable (x : PyException) : Prop :=
  is_Exception x = true /\ str_returns x = true.

Definition hook_raises_catchable {S}
    (h : World S -> World S * Completion) : Prop :=
  forall w x, (h w).2 = Raise x -> catchable x.

Definition strategy_raises_catchable {S} (st : Strategy S) : Prop :=
  (forall d, hook_raises_catchable (before_trading_start st d)) /\
  (forall dd d, hook_raises_catchable (handle_data st dd d)) /\
  (forall d, hook_raises_catchable (after_trading_end st d)).

(** What the journal shows of one date, and why.  Either each of the
    three callbacks has completed, in some world, and the whole pipeline is
    there; or one of them has raised, after the ones before it have
    completed: the steps up to it are there, the log entry of the handler
    follows, and no later step of the date is. *)
Inductive date_outcome {S} (st : Strategy S) (dd : DailyData) (d : Date)
  : list Event -> Prop :=
| date_completed w1 w2 w3 :
    (before_trading_start st d w1).2 = Normal ->
    (handle_data st dd d w2).2 = Normal ->
    (after_trading_end st d w3).2 = Normal ->
    date_outcome st dd d (pipeline d)
| date_left_before w1 x :
    (before_trading_start st d w1).2 = Raise x ->
    date_outcome st dd d (firstn 1 (pipeline d) ++ [EvLogError d])
| date_left_in_handle_data w1 w2 x :
    (before_trading_start st d w1).2 = Normal ->
    (handle_data st dd d w2).2 = Raise x ->
    date_outcome st dd d (firstn 2 (pipeline d) ++ [EvLogError d])
| date_left_after w1 w2 w3 x :
    (before_trading_start st d w1).2 = Normal ->
    (handle_data st dd d w2).2 = Normal ->
    (after_trading_end st d w3).2 = Raise x ->
    date_outcome st dd d (firstn 5 (pipeline d) ++ [EvLogError d]).

(** The dates of the snapshot steps of a journal. *)
Definition recorded_dates (journal : list Event) : list Date :=
  flat_map (fun ev => match ev with EvRecord d => [d] | _ => [] end) journal.

(** A callback that leaves the portfolio's list of snapshot dates alone,
    whether it raises or not. *)
Definition hook_keeps_snapshot_dates {S}
    (h : World S -> World S * Completion) : Prop :=
  forall w, Portfolio.date_history (w_portfolio (h w).1)
            = Portfolio.date_history (w_portfolio w).

Definition strategy_keeps_snapshot_dates {S} (st : Strategy S) : Prop :=
  (forall d, hook_keeps_snapshot_dates (before_trading_start st d)) /\
  (forall dd d, hook_keeps_snapshot_dates (handle_data st dd d)) /\
  (forall d, hook_keeps_snapshot_dates (after_trading_end st d)).

(** The journal of one date when the date alone decides which callback
    raises: [raises_before d], [raises_handle d], [raises_after d]. *)
Definition date_journal (raises_before raises_handle raises_after : Date -> bool)
    (d : Date) : list Event :=
  if raises_before d then firstn 1 (pipeline d) ++ [EvLogError d]
  else if raises_handle d then firstn 2 (pipeline d) ++ [EvLogError d]
  else if raises_after d then firstn 5 (pipeline d) ++ [EvLogError d]
  else pipeline d.

(** Lines 248 and 253 do not raise on this portfolio: the two histories
    have the same length and the power of the annualised return is
    defined. *)
Definition statistics_defined (pf : Portfolio.t) : Prop :=
  length (Portfolio.total_value_history pf)
    = length (Portfolio.date_history pf) /\
  exists v,
    annual_return_of
      (Portfolio.s_total_profit_rate (Portfolio.get_summary pf))
      (length (Portfolio.total_value_history pf)) = inr v.

(** ** Prices in the words of the specification *)

(** The rows of a day and its column labels. *)
Definition day_rows (dd : DailyData) : list Row :=
  match dd with
  | DSeries _ r => [r]
  | DFrame df => rows df
  end.

Definition day_columns (dd : DailyData) : list string :=
  match dd with
  | DSeries cols _ => cols
  | DFrame df => columns df
  end.

(** The security a row belongs to: the one its [security] cell names when
    there is that column, and otherwise the single security [owner] that
    the table was fetched for. *)
Definition row_owner (dd : DailyData) (owner : string) (r : Row) : string :=
  if has_column "security" (day_columns dd) then row_security r else owner.

Definition cell_is_number (c : Cell) : bool :=
  match c with CNum _ => true | CNaN => false end.

(** The rows of the day hold a price for security [sec] that is present
    and is not NaN. *)
Definition price_in_rows (owner : string) (dd : DailyData) (sec : string)
  : bool :=
  has_column "close" (day_columns dd) &&
  existsb (fun r => bool_decide (row_owner dd owner r = sec) &&
                    cell_is_number (row_close r))
          (day_rows dd).

(** The settlement lookup goes by the order's security: the day is a table
    with a [security] column (lines 196-200).  A single row, or a table
    without that column, is read whatever security the order names. *)
Definition looked_up_by_security (dd : DailyData) : bool :=
  match dd with
  | DFrame df => has_column "security" (columns df)
  | DSeries _ _ => false
  end.

(** ** Daily returns in the words of the specification *)

(** The percentage change of each total value over the one before it; the
    first value is 0. *)
Fixpoint spec_changes (prev : R) (vs : list R) : list R :=
  match vs with
  | [] => []
  | v :: vs' => (v / prev - 1)%R :: spec_changes v vs'
  end.

Definition spec_daily_returns (vs : list R) : list R :=
  match vs with
  | [] => []
  | v :: vs' => 0%R :: spec_changes v vs'
  end.

(** ** A worked scenario

    One security priced flat at 100, the default commission rate 0.0003 and
    slippage 0.001, and an order for 1000 shares. *)

Definition om_ex : OrderManager.t :=
  OrderManager.mk (3 # 10000) (1 # 1000) [].

Definition buy_ex : Order.t := Order.new "A" 1000 0%Z.
Definition sell_ex : Order.t := Order.new "A" (-1000) 0%Z.

Definition day_ex : DailyData :=
  DSeries ["open"; "close"; "high"; "low"; "volume"] (mkRow 1%Z EmptyString (CNum 100)).

(** A day on which the close of the row is NaN. *)
Definition day_nan_ex : DailyData :=
  DSeries ["open"; "close"; "high"; "low"; "volume"] (mkRow 1%Z EmptyString CNaN).

Definition rich_pf_ex : Portfolio.t := Portfolio.init 1000000.
Definition poor_pf_ex : Portfolio.t := Portfolio.init 50000.

(** 400 shares of "A" in the book. *)
Definition holding_pf_ex : Portfolio.t :=
  Portfolio.add_position (Portfolio.init 50000) "A" 400 100.

(** A portfolio that was recorded three times without a trade. *)
Definition flat_pf_ex : Portfolio.t :=
  Portfolio.mk 1000000 1000000 ∅ [1; 2; 3]%Z
    [1000000; 1000000; 1000000] [1000000; 1000000; 1000000].

(** A portfolio of 1 recorded once, at 90.1. *)
Definition windfall_pf_ex : Portfolio.t :=
  Portfolio.mk 1 (901 # 10) ∅ [1%Z] [901 # 10] [901 # 10].

(** A portfolio of 100 recorded three times, at 100, 110 and 99. *)
Definition swing_pf_ex : Portfolio.t :=
  Portfolio.mk 100 99 ∅ [1; 2; 3]%Z [100; 110; 99] [100; 110; 99].

(** A day of a two-security table: "A" closes at 100, the close of "B" is
    NaN, and there is no row for any other security. *)
Definition two_stock_day_ex : DailyData :=
  DFrame (mkDataFrame true
            ["open"; "close"; "high"; "low"; "volume"; "security"]
            [mkRow 1%Z "A" (CNum 100); mkRow 1%Z "B" CNaN]).

(** Five trading days of one security, closing at 100. *)
Definition flat_data_ex : DataFrame :=
  mkDataFrame true ["open"; "close"; "high"; "low"; "volume"]
    (List.map (fun d => mkRow d EmptyString (CNum 100)) [1; 2; 3; 4; 5]%Z).

(** The engine with the buy order in its backlog, before a strategy is
    attached. *)
Definition engine_ex : BacktestEngine.t unit :=
  set_order_manager
    (BacktestEngine.init (fun _ _ _ _ => flat_data_ex)
       1000000 (3 # 10000) (1 # 1000))
    (OrderManager.mk (3 # 10000) (1 # 1000) [buy_ex]).

(** The backlog after the first settlement step of the scenario. *)
Definition filled_om_ex : OrderManager.t :=
  BacktestEngine.order_manager (_process_orders 1%Z day_ex engine_ex).1.

(** A [ValueError], a [SystemExit], and an instance of a subclass of
    [Exception] whose [__str__] raises. *)
Definition value_error_ex : PyException := mkPyException true true.
Definition system_exit_ex : PyException := mkPyException false true.
Definition unprintable_ex : PyException := mkPyException true false.

(** A strategy that submits the buy order on day 1 and whose
    [handle_data] raises on day 3, after submitting one more order. *)
Definition submit {S} (w : World S) (o : Order.t) : World S :=
  mkWorld (w_state w) (w_portfolio w)
    (OrderManager.set_orders (w_order_manager w)
       (OrderManager.orders (w_order_manager w) ++ [o]))
    (w_securities w).

Definition faulty_ex : Strategy unit :=
  mkStrategy tt
    (fun w => (w, Normal))
    (fun _ w => (w, Normal))
    (fun _ d w =>
       if (d =? 1)%Z then (submit w (Order.new "A" 1000 d), Normal)
       else if (d =? 3)%Z
            then (submit w (Order.new "A" 10 d), Raise value_error_ex)
       else (w, Normal))
    (fun _ w => (w, Normal)).

(** The same strategy, leaving through [sys.exit()] on day 3. *)
Definition exiting_ex : Strategy unit :=
  mkStrategy tt
    (fun w => (w, Normal))
    (fun _ w => (w, Normal))
    (fun _ d w =>
       if (d =? 1)%Z then (submit w (Order.new "A" 1000 d), Normal)
       else if (d =? 3)%Z then (w, Raise system_exit_ex)
       else (w, Normal))
    (fun _ w => (w, Normal)).

(** The same strategy, raising the exception without a message on day 3. *)
Definition garbled_ex : Strategy unit :=
  mkStrategy tt
    (fun w => (w, Normal))
    (fun _ w => (w, Normal))
    (fun _ d w =>
       if (d =? 1)%Z then (submit w (Order.new "A" 1000 d), Normal)
       else if (d =? 3)%Z then (w, Raise unprintable_ex)
       else (w, Normal))
    (fun _ w => (w, Normal)).

Definition fresh_engine_ex : BacktestEngine.t unit :=
  BacktestEngine.init (fun _ _ _ _ => flat_data_ex)
    1000000 (3 # 10000) (1 # 1000).

Definition run_engine_ex : BacktestEngine.t unit :=
  (set_strategy fresh_engine_ex faulty_ex).1.

Definition exiting_engine_ex : BacktestEngine.t unit :=
  (set_strategy fresh_engine_ex exiting_ex).1.

Definition garbled_engine_ex : BacktestEngine.t unit :=
  (set_strategy fresh_engine_ex garbled_ex).1.

(** The same prices under an index that is not a [DatetimeIndex]. *)
Definition plain_data_ex : DataFrame :=
  mkDataFrame false (columns flat_data_ex) (rows flat_data_ex).

Definition plain_engine_ex : BacktestEngine.t unit :=
  (set_strategy
     (BacktestEngine.init (fun _ _ _ _ => plain_data_ex)
        1000000 (3 # 10000) (1 # 1000))
     faulty_ex).1.

(** A running minimum that has met a value that is at most 0. *)
Definition low (b : xreal) : Prop :=
  b = XNInf \/ exists m, (m <= 0)%R /\ b = XFin m.

(** The drawdown of each snapshot: how far the cumulative return stands
    below its running maximum, relative to that maximum. *)
Definition drawdown_series (cumulative : list xreal) (best : option xreal)
  : list xreal :=
  zip_with (fun c m => xdiv (xsub c m) m) cumulative
           (expanding_max_from best cumulative).

(** The maximum drawdown in the words of the specification, on a history
    of real numbers: the decline of each snapshot from the highest value so
    far, relative to that value, and the largest of these declines. *)
Fixpoint peak_declines (peak : R) (vs : list R) : list R :=
  match vs with
  | [] => []
  | v :: vs' =>
      let peak' := Rmax peak v in
      ((peak' - v) / peak')%R :: peak_declines peak' vs'
  end.

Definition spec_max_drawdown (vs : list R) : R :=
  match vs with
  | [] => 0%R
  | v :: vs' => fold_left Rmax (peak_declines v vs') 0%R
  end.

(** Two buy orders for the scenario's engine, the second for a security
    that the table does not name. *)
Definition two_orders_engine_ex : BacktestEngine.t unit :=
  set_order_manager
    (BacktestEngine.init (fun _ _ _ _ => flat_data_ex)
       1000000 (3 # 10000) (1 # 1000))
    (OrderManager.mk (3 # 10000) (1 # 1000)
       [buy_ex; Order.new "B" (-5) 0%Z]).

(** A two-security table over two days; "B" has no row on day 2. *)
Definition two_stock_data_ex : DataFrame :=
  mkDataFrame true ["open"; "close"; "high"; "low"; "volume"; "security"]
    [mkRow 1%Z "A" (CNum 100); mkRow 2%Z "A" (CNum 101);
     mkRow 1%Z "B" (CNum 50)].

(** The backlog after a settlement step on the single-security day: both
    orders are filled, on the same date. *)
Definition twin_om_ex : OrderManager.t :=
  BacktestEngine.order_manager
    (_process_orders 1%Z day_ex two_orders_engine_ex).1.

(** [order.fill_time] is set. *)
Definition has_fill_time (o : Order.t) : bool :=
  match Order.fill_time o with Some _ => true | None => false end.

(** The entries of a trade history that carry date [d]. *)
Definition trades_on (d : Date) (l : list Trade) : list Trade :=
  List.filter (fun t => (t_date t =? d)%Z) l.

(** A strategy that submits the buy order on day 1 and never raises. *)
Definition calm_ex : Strategy unit :=
  mkStrategy tt
    (fun w => (w, Normal))
    (fun _ w => (w, Normal))
    (fun _ d w =>
       if (d =? 1)%Z then (submit w (Order.new "A" 1000 d), Normal)
       else (w, Normal))
    (fun _ w => (w, Normal)).

Definition calm_engine_ex : BacktestEngine.t unit :=
  (set_strategy fresh_engine_ex calm_ex).1.

(** A callback that does not raise and leaves the portfolio's list of
    snapshot dates alone. *)
Definition hook_is_calm {S} (h : World S -> World S * Completion) : Prop :=
  forall w, (h w).2 = Normal /\
            Portfolio.date_history (w_portfolio (h w).1)
              = Portfolio.date_history (w_portfolio w).

(** * Properties *)

(** ** Comparisons *)

Lemma Qgtb_true x y : Qgtb x y = true <-> y < x.
Proof.
  unfold Qgtb. rewrite negb_true_iff, <- not_true_iff_false, Qle_bool_iff.
  split; [apply Qnot_le_lt | apply Qlt_not_le].
Qed.

Lemma Qgtb_false x y : Qgtb x y = false <-> x <= y.
Proof. unfold Qgtb. rewrite negb_false_iff. apply Qle_bool_iff. Qed.

Lemma Qgeb_true x y : Qgeb x y = true <-> y <= x.
Proof. apply Qle_bool_iff. Qed.

Lemma Qgeb_false x y : Qgeb x y = false <-> x < y.
Proof.
  unfold Qgeb. rewrite <- not_true_iff_false, Qle_bool_iff.
  split; [apply Qnot_le_lt | apply Qlt_not_le].
Qed.

(** ** The fill model *)

Lemma process_order_pending om o p :
  Order.status o = PENDING ->
  OrderManager.process_order om o p =
    (Order.mk (Order.security o) (Order.amount o) FILLED
       (Some (if Qgtb (Order.amount o) 0
              then p * (1 + OrderManager.slippage om)
              else p * (1 - OrderManager.slippage om)))
       (Some (Order.amount o)) (Order.fill_time o) (Order.add_time o), true).
Proof. intros H. unfold OrderManager.process_order. now rewrite H. Qed.

Lemma process_order_not_pending om o p :
  Order.status o <> PENDING -> OrderManager.process_order om o p = (o, false).
Proof.
  intros H. unfold OrderManager.process_order.
  destruct (Order.status o); congruence.
Qed.

Lemma stamp_fill_time_fields o d :
  Order.security (stamp_fill_time o d) = Order.security o /\
  Order.amount (stamp_fill_time o d) = Order.amount o /\
  Order.status (stamp_fill_time o d) = Order.status o /\
  Order.fill_price (stamp_fill_time o d) = Order.fill_price o /\
  Order.fill_amount (stamp_fill_time o d) = Order.fill_amount o /\
  is_Some (Order.fill_time (stamp_fill_time o d)).
Proof.
  unfold stamp_fill_time.
  destruct (Order.fill_time o) eqn:E; simpl; rewrite ?E; eauto 10.
Qed.

(** The shape of [settle_order] on a pending order whose price is known:
    the order is filled in full, stamped, and its fill goes to the ledger. *)
Lemma settle_order_priced om date dd o pf p :
  Order.status o = PENDING ->
  price_available (current_price_of dd (Order.security o)) = Some p ->
  exists o2,
    settle_order om date dd o pf = Settlement.mk o2 (apply_fill om o2 pf) [o] /\
    Order.security o2 = Order.security o /\
    Order.status o2 = FILLED /\
    Order.fill_amount o2 = Some (Order.amount o) /\
    Order.fill_price o2 =
      Some (if Qgtb (Order.amount o) 0
            then p * (1 + OrderManager.slippage om)
            else p * (1 - OrderManager.slippage om)) /\
    is_Some (Order.fill_time o2).
Proof.
  intros Hs Hp. unfold settle_order. rewrite Hp.
  rewrite (process_order_pending _ _ _ Hs).
  eexists. split; [reflexivity|].
  match goal with |- context [stamp_fill_time ?x date] =>
    destruct (stamp_fill_time_fields x date) as (H1 & _ & H3 & H4 & H5 & H6)
  end.
  rewrite H1, H3, H4, H5. auto.
Qed.

Lemma settle_order_unpriced om date dd o pf :
  price_available (current_price_of dd (Order.security o)) = None ->
  settle_order om date dd o pf = Settlement.mk o pf [].
Proof. intros Hp. unfold settle_order. now rewrite Hp. Qed.

(** ** The ledger effect of a fill *)

Lemma cash_add_position pf sec a p :
  Portfolio.cash (Portfolio.add_position pf sec a p) = Portfolio.cash pf.
Proof. reflexivity. Qed.

Lemma cash_set_cash pf c : Portfolio.cash (Portfolio.set_cash pf c) = c.
Proof. reflexivity. Qed.

Lemma cash_remove_position pf sec a p :
  Portfolio.cash (Portfolio.remove_position pf sec a p) = Portfolio.cash pf.
Proof.
  unfold Portfolio.remove_position.
  now destruct (Portfolio.positions pf !! sec).
Qed.

(** A buy fill either leaves the ledger alone or is paid for in full. *)
Lemma apply_fill_buy om o pf fa fp :
  Order.fill_amount o = Some fa ->
  Order.fill_price o = Some fp ->
  0 < fa ->
  let cost := fa * fp + Qabs (fa * fp) * OrderManager.commission_rate om in
  (Portfolio.cash pf < cost /\ apply_fill om o pf = pf) \/
  (cost <= Portfolio.cash pf /\
   apply_fill om o pf =
     Portfolio.add_position
       (Portfolio.set_cash pf (Portfolio.cash pf - cost))
       (Order.security o) fa fp).
Proof.
  intros Ha Hp Hpos cost. unfold apply_fill, OrderManager.get_commission.
  rewrite Ha, Hp.
  apply Qgtb_true in Hpos. rewrite Hpos. fold cost.
  destruct (Qgeb (Portfolio.cash pf) cost) eqn:E.
  - right. apply Qgeb_true in E. auto.
  - left. apply Qgeb_false in E. auto.
Qed.

(** A sell fill either leaves the ledger alone or finds the shares and is
    paid out. *)
Lemma apply_fill_sell om o pf fa fp :
  Order.fill_amount o = Some fa ->
  Order.fill_price o = Some fp ->
  fa <= 0 ->
  let revenue :=
    Qabs fa * fp - Qabs (fa * fp) * OrderManager.commission_rate om in
  apply_fill om o pf = pf \/
  exists position,
    Portfolio.get_position pf (Order.security o) = Some position /\
    Qabs fa <= Position.amount position /\
    apply_fill om o pf =
      Portfolio.remove_position
        (Portfolio.set_cash pf (Portfolio.cash pf + revenue))
        (Order.security o) (Qabs fa) fp.
Proof.
  intros Ha Hp Hneg revenue. unfold apply_fill, OrderManager.get_commission.
  rewrite Ha, Hp.
  apply Qgtb_false in Hneg. rewrite Hneg.
  destruct (Portfolio.get_position pf (Order.security o)) as [pos|]; [|auto].
  destruct (Qgeb (Position.amount pos) (Qabs fa)) eqn:E; [|auto].
  right. exists pos. split; [reflexivity|]. split; [now apply Qgeb_true in E|].
  reflexivity.
Qed.

(** What a sale brings in is not negative when the price is not negative
    and the commission rate is at most 1. *)
Lemma sell_revenue_nonneg fa fp rate :
  0 <= fp -> rate <= 1 -> 0 <= Qabs fa * fp - Qabs (fa * fp) * rate.
Proof.
  intros Hfp Hrate.
  assert (E : Qabs (fa * fp) == Qabs fa * fp)
    by (rewrite Qabs_Qmult, (Qabs_pos fp Hfp); reflexivity).
  rewrite E.
  assert (Hv : 0 <= Qabs fa * fp)
    by (apply Qmult_le_0_compat; [apply Qabs_nonneg|exact Hfp]).
  assert (Hm : 0 <= (Qabs fa * fp) * (1 - rate))
    by (apply Qmult_le_0_compat; [exact Hv|lra]).
  lra.
Qed.

(** ** Settlement of one order *)

(** C1.  A pending buy order that the settlement step reaches with a known
    price [p] is filled in full at [p * (1 + slippage)].  When the cash at
    hand is less than fill_amount * fill_price + commission the portfolio
    is left exactly as it was (cash, positions and histories); in every case
    the portfolio is either untouched or its cash after the fill is not
    negative, so that cash >= 0 is preserved by the settlement. *)
Theorem buy_settlement_never_overdraws om date dd o pf p :
  Order.status o = PENDING ->
  0 < Order.amount o ->
  price_available (current_price_of dd (Order.security o)) = Some p ->
  let s := settle_order om date dd o pf in
  let fill_price := p * (1 + OrderManager.slippage om) in
  let commission :=
    Qabs (Order.amount o * fill_price) * OrderManager.commission_rate om in
  Order.status (Settlement.order s) = FILLED /\
  Order.fill_amount (Settlement.order s) = Some (Order.amount o) /\
  Order.fill_price (Settlement.order s) = Some fill_price /\
  OrderManager.get_commission om (Settlement.order s) = Some commission /\
  (Portfolio.cash pf < Order.amount o * fill_price + commission ->
   Settlement.portfolio s = pf) /\
  (Settlement.portfolio s = pf \/
   0 <= Portfolio.cash (Settlement.portfolio s)) /\
  (0 <= Portfolio.cash pf -> 0 <= Portfolio.cash (Settlement.portfolio s)).
Proof.
  intros Hst Hbuy Hp s fill_price commission. subst s.
  destruct (settle_order_priced om date dd o pf p Hst Hp)
    as (o2 & -> & _ & Hs & Hfa & Hfp & _). simpl.
  pose proof Hbuy as Hb. apply Qgtb_true in Hb. rewrite Hb in Hfp.
  fold fill_price in Hfp.
  assert (Hcm : OrderManager.get_commission om o2 = Some commission).
  { unfold OrderManager.get_commission. now rewrite Hfa, Hfp. }
  repeat split; try assumption.
  - intros Hlt.
    destruct (apply_fill_buy om o2 pf _ _ Hfa Hfp Hbuy) as [[_ E]|[Hle _]];
      [exact E|].
    exfalso. fold commission in Hle. lra.
  - destruct (apply_fill_buy om o2 pf _ _ Hfa Hfp Hbuy) as [[_ E]|[Hle E]];
      [now left|].
    right. rewrite E, cash_add_position, cash_set_cash. lra.
  - intros Hc.
    destruct (apply_fill_buy om o2 pf _ _ Hfa Hfp Hbuy) as [[_ E]|[Hle E]];
      rewrite E; [exact Hc|].
    rewrite cash_add_position, cash_set_cash. lra.
Qed.

(** The buy of 1000 shares at 100 against 50,000 of cash. *)
Lemma buy_settlement_never_overdraws_witness :
  Order.status buy_ex = PENDING /\
  0 < Order.amount buy_ex /\
  price_available (current_price_of day_ex (Order.security buy_ex)) = Some 100 /\
  Settlement.portfolio (settle_order om_ex 1%Z day_ex buy_ex poor_pf_ex)
    = poor_pf_ex.
Proof.
  split; [reflexivity|]. split; [reflexivity|]. split; [reflexivity|].
  apply (buy_settlement_never_overdraws om_ex 1%Z day_ex buy_ex poor_pf_ex 100
           eq_refl eq_refl eq_refl).
  reflexivity.
Defined.

(** C2.  A pending sell order leaves the portfolio exactly as it was (cash,
    the position, every other position) when the book has no position in
    its security or one whose amount is less than the amount to sell. *)
Theorem sell_settlement_insufficient_position om date dd o pf :
  Order.status o = PENDING ->
  Order.amount o < 0 ->
  (Portfolio.get_position pf (Order.security o) = None \/
   exists position,
     Portfolio.get_position pf (Order.security o) = Some position /\
     Position.amount position < Qabs (Order.amount o)) ->
  let s := settle_order om date dd o pf in
  Settlement.portfolio s = pf /\
  Portfolio.cash (Settlement.portfolio s) = Portfolio.cash pf /\
  Portfolio.get_position (Settlement.portfolio s) (Order.security o)
    = Portfolio.get_position pf (Order.security o).
Proof.
  intros Hst Hsell Hpos s.
  assert (E : Settlement.portfolio s = pf); [|now rewrite E].
  subst s.
  destruct (price_available (current_price_of dd (Order.security o)))
    as [p|] eqn:Hp; [|now rewrite (settle_order_unpriced _ _ _ _ _ Hp)].
  destruct (settle_order_priced om date dd o pf p Hst Hp)
    as (o2 & -> & Hsec & _ & Hfa & Hfp & _). simpl.
  destruct (apply_fill_sell om o2 pf _ _ Hfa Hfp) as [E|(pos & Hg & Hle & _)];
    [lra|exact E|].
  exfalso. rewrite Hsec in Hg.
  destruct Hpos as [Hn|(pos' & Hg' & Hlt)]; [congruence|].
  rewrite Hg in Hg'. inversion Hg'; subst. lra.
Qed.

(** Selling 1000 shares out of a book that holds 400. *)
Lemma sell_settlement_insufficient_position_witness :
  Order.status sell_ex = PENDING /\
  Order.amount sell_ex < 0 /\
  (exists position,
     Portfolio.get_position holding_pf_ex (Order.security sell_ex)
       = Some position /\
     Position.amount position < Qabs (Order.amount sell_ex)) /\
  Settlement.portfolio (settle_order om_ex 1%Z day_ex sell_ex holding_pf_ex)
    = holding_pf_ex.
Proof.
  assert (H : exists position,
     Portfolio.get_position holding_pf_ex (Order.security sell_ex)
       = Some position /\
     Position.amount position < Qabs (Order.amount sell_ex)).
  { exists (Position.mk "A" 400 100 100). split; reflexivity. }
  split; [reflexivity|]. split; [reflexivity|]. split; [exact H|].
  apply (sell_settlement_insufficient_position om_ex 1%Z day_ex sell_ex
           holding_pf_ex eq_refl eq_refl (or_intror H)).
Defined.

(** ** One pass over the backlog *)

Lemma settle_all_cons om date dd o os pf :
  settle_all om date dd (o :: os) pf =
    let s := turn om date dd o pf in
    let r := settle_all om date dd os (Settlement.portfolio s) in
    (Settlement.order s :: r.1.1, r.1.2, Settlement.calls s ++ r.2).
Proof.
  simpl. now destruct (settle_all om date dd os _) as [[? ?] ?].
Qed.

Lemma settle_all_length om date dd os : forall pf,
  length (settle_all om date dd os pf).1.1 = length os.
Proof.
  induction os as [|o os IH]; intros pf; [reflexivity|].
  rewrite settle_all_cons. simpl. now rewrite IH.
Qed.

(** Every entry of the backlog is replaced by the outcome of its own turn,
    taken at the ledger the earlier entries have left. *)
Lemma settle_all_lookup om date dd os : forall pf i o,
  os !! i = Some o ->
  exists pf_i,
    (settle_all om date dd os pf).1.1 !! i
      = Some (Settlement.order (turn om date dd o pf_i)).
Proof.
  induction os as [|x os IH]; intros pf i o Hi; [discriminate|].
  rewrite settle_all_cons. destruct i as [|i]; simpl in *.
  - inversion Hi; subst. now exists pf.
  - apply (IH _ _ _ Hi).
Qed.

Lemma turn_not_pending om date dd o pf :
  Order.status o <> PENDING -> turn om date dd o pf = Settlement.mk o pf [].
Proof.
  intros H. unfold turn, Order.is_pending. now rewrite bool_decide_eq_false_2.
Qed.

Lemma turn_pending om date dd o pf :
  Order.status o = PENDING -> turn om date dd o pf = settle_order om date dd o pf.
Proof.
  intros H. unfold turn, Order.is_pending. now rewrite bool_decide_eq_true_2.
Qed.

(** The status of an entry after its turn. *)
Lemma turn_status om date dd o pf :
  Order.status (Settlement.order (turn om date dd o pf)) = Order.status o \/
  (Order.status o = PENDING /\
   Order.status (Settlement.order (turn om date dd o pf)) = FILLED).
Proof.
  destruct (decide (Order.status o = PENDING)) as [Hs|Hs].
  - rewrite (turn_pending _ _ _ _ _ Hs).
    destruct (price_available (current_price_of dd (Order.security o)))
      as [p|] eqn:Hp.
    + destruct (settle_order_priced om date dd o pf p Hs Hp)
        as (o2 & -> & _ & H & _). auto.
    + rewrite (settle_order_unpriced _ _ _ _ _ Hp). auto.
  - rewrite (turn_not_pending _ _ _ _ _ Hs). auto.
Qed.

(** Only a pending entry is handed to [process_order], and once. *)
Lemma turn_calls om date dd o pf :
  Settlement.calls (turn om date dd o pf) = [] \/
  (Order.status o = PENDING /\ Settlement.calls (turn om date dd o pf) = [o]).
Proof.
  destruct (decide (Order.status o = PENDING)) as [Hs|Hs].
  - rewrite (turn_pending _ _ _ _ _ Hs).
    destruct (price_available (current_price_of dd (Order.security o)))
      as [p|] eqn:Hp.
    + destruct (settle_order_priced om date dd o pf p Hs Hp) as (o2 & -> & _).
      auto.
    + rewrite (settle_order_unpriced _ _ _ _ _ Hp). auto.
  - rewrite (turn_not_pending _ _ _ _ _ Hs). auto.
Qed.

Lemma settle_all_status om date dd os : forall pf,
  Forall2 (fun o o' =>
             Order.status o' = Order.status o \/
             (Order.status o = PENDING /\
              (Order.status o' = FILLED \/ Order.status o' = REJECTED)))
          os (settle_all om date dd os pf).1.1.
Proof.
  induction os as [|o os IH]; intros pf; [constructor|].
  rewrite settle_all_cons. simpl. constructor; [|apply IH].
  destruct (turn_status om date dd o pf) as [H|[H1 H2]]; auto.
Qed.

Lemma settle_all_calls om date dd os : forall pf,
  Forall (fun o => Order.status o = PENDING) (settle_all om date dd os pf).2 /\
  sublist (settle_all om date dd os pf).2 (List.filter Order.is_pending os).
Proof.
  induction os as [|o os IH]; intros pf; [split; constructor|].
  rewrite settle_all_cons. simpl.
  destruct (IH (Settlement.portfolio (turn om date dd o pf))) as [IH1 IH2].
  destruct (turn_calls om date dd o pf) as [->|[Hs ->]]; simpl.
  - split; [exact IH1|].
    destruct (Order.is_pending o); [now apply sublist_cons|exact IH2].
  - split; [now constructor|].
    unfold Order.is_pending at 1. rewrite (bool_decide_eq_true_2 _ Hs).
    now apply sublist_skip.
Qed.

Lemma settle_all_no_pending om date dd os : forall pf,
  Forall (fun o => Order.status o <> PENDING) os ->
  settle_all om date dd os pf = (os, pf, []).
Proof.
  induction os as [|o os IH]; intros pf H; [reflexivity|].
  inversion H as [|? ? Ho Hos]; subst.
  rewrite settle_all_cons, (turn_not_pending _ _ _ _ _ Ho). simpl.
  now rewrite (IH _ Hos).
Qed.

(** One pass of the loop over a backlog in which every pending order is a
    buy keeps cash non-negative. *)
Lemma settle_all_buys_cash_nonneg om date dd os : forall pf,
  Forall (fun o => Order.status o = PENDING -> 0 < Order.amount o) os ->
  0 <= Portfolio.cash pf ->
  0 <= Portfolio.cash (settle_all om date dd os pf).1.2.
Proof.
  induction os as [|o os IH]; intros pf Hall Hc; [exact Hc|].
  inversion Hall as [|? ? Ho Hos]; subst. simpl.
  set (s := turn om date dd o pf).
  assert (Hs : 0 <= Portfolio.cash (Settlement.portfolio s)).
  { subst s. unfold turn, Order.is_pending.
    case_bool_decide as Hst; [|exact Hc].
    destruct (price_available (current_price_of dd (Order.security o)))
      as [p|] eqn:Hp.
    - destruct (settle_order_priced om date dd o pf p Hst Hp)
        as (o2 & -> & _ & _ & Hfa & Hfp & _). simpl.
      destruct (apply_fill_buy om o2 pf _ _ Hfa Hfp (Ho Hst)) as [[_ ->]|[Hle ->]];
        [exact Hc|].
      rewrite cash_add_position, cash_set_cash. lra.
    - now rewrite (settle_order_unpriced _ _ _ _ _ Hp). }
  specialize (IH _ Hos Hs).
  destruct (settle_all om date dd os (Settlement.portfolio s)) as [[os' pf'] lg].
  exact IH.
Qed.

(** With a commission rate in [0, 1], a slippage of at most 1 and prices
    that are not negative, one pass of the loop keeps cash non-negative
    whatever the orders are. *)
Lemma settle_all_cash_nonneg om date dd os : forall pf,
  OrderManager.commission_rate om <= 1 ->
  OrderManager.slippage om <= 1 ->
  (forall sec p, price_available (current_price_of dd sec) = Some p -> 0 <= p) ->
  0 <= Portfolio.cash pf ->
  0 <= Portfolio.cash (settle_all om date dd os pf).1.2.
Proof.
  induction os as [|o os IH]; intros pf Hrate Hslip Hprice Hc; [exact Hc|].
  rewrite settle_all_cons. simpl. apply IH; try assumption.
  unfold turn, Order.is_pending. case_bool_decide as Hst; [|exact Hc].
  destruct (price_available (current_price_of dd (Order.security o)))
    as [p|] eqn:Hp; [|now rewrite (settle_order_unpriced _ _ _ _ _ Hp)].
  destruct (settle_order_priced om date dd o pf p Hst Hp)
    as (o2 & -> & _ & _ & Hfa & Hfp & _). simpl.
  specialize (Hprice _ _ Hp).
  destruct (Qlt_le_dec 0 (Order.amount o)) as [Hbuy|Hsell].
  - destruct (apply_fill_buy om o2 pf _ _ Hfa Hfp Hbuy) as [[_ ->]|[Hle ->]];
      [exact Hc|].
    rewrite cash_add_position, cash_set_cash. lra.
  - destruct (apply_fill_sell om o2 pf _ _ Hfa Hfp Hsell)
      as [->|(pos & _ & _ & ->)]; [exact Hc|].
    rewrite cash_remove_position, cash_set_cash.
    pose proof Hsell as Hg. apply Qgtb_false in Hg. rewrite Hg in *.
    assert (Hfp0 : 0 <= p * (1 - OrderManager.slippage om))
      by (apply Qmult_le_0_compat; [exact Hprice|lra]).
    pose proof (sell_revenue_nonneg (Order.amount o) _ _ Hfp0 Hrate). lra.
Qed.

(** What [_process_orders] leaves in the engine. *)
Lemma process_orders_state {S} (e : BacktestEngine.t S) date dd :
  let r := settle_all (BacktestEngine.order_manager e) date dd
             (OrderManager.orders (BacktestEngine.order_manager e))
             (BacktestEngine.portfolio e) in
  let e' := (_process_orders date dd e).1 in
  OrderManager.orders (BacktestEngine.order_manager e') = r.1.1 /\
  OrderManager.commission_rate (BacktestEngine.order_manager e')
    = OrderManager.commission_rate (BacktestEngine.order_manager e) /\
  OrderManager.slippage (BacktestEngine.order_manager e')
    = OrderManager.slippage (BacktestEngine.order_manager e) /\
  BacktestEngine.portfolio e' = r.1.2 /\
  BacktestEngine.process_order_calls e'
    = BacktestEngine.process_order_calls e ++ r.2 /\
  BacktestEngine.trace e' = BacktestEngine.trace e ++ [EvProcessOrders date] /\
  BacktestEngine.strategy e' = BacktestEngine.strategy e /\
  (_process_orders date dd e).2 = inr tt.
Proof.
  intros r e'. subst r e'. unfold _process_orders. simpl.
  destruct (settle_all _ _ _ _ _) as [[os pf] lg]. simpl. auto 10.
Qed.

(** When the lookup goes by the order's security, or every row of the day
    belongs to that security, a price that the rows do not hold is a price
    that the lookup does not find. *)
Lemma price_not_in_rows_not_found owner dd sec :
  price_in_rows owner dd sec = false ->
  looked_up_by_security dd = true \/
    Forall (fun r => row_owner dd owner r = sec) (day_rows dd) ->
  price_available (current_price_of dd sec) = None.
Proof.
  unfold price_in_rows. intros Hp Hby.
  destruct (has_column "close" (day_columns dd)) eqn:Hclose; simpl in Hp.
  - assert (Hrows : forall r, In r (day_rows dd) ->
                      row_owner dd owner r = sec -> row_close r = CNaN).
    { intros r Hin Hown.
      destruct (row_close r) as [q|] eqn:Hc; [|reflexivity].
      assert (Hex : existsb
                (fun r => bool_decide (row_owner dd owner r = sec) &&
                          cell_is_number (row_close r)) (day_rows dd) = true).
      { apply existsb_exists. exists r. split; [exact Hin|].
        rewrite (bool_decide_eq_true_2 _ Hown), Hc. reflexivity. }
      congruence. }
    destruct dd as [cols r|df]; simpl in *.
    + rewrite Hclose. destruct Hby as [Hby|Hall]; [discriminate|].
      inversion Hall as [|? ? Hr _].
      now rewrite (Hrows r (or_introl eq_refl) Hr).
    + unfold row_owner in *. simpl in *.
      destruct (has_column "security" (columns df)) eqn:Hsec.
      * destruct (rows_of_security sec (rows df)) as [|r0 rs] eqn:E;
          [reflexivity|]. rewrite Hclose. simpl.
        assert (Hin : In r0 (rows_of_security sec (rows df)))
          by (rewrite E; now left).
        apply filter_In in Hin as [Hin Hs].
        apply bool_decide_eq_true_1 in Hs.
        now rewrite (Hrows r0 Hin Hs).
      * rewrite Hclose. destruct Hby as [Hby|Hall]; [discriminate|].
        destruct (rows df) as [|r0 rs]; [reflexivity|]. simpl.
        inversion Hall as [|? ? Hr _].
        now rewrite (Hrows r0 (or_introl eq_refl) Hr).
  - destruct dd as [cols r|df]; simpl in *.
    + now rewrite Hclose.
    + rewrite Hclose.
      destruct (has_column "security" (columns df)); [|reflexivity].
      now destruct (rows_of_security sec (rows df)).
Qed.

(** C5, as amended.  Take a day whose rows hold no price (present and not
    NaN) for the security of a pending order, where a row belongs to the
    security that its [security] cell names and, without that column, to
    the single security [owner] the table was fetched for.  If the day is a
    table with a [security] column, or all of its rows belong to the order's
    security, the order comes out of the settlement step as it went in:
    still pending, fill price and fill amount unset, neither filled nor
    rejected; and a later settlement step whose rows do give a price fills
    it. *)
Theorem unpriced_order_stays_pending {S} (e : BacktestEngine.t S)
    owner date dd i o :
  OrderManager.orders (BacktestEngine.order_manager e) !! i = Some o ->
  Order.status o = PENDING ->
  Order.fill_price o = None ->
  Order.fill_amount o = None ->
  price_in_rows owner dd (Order.security o) = false ->
  looked_up_by_security dd = true \/
    Forall (fun r => row_owner dd owner r = Order.security o) (day_rows dd) ->
  let e' := (_process_orders date dd e).1 in
  OrderManager.orders (BacktestEngine.order_manager e') !! i = Some o /\
  (forall o', OrderManager.orders (BacktestEngine.order_manager e') !! i = Some o' ->
     Order.status o' = PENDING /\
     Order.fill_price o' = None /\ Order.fill_amount o' = None) /\
  (forall date2 dd2 p,
     price_available (current_price_of dd2 (Order.security o)) = Some p ->
     exists o2,
       OrderManager.orders
         (BacktestEngine.order_manager (_process_orders date2 dd2 e').1) !! i
         = Some o2 /\
       Order.status o2 = FILLED).
Proof.
  intros Hi Hs Hfp Hfa Hrows Hby e'.
  pose proof (price_not_in_rows_not_found owner dd _ Hrows Hby) as Hp.
  assert (Hi' : OrderManager.orders (BacktestEngine.order_manager e') !! i
                = Some o).
  { subst e'. destruct (process_orders_state e date dd) as (-> & _).
    destruct (settle_all_lookup (BacktestEngine.order_manager e) date dd _
                (BacktestEngine.portfolio e) i o Hi) as (pf_i & ->).
    now rewrite (turn_pending _ _ _ _ _ Hs), (settle_order_unpriced _ _ _ _ _ Hp). }
  split; [exact Hi'|]. split.
  - intros o' Ho'. rewrite Hi' in Ho'. inversion Ho'; subst. auto.
  - intros date2 dd2 p Hp2.
    destruct (process_orders_state e' date2 dd2) as (-> & _).
    destruct (settle_all_lookup (BacktestEngine.order_manager e') date2 dd2 _
                (BacktestEngine.portfolio e') i o Hi') as (pf_i & ->).
    rewrite (turn_pending _ _ _ _ _ Hs).
    destruct (settle_order_priced (BacktestEngine.order_manager e') date2 dd2
                o pf_i p Hs Hp2) as (o2 & -> & _ & H & _).
    eauto.
Qed.

(** C6.  One settlement step moves the status of a backlog entry forward
    only (it stays, or goes from pending to filled or rejected); an entry
    that is not pending comes out identical; the orders handed to
    [OrderManager.process_order] during the step are all pending and are
    taken from the pending entries of the backlog, each at most once; and a
    backlog without pending entries leaves backlog and portfolio alone. *)
Theorem settlement_only_touches_pending {S} (e : BacktestEngine.t S) date dd :
  let e' := (_process_orders date dd e).1 in
  let os := OrderManager.orders (BacktestEngine.order_manager e) in
  let os' := OrderManager.orders (BacktestEngine.order_manager e') in
  Forall2 (fun o o' =>
             Order.status o' = Order.status o \/
             (Order.status o = PENDING /\
              (Order.status o' = FILLED \/ Order.status o' = REJECTED)))
          os os' /\
  (forall i o, os !! i = Some o -> Order.status o <> PENDING ->
               os' !! i = Some o) /\
  (exists log,
     BacktestEngine.process_order_calls e'
       = BacktestEngine.process_order_calls e ++ log /\
     Forall (fun o => Order.status o = PENDING) log /\
     sublist log (List.filter Order.is_pending os)) /\
  (Forall (fun o => Order.status o <> PENDING) os ->
   os' = os /\ BacktestEngine.portfolio e' = BacktestEngine.portfolio e /\
   BacktestEngine.process_order_calls e' = BacktestEngine.process_order_calls e).
Proof.
  intros e' os os'. subst e' os os'.
  destruct (process_orders_state e date dd) as (-> & _ & _ & -> & -> & _).
  split; [apply settle_all_status|]. split; [|split].
  - intros i o Hi Hs.
    destruct (settle_all_lookup (BacktestEngine.order_manager e) date dd _
                (BacktestEngine.portfolio e) i o Hi) as (pf_i & ->).
    now rewrite (turn_not_pending _ _ _ _ _ Hs).
  - eexists. split; [reflexivity|]. apply settle_all_calls.
  - intros H. rewrite (settle_all_no_pending _ _ _ _ _ H). simpl.
    now rewrite app_nil_r.
Qed.

Example lookup_two_stock_day :
  price_available (current_price_of two_stock_day_ex "A") = Some 100 /\
  price_available (current_price_of two_stock_day_ex "B") = None /\
  price_available (current_price_of two_stock_day_ex "C") = None.
Proof. repeat split. Qed.

(** The sell order for "B" on the day of the two-security table on which
    the close of "B" is NaN: "A" is bought, "B" stays pending. *)
Lemma unpriced_order_stays_pending_witness :
  OrderManager.orders (BacktestEngine.order_manager two_orders_engine_ex)
    !! 1%nat = Some (Order.new "B" (-5) 0%Z) /\
  price_in_rows "A" two_stock_day_ex "B" = false /\
  looked_up_by_security two_stock_day_ex = true /\
  OrderManager.orders
    (BacktestEngine.order_manager
       (_process_orders 1%Z two_stock_day_ex two_orders_engine_ex).1)
    !! 1%nat = Some (Order.new "B" (-5) 0%Z).
Proof.
  repeat (split; [reflexivity|]).
  apply (unpriced_order_stays_pending two_orders_engine_ex "A" 1%Z
           two_stock_day_ex 1%nat (Order.new "B" (-5) 0%Z)
           eq_refl eq_refl eq_refl eq_refl eq_refl (or_introl eq_refl)).
Defined.

(** C5 as stated fails on a single-security day.  The table was fetched
    for "A" alone and has no [security] column; its row of day 1 closes at
    100.  The rows hold no price for "B", yet the pending sell order for
    "B" is filled, at the close of "A" less the slippage. *)
Lemma unpriced_order_filled_on_single_security_day :
  let e' := (_process_orders 1%Z day_ex two_orders_engine_ex).1 in
  exists o',
    OrderManager.orders (BacktestEngine.order_manager two_orders_engine_ex)
      !! 1%nat = Some (Order.new "B" (-5) 0%Z) /\
    Order.status (Order.new "B" (-5) 0%Z) = PENDING /\
    price_in_rows "A" day_ex "B" = false /\
    OrderManager.orders (BacktestEngine.order_manager e') !! 1%nat = Some o' /\
    Order.status o' = FILLED /\
    Order.fill_price o' = Some (100 * (1 - (1 # 1000))) /\
    Order.fill_amount o' = Some (-5).
Proof. eexists. repeat split. Qed.

(** ** The fill model in numbers *)

(** C7.  [process_order] fills a pending order in full, a buy at
    p * (1 + slippage) and a sell at p * (1 - slippage), and the commission
    of the filled order is |fill_amount * fill_price| * commission_rate.
    In the scenario (cash 1,000,000, price 100, a buy of 1000 shares, rate
    0.0003, slippage 0.001) the settlement step fills at 100.1, charges
    30.03 and leaves 899,869.97 of cash. *)
Theorem fill_price_and_commission om o p :
  Order.status o = PENDING ->
  let r := OrderManager.process_order om o p in
  (r.2 = true /\
   Order.status r.1 = FILLED /\
   Order.fill_amount r.1 = Some (Order.amount o) /\
   (0 < Order.amount o ->
    Order.fill_price r.1 = Some (p * (1 + OrderManager.slippage om))) /\
   (Order.amount o < 0 ->
    Order.fill_price r.1 = Some (p * (1 - OrderManager.slippage om))) /\
   (exists fp,
      Order.fill_price r.1 = Some fp /\
      OrderManager.get_commission om r.1
        = Some (Qabs (Order.amount o * fp) * OrderManager.commission_rate om)))
  /\
  (let e' := (_process_orders 1%Z day_ex engine_ex).1 in
   exists o' fp commission,
     OrderManager.orders (BacktestEngine.order_manager e') = [o'] /\
     Order.fill_price o' = Some fp /\ fp == 1001 # 10 /\
     OrderManager.get_commission (BacktestEngine.order_manager e') o'
       = Some commission /\
     commission == 3003 # 100 /\
     Portfolio.cash (BacktestEngine.portfolio e') == 89986997 # 100).
Proof.
  intros Hs r. subst r. rewrite (process_order_pending _ _ _ Hs). simpl.
  split.
  - split; [reflexivity|]. split; [reflexivity|]. split; [reflexivity|].
    split; [|split].
    + intros H. apply Qgtb_true in H. now rewrite H.
    + intros H. assert (H' : Order.amount o <= 0) by lra.
      apply Qgtb_false in H'. now rewrite H'.
    + eexists. split; reflexivity.
  - eexists _, _, _. vm_compute. repeat split; reflexivity.
Qed.

Lemma fill_price_and_commission_witness :
  Order.status buy_ex = PENDING /\
  Order.fill_price (OrderManager.process_order om_ex buy_ex 100).1
    = Some (100 * (1 + OrderManager.slippage om_ex)).
Proof.
  split; [reflexivity|].
  apply (fill_price_and_commission om_ex buy_ex 100 eq_refl).
  reflexivity.
Defined.

(** ** The return series *)

Section Sharpe.
Local Open Scope R_scope.

Lemma Rgtb_true x y : Rgtb x y = true <-> y < x.
Proof. unfold Rgtb. destruct (Rlt_dec y x); split; auto; discriminate. Qed.

Lemma Rgtb_false x y : Rgtb x y = false <-> x <= y.
Proof.
  unfold Rgtb. destruct (Rlt_dec y x); split; intros H;
    try discriminate; try reflexivity; lra.
Qed.

Lemma Reqb_true x y : Reqb x y = true <-> x = y.
Proof. unfold Reqb. destruct (Req_dec_T x y); split; auto; discriminate. Qed.

Lemma Reqb_false x y : Reqb x y = false <-> x <> y.
Proof.
  unfold Reqb. destruct (Req_dec_T x y); split; auto; try discriminate.
  contradiction.
Qed.

(** *** The annualised return *)

Lemma float_max_ge_1 : 1 <= float_max.
Proof.
  unfold float_max. apply (IZR_le 1). apply Z.leb_le. reflexivity.
Qed.

Lemma Rpower_le_1 x y : 0 < x <= 1 -> 0 <= y -> Rpower x y <= 1.
Proof.
  intros [Hx0 Hx1] Hy. unfold Rpower. rewrite <- exp_0.
  assert (Hln : ln x <= 0).
  { rewrite <- ln_1. destruct Hx1 as [Hlt| ->]; [|lra].
    left. now apply ln_increasing. }
  assert (H : y * ln x <= 0) by nra.
  destruct H as [H|H]; [left; now apply exp_increasing|rewrite H; lra].
Qed.

(** A base in (0, 1] never overflows. *)
Lemma float_pow_unit_interval x y :
  0 < x <= 1 -> 0 < y -> float_pow x y = inr (PyFloat (Rpower x y)).
Proof.
  intros Hx Hy. unfold float_pow.
  assert (H1 : Reqb y 0 = false) by (apply Reqb_false; lra).
  assert (H2 : Reqb x 0 = false) by (apply Reqb_false; lra).
  rewrite H1, H2, Rabs_right by lra.
  pose proof (Rpower_le_1 x y Hx ltac:(lra)) as Hp.
  pose proof float_max_ge_1 as Hm.
  assert (H3 : Rgtb (Rpower x y) float_max = false) by (apply Rgtb_false; lra).
  assert (H4 : Rgtb x 0 = true) by (apply Rgtb_true; lra).
  cbv zeta. now rewrite H3, H4.
Qed.

(** Without a loss of everything and without a gain the annualised return
    is defined. *)
Lemma annual_return_of_loss tr n :
  (-1 < tr)%Q -> (tr <= 0)%Q -> exists v, annual_return_of tr n = inr v.
Proof.
  intros Hlo Hhi. destruct n as [|n]; [simpl; eauto|].
  unfold annual_return_of.
  apply Qlt_Rlt in Hlo. apply Qle_Rle in Hhi.
  assert (Hm1 : Q2R (-1) = -1) by (unfold Q2R; cbn [Qnum Qden]; lra).
  rewrite Hm1 in Hlo.
  rewrite RMicromega.Q2R_0 in Hhi.
  rewrite float_pow_unit_interval; [eauto|lra|].
  apply Rdiv_lt_0_compat; [lra|apply lt_0_INR; lia].
Qed.

(** A gain of 8910 percent over a single recorded date: 90.1 ** 252 is
    beyond the largest float. *)
Example annual_return_overflows :
  annual_return_of (891 # 10) 1 = inl OverflowError.
Proof.
  unfold annual_return_of, float_pow.
  assert (Hx : 1 + Q2R (891 # 10) = 901 / 10)
    by (unfold Q2R; cbn [Qnum Qden]; lra).
  assert (Hy : 252 / INR 1 = INR 252).
  { rewrite (INR_IZR_INZ 252), (INR_IZR_INZ 1).
    change (Z.of_nat 252) with 252%Z. change (Z.of_nat 1) with 1%Z. lra. }
  rewrite Hx, Hy.
  assert (H1 : Reqb (INR 252) 0 = false).
  { apply Reqb_false. rewrite (INR_IZR_INZ 252).
    change (Z.of_nat 252) with 252%Z. lra. }
  assert (H2 : Reqb (901 / 10) 0 = false) by (apply Reqb_false; lra).
  rewrite H1, H2, Rabs_right by lra. cbv zeta.
  rewrite Rpower_pow by lra.
  assert (H3 : Rgtb ((901 / 10) ^ 252) float_max = true).
  { apply Rgtb_true. apply Rlt_le_trans with (IZR 64 ^ 252).
    - rewrite pow_IZR. unfold float_max. apply IZR_lt.
      apply Z.ltb_lt. reflexivity.
    - apply pow_incr. lra. }
  now rewrite H3.
Qed.

(** *** The shape of the report *)

Lemma generate_results_inv pf om r :
  _generate_results pf om = Some r ->
  exists annual ts,
    length (Portfolio.total_value_history pf)
      = length (Portfolio.date_history pf) /\
    annual_return_of
      (Portfolio.s_total_profit_rate (Portfolio.get_summary pf))
      (length (Portfolio.total_value_history pf)) = inr annual /\
    trade_entries om (OrderManager.get_filled_orders om) = Some ts /\
    r = mkResults (Portfolio.get_summary pf)
          (returns_series (Portfolio.total_value_history pf))
          (returns_pct_series (Portfolio.total_value_history pf))
          (mkMetrics
             (Portfolio.s_total_profit_rate (Portfolio.get_summary pf))
             annual
             (sharpe_of (returns_pct_series (Portfolio.total_value_history pf)))
             (_calculate_max_drawdown
                (returns_series (Portfolio.total_value_history pf)))
             (length (OrderManager.get_filled_orders om)))
          (mkPortfolioHistory (Portfolio.date_history pf)
             (Portfolio.total_value_history pf) (Portfolio.cash_history pf))
          (sort_by_date ts).
Proof.
  unfold _generate_results. intros H.
  destruct (length (Portfolio.total_value_history pf)
            =? length (Portfolio.date_history pf))%nat eqn:El;
    [|discriminate].
  apply Nat.eqb_eq in El. simpl in H.
  unfold returns_series in H at 1. rewrite length_map in H.
  destruct (annual_return_of _ _) as [err|annual]; [discriminate|].
  destruct (trade_entries om _) as [ts|]; [|discriminate].
  inversion H. now exists annual, ts.
Qed.

Lemma generate_results_intro pf om annual ts :
  length (Portfolio.total_value_history pf)
    = length (Portfolio.date_history pf) ->
  annual_return_of
    (Portfolio.s_total_profit_rate (Portfolio.get_summary pf))
    (length (Portfolio.total_value_history pf)) = inr annual ->
  trade_entries om (OrderManager.get_filled_orders om) = Some ts ->
  exists r, _generate_results pf om = Some r.
Proof.
  intros Hl Ha Ht. unfold _generate_results.
  rewrite (proj2 (Nat.eqb_eq _ _) Hl). cbn [negb].
  unfold returns_series at 1. rewrite length_map, Ha, Ht. eauto.
Qed.

(** What makes report generation raise ahead of the trade history. *)
Lemma generate_results_statistics pf om r :
  _generate_results pf om = Some r -> statistics_defined pf.
Proof.
  intros H. destruct (generate_results_inv pf om r H) as (a & ts & Hl & Ha & _).
  split; eauto.
Qed.

(** On the portfolio of that gain report generation raises. *)
Example report_generation_overflows :
  _generate_results windfall_pf_ex om_ex = None.
Proof.
  destruct (_generate_results windfall_pf_ex om_ex) as [r|] eqn:E;
    [|reflexivity].
  apply generate_results_inv in E as (a & ts & _ & Ha & _).
  assert (Hq : Q2R (Portfolio.s_total_profit_rate
                      (Portfolio.get_summary windfall_pf_ex))
               = Q2R (891 # 10)) by (apply Qeq_eqR; reflexivity).
  pose proof annual_return_overflows as Ho.
  unfold annual_return_of in Ha, Ho.
  change (length (Portfolio.total_value_history windfall_pf_ex)) with 1%nat
    in Ha.
  rewrite Hq in Ha. rewrite Ho in Ha. discriminate Ha.
Qed.

Lemma fresh_statistics_defined pf :
  Portfolio.total_value_history pf = [] -> Portfolio.date_history pf = [] ->
  statistics_defined pf.
Proof.
  intros H1 H2. unfold statistics_defined. rewrite H1, H2. simpl. eauto.
Qed.

(** *** Sums *)

Lemma xsum_fin_acc rs : forall a,
  fold_left xadd (List.map XFin rs) (XFin a) = XFin (fold_left Rplus rs a).
Proof. induction rs as [|r rs IH]; intros a; simpl; auto. Qed.

Lemma xsum_fin rs : xsum (List.map XFin rs) = XFin (rsum rs).
Proof. apply xsum_fin_acc. Qed.

Lemma xadd_nan_l x : xadd XNaN x = XNaN.
Proof. now destruct x. Qed.

Lemma xsum_nan_acc l : fold_left xadd l XNaN = XNaN.
Proof. induction l as [|x l IH]; simpl; auto. Qed.

(** A NaN among the summands makes the sum NaN. *)
Lemma xsum_in_nan l : forall acc, In XNaN l -> fold_left xadd l acc = XNaN.
Proof.
  induction l as [|x l IH]; intros acc [].
  - subst. simpl. replace (xadd acc XNaN) with XNaN by now destruct acc.
    apply xsum_nan_acc.
  - simpl. now apply IH.
Qed.

(** A finite sum has finite summands only. *)
Lemma xsum_fin_inv l : forall acc r,
  fold_left xadd l acc = XFin r ->
  xis_fin acc = true /\ forallb xis_fin l = true.
Proof.
  induction l as [|x l IH]; intros acc r H; simpl in *.
  - now subst.
  - destruct (IH _ _ H) as [H1 H2]. rewrite H2.
    destruct acc, x; simpl in *; auto; discriminate.
Qed.

(** An infinite sum has a summand of that sign. *)
Lemma xsum_pinf_inv l : forall acc,
  fold_left xadd l acc = XPInf -> acc = XPInf \/ In XPInf l.
Proof.
  induction l as [|x l IH]; intros acc H; simpl in *; [auto|].
  destruct (IH _ H) as [E|E]; [|auto].
  destruct acc, x; simpl in *; auto; discriminate.
Qed.

Lemma xsum_ninf_inv l : forall acc,
  fold_left xadd l acc = XNInf -> acc = XNInf \/ In XNInf l.
Proof.
  induction l as [|x l IH]; intros acc H; simpl in *; [auto|].
  destruct (IH _ H) as [E|E]; [|auto].
  destruct acc, x; simpl in *; auto; discriminate.
Qed.

Lemma forallb_fin_map l :
  forallb xis_fin l = true -> exists rs, l = List.map XFin rs.
Proof.
  induction l as [|x l IH]; simpl; intros H; [now exists []|].
  apply andb_prop in H as [Hx Hl]. destruct (IH Hl) as [rs ->].
  destruct x; try discriminate. now exists (r :: rs).
Qed.

Lemma dropna_fin rs : dropna (List.map XFin rs) = List.map XFin rs.
Proof. induction rs as [|r rs IH]; simpl; [|rewrite IH]; auto. Qed.

Lemma dropna_fillna l : dropna (fillna (XFin 0) l) = fillna (XFin 0) l.
Proof.
  induction l as [|x l IH]; simpl; [reflexivity|].
  destruct x; simpl; now rewrite IH.
Qed.

Lemma dropna_no_nan l : ~ In XNaN (dropna l).
Proof.
  unfold dropna. intros H. apply filter_In in H as [_ H]. discriminate.
Qed.

(** *** Mean and standard deviation of a series of numbers *)

Lemma INR_pos_neq n : (0 < n)%nat -> INR n <> 0.
Proof. intros H. apply not_0_INR. lia. Qed.

Lemma xdiv_fin a b : b <> 0 -> xdiv (XFin a) (XFin b) = XFin (a / b).
Proof. intros H. simpl. apply Reqb_false in H. now rewrite H. Qed.

Lemma mean_unfold l :
  dropna l <> [] ->
  mean l = xdiv (xsum (dropna l)) (xof_nat (length (dropna l))).
Proof. unfold mean. now destruct (dropna l). Qed.

Lemma std_unfold l :
  (2 <= length (dropna l))%nat ->
  std l =
    let vs := dropna l in
    let avg := xdiv (xsum vs) (xof_nat (length vs)) in
    xsqrt (xdiv (xsum (List.map (fun x => xmul (xsub avg x) (xsub avg x)) vs))
                (xof_nat (length vs - 1))).
Proof.
  unfold std. destruct (dropna l) as [|a [|b t]]; simpl; intros; try lia.
  reflexivity.
Qed.

Lemma std_short l : (length (dropna l) <= 1)%nat -> std l = XNaN.
Proof.
  unfold std. destruct (dropna l) as [|a [|b t]]; simpl; intros; try lia;
    reflexivity.
Qed.

Lemma mean_fin rs :
  rs <> [] -> mean (List.map XFin rs) = XFin (spec_mean rs).
Proof.
  intros Hne. rewrite mean_unfold; rewrite dropna_fin.
  - rewrite xsum_fin, length_map. unfold xof_nat. apply xdiv_fin.
    apply INR_pos_neq. destruct rs; [contradiction|simpl; lia].
  - destruct rs; [contradiction|discriminate].
Qed.

Lemma fold_Rplus_acc rs : forall a, fold_left Rplus rs a = a + rsum rs.
Proof.
  unfold rsum. induction rs as [|r rs IH]; intros a; simpl; [lra|].
  rewrite (IH (a + r)), (IH (0 + r)). lra.
Qed.

Lemma rsum_squares_nonneg (f : R -> R) rs :
  0 <= rsum (List.map (fun x => f x * f x) rs).
Proof.
  unfold rsum. induction rs as [|r rs IH]; simpl; [lra|].
  rewrite fold_Rplus_acc. fold (rsum (List.map (fun x => f x * f x) rs)) in IH.
  pose proof (Rle_0_sqr (f r)) as H. unfold Rsqr in H. lra.
Qed.

Lemma std_fin rs :
  (2 <= length rs)%nat -> std (List.map XFin rs) = XFin (spec_stdev rs).
Proof.
  intros Hlen. rewrite std_unfold; rewrite dropna_fin, ?length_map; [|lia].
  cbv zeta. rewrite xsum_fin. unfold xof_nat.
  rewrite !length_map.
  rewrite xdiv_fin by (apply INR_pos_neq; lia). fold (spec_mean rs).
  replace (List.map (fun x => xmul (xsub (XFin (spec_mean rs)) x)
                                   (xsub (XFin (spec_mean rs)) x))
             (List.map XFin rs))
    with (List.map XFin
            (List.map (fun x => (x - spec_mean rs) * (x - spec_mean rs)) rs)).
  2:{ rewrite !List.map_map. apply List.map_ext. intros x. simpl.
      f_equal. ring. }
  rewrite xsum_fin, xdiv_fin by (apply INR_pos_neq; lia).
  assert (Hge : 0 <= rsum (List.map (fun x => (x - spec_mean rs)
                                              * (x - spec_mean rs)) rs)
                     / INR (length rs - 1)).
  { apply Rmult_le_pos;
      [apply (rsum_squares_nonneg (fun x => x - spec_mean rs))|].
    apply Rlt_le, Rinv_0_lt_compat, lt_0_INR. lia. }
  simpl. apply Rgtb_false in Hge. now rewrite Hge.
Qed.

Lemma spec_stdev_nonneg rs : 0 <= spec_stdev rs.
Proof. apply sqrt_pos. Qed.

(** *** A series with an infinite entry *)

Lemma xdiv_by_pos_fin x b r :
  0 < b -> xdiv x (XFin b) = XFin r -> xis_fin x = true.
Proof. intros Hb. destruct x; simpl; try discriminate; auto.
       - destruct (Rgtb 0 b); discriminate.
       - destruct (Rgtb 0 b); discriminate. Qed.

Lemma xdiv_by_pos_pinf x b :
  0 < b -> xdiv x (XFin b) = XPInf -> x = XPInf.
Proof.
  intros Hb. assert (Hb' : Reqb b 0 = false) by (apply Reqb_false; lra).
  assert (Hb2 : Rgtb 0 b = false) by (apply Rgtb_false; lra).
  destruct x; simpl; rewrite ?Hb', ?Hb2; try discriminate; auto.
Qed.

Lemma xdiv_by_pos_ninf x b :
  0 < b -> xdiv x (XFin b) = XNInf -> x = XNInf.
Proof.
  intros Hb. assert (Hb' : Reqb b 0 = false) by (apply Reqb_false; lra).
  assert (Hb2 : Rgtb 0 b = false) by (apply Rgtb_false; lra).
  destruct x; simpl; rewrite ?Hb', ?Hb2; try discriminate; auto.
Qed.

(** The standard deviation of a series that holds an infinity is NaN:
    the mean is infinite or NaN, and some deviation from it is NaN. *)
Lemma std_not_fin l :
  forallb xis_fin (dropna l) = false -> std l = XNaN.
Proof.
  intros Hnf.
  destruct (le_lt_dec (length (dropna l)) 1) as [Hs|Hl];
    [now apply std_short|].
  rewrite std_unfold by lia. cbv zeta.
  set (vs := dropna l) in *.
  set (avg := xdiv (xsum vs) (xof_nat (length vs))).
  assert (Hpos : 0 < INR (length vs)) by (apply lt_0_INR; lia).
  assert (Hnan : In XNaN (List.map (fun x => xmul (xsub avg x) (xsub avg x)) vs)).
  { apply in_map_iff.
    destruct avg eqn:Ea.
    - exfalso. apply xdiv_by_pos_fin in Ea; [|exact Hpos].
      destruct (xsum vs) eqn:Es; try discriminate.
      apply xsum_fin_inv in Es as [_ Es]. congruence.
    - apply xdiv_by_pos_pinf in Ea; [|exact Hpos].
      apply xsum_pinf_inv in Ea as [Ea|Ea]; [discriminate|].
      exists XPInf. split; [reflexivity|exact Ea].
    - apply xdiv_by_pos_ninf in Ea; [|exact Hpos].
      apply xsum_ninf_inv in Ea as [Ea|Ea]; [discriminate|].
      exists XNInf. split; [reflexivity|exact Ea].
    - destruct vs as [|v vs']; [simpl in Hl; lia|].
      exists v. split; [reflexivity|now left]. }
  unfold xsum. rewrite (xsum_in_nan _ _ Hnan). reflexivity.
Qed.

(** *** The Sharpe ratio *)

Lemma sharpe_of_formula rs :
  (2 <= length rs)%nat -> 0 < spec_stdev rs ->
  sharpe_of (List.map XFin rs) = XFin (spec_sharpe rs).
Proof.
  intros Hlen Hpos. unfold sharpe_of.
  rewrite std_fin by exact Hlen.
  rewrite mean_fin by (destruct rs; [simpl in Hlen; lia|discriminate]).
  simpl xgtb. apply Rgtb_true in Hpos as Hg. rewrite Hg.
  rewrite xdiv_fin by lra. reflexivity.
Qed.

Lemma sharpe_of_guard l :
  std l = XFin 0 \/ std l = XNaN -> sharpe_of l = XFin 0.
Proof.
  unfold sharpe_of. intros [-> | ->]; simpl; [|reflexivity].
  assert (H : Rgtb 0 0 = false) by (apply Rgtb_false; lra). now rewrite H.
Qed.

(** The two ways line 254 can go. *)
Lemma sharpe_of_cases l :
  (exists rs, dropna l = List.map XFin rs /\ (2 <= length rs)%nat /\
              0 < spec_stdev rs) \/
  std l = XFin 0 \/ std l = XNaN.
Proof.
  destruct (forallb xis_fin (dropna l)) eqn:Hf.
  - destruct (forallb_fin_map _ Hf) as [rs Hrs].
    destruct (le_lt_dec (length rs) 1) as [Hs|Hl].
    + right; right. apply std_short. rewrite Hrs, length_map. exact Hs.
    + assert (Hstd : std l = XFin (spec_stdev rs)).
      { rewrite <- (std_fin rs) by lia. unfold std.
        now rewrite Hrs, dropna_fin. }
      destruct (Rle_lt_or_eq_dec _ _ (spec_stdev_nonneg rs)) as [Hp|Hz].
      * left. exists rs. auto.
      * right; left. now rewrite Hstd, <- Hz.
  - right; right. now apply std_not_fin.
Qed.

(** *** A flat history *)

Lemma rsum_zeros rs : Forall (fun x => x = 0) rs -> rsum rs = 0.
Proof.
  unfold rsum. induction 1 as [|x rs Hx _ IH]; simpl; [reflexivity|].
  subst. now rewrite Rplus_0_l.
Qed.

Lemma spec_stdev_zeros rs : Forall (fun x => x = 0) rs -> spec_stdev rs = 0.
Proof.
  intros H. unfold spec_stdev.
  assert (Hm : spec_mean rs = 0).
  { unfold spec_mean. rewrite (rsum_zeros _ H). unfold Rdiv. ring. }
  rewrite Hm, rsum_zeros.
  - unfold Rdiv. rewrite Rmult_0_l. apply sqrt_0.
  - apply List.Forall_forall. intros y Hy.
    apply in_map_iff in Hy as (x & <- & Hx).
    rewrite List.Forall_forall in H. rewrite (H x Hx). ring.
Qed.

Lemma pct_flat a n :
  exists rs, fillna (XFin 0) (pct_change_from (XFin a) (repeat (XFin a) n))
             = List.map XFin rs /\ Forall (fun x => x = 0) rs.
Proof.
  induction n as [|n (rs & IH & Hz)]; [exists []; split; [reflexivity|constructor]|].
  exists (0 :: rs). simpl. rewrite IH. split; [|now constructor].
  f_equal. destruct (Req_dec_T a 0) as [E|E].
  - assert (H : Reqb a 0 = true) by now apply Reqb_true. rewrite H.
    unfold xinf_signed.
    assert (H1 : Rgtb a 0 = false) by (apply Rgtb_false; lra).
    assert (H2 : Rgtb 0 a = false) by (apply Rgtb_false; lra).
    now rewrite H1, H2.
  - assert (H : Reqb a 0 = false) by now apply Reqb_false. rewrite H.
    simpl. f_equal. field. exact E.
Qed.

Lemma returns_flat totals v :
  Forall (fun q => q == v)%Q totals ->
  returns_series totals = repeat (XFin (Q2R v)) (length totals).
Proof.
  unfold returns_series. induction 1 as [|q l Hq _ IH]; simpl; [reflexivity|].
  now rewrite IH, (Qeq_eqR _ _ Hq).
Qed.

Lemma sharpe_of_flat totals v :
  Forall (fun q => q == v)%Q totals ->
  sharpe_of (returns_pct_series totals) = XFin 0.
Proof.
  intros H. unfold returns_pct_series. rewrite (returns_flat _ _ H).
  destruct (length totals) as [|n]; [reflexivity|]. simpl repeat.
  unfold pct_change.
  change (fillna (XFin 0) (XNaN :: ?t)) with (XFin 0 :: fillna (XFin 0) t).
  destruct (pct_flat (Q2R v) n) as (rs & -> & Hz).
  change (XFin 0 :: List.map XFin rs) with (List.map XFin (0 :: rs)).
  apply sharpe_of_guard.
  destruct (le_lt_dec (length (0 :: rs)) 1) as [Hs|Hl].
  - right. apply std_short. now rewrite dropna_fin, length_map.
  - left. rewrite std_fin by lia. f_equal. apply spec_stdev_zeros.
    now constructor.
Qed.

Lemma returns_pct_short totals :
  (length totals <= 1)%nat -> std (returns_pct_series totals) = XNaN.
Proof.
  intros H. apply std_short. unfold returns_pct_series.
  rewrite dropna_fillna.
  destruct totals as [|a [|b t]]; simpl in *; lia.
Qed.

(** *** The daily returns *)

Lemma pct_change_from_length prev l :
  length (pct_change_from prev l) = length l.
Proof.
  revert prev. induction l as [|x l IH]; intros prev; simpl; [|rewrite IH];
    reflexivity.
Qed.

Lemma pct_change_length l : length (pct_change l) = length l.
Proof. destruct l; simpl; [|rewrite pct_change_from_length]; reflexivity. Qed.

Lemma Q2R_nonzero a : ~ (a == 0)%Q -> Q2R a <> 0.
Proof.
  intros H E. apply H. apply eqR_Qeq. rewrite E. symmetry.
  apply RMicromega.Q2R_0.
Qed.

Lemma spec_changes_series vs : forall prev,
  prev <> 0 -> Forall (fun v => v <> 0) vs ->
  fillna (XFin 0) (pct_change_from (XFin prev) (List.map XFin vs))
  = List.map XFin (spec_changes prev vs).
Proof.
  induction vs as [|v vs IH]; intros prev Hp Hall; [reflexivity|].
  inversion Hall as [|? ? Hv Hvs]; subst. simpl.
  apply Reqb_false in Hp. rewrite Hp. simpl. f_equal. now apply IH.
Qed.

(** On total values that are not 0 the series of line 249 is the series of
    daily returns. *)
Lemma returns_pct_series_spec totals :
  Forall (fun q => ~ q == 0)%Q totals ->
  returns_pct_series totals
  = List.map XFin (spec_daily_returns (List.map Q2R totals)).
Proof.
  intros H. unfold returns_pct_series, returns_series.
  destruct totals as [|t ts]; [reflexivity|].
  inversion H as [|? ? Ht Hts]; subst. simpl.
  rewrite <- (List.map_map Q2R XFin). f_equal.
  apply spec_changes_series; [now apply Q2R_nonzero|].
  clear -Hts. induction Hts as [|q l Hq _ IH]; simpl; constructor;
    [now apply Q2R_nonzero|exact IH].
Qed.

Lemma rsum_squares_pos (f : R -> R) rs x :
  In x rs -> f x <> 0 -> 0 < rsum (List.map (fun x => f x * f x) rs).
Proof.
  induction rs as [|r rs IH]; intros Hin Hx; [contradiction|].
  unfold rsum. simpl. rewrite fold_Rplus_acc.
  pose proof (rsum_squares_nonneg f rs) as Hn.
  pose proof (Rle_0_sqr (f r)) as Hr. unfold Rsqr in Hr.
  destruct Hin as [->|Hin].
  - assert (0 < f x * f x); [|lra].
    destruct (Rtotal_order (f x) 0) as [H|[H|H]]; [|contradiction|]; nra.
  - specialize (IH Hin Hx). lra.
Qed.

(** A series with two different values has a positive standard
    deviation. *)
Lemma spec_stdev_pos rs x y :
  In x rs -> In y rs -> x <> y -> 0 < spec_stdev rs.
Proof.
  intros Hx Hy Hne. unfold spec_stdev. apply sqrt_lt_R0.
  assert (Hlen : (2 <= length rs)%nat).
  { destruct rs as [|a [|b rs]]; simpl in *; [contradiction| |lia].
    destruct Hx as [<-|[]], Hy as [<-|[]]. contradiction. }
  apply Rmult_lt_0_compat; [|apply Rinv_0_lt_compat, lt_0_INR; lia].
  destruct (Req_dec_T x (spec_mean rs)) as [E|E].
  - apply (rsum_squares_pos (fun z => z - spec_mean rs) rs y Hy). lra.
  - apply (rsum_squares_pos (fun z => z - spec_mean rs) rs x Hx). lra.
Qed.

(** C8.  The Sharpe ratio of the report is computed on the series of daily
    returns: one entry per recorded total value, the first 0 and each other
    the percentage change of a total value over the one before it (for
    total values that are not 0).  When these returns are numbers with a
    positive sample standard deviation, as they are as soon as two of them
    differ, the ratio is mean / stdev * sqrt 252; when the standard
    deviation is 0 (a flat history) or NaN (fewer than two points, or an
    entry that is not a number) it is 0; one of the two always applies, so
    the ratio is always a finite number. *)
Theorem sharpe_ratio_guarded pf om r :
  _generate_results pf om = Some r ->
  let totals := Portfolio.total_value_history pf in
  let rp := returns_pct r in
  let sharpe := sharpe_ratio (metrics r) in
  length rp = length totals /\
  rp = returns_pct_series totals /\
  (Forall (fun q => ~ q == 0)%Q totals ->
     rp = List.map XFin (spec_daily_returns (List.map Q2R totals))) /\
  (forall rs, rp = List.map XFin rs -> (2 <= length rs)%nat ->
              0 < spec_stdev rs ->
     mean rp = XFin (spec_mean rs) /\
     std rp = XFin (spec_stdev rs) /\
     sharpe = XFin (spec_mean rs / spec_stdev rs * sqrt 252)) /\
  (forall rs x y, rp = List.map XFin rs -> In x rs -> In y rs -> x <> y ->
     sharpe = XFin (spec_mean rs / spec_stdev rs * sqrt 252)) /\
  (std rp = XFin 0 \/ std rp = XNaN -> sharpe = XFin 0) /\
  ((length totals <= 1)%nat -> std rp = XNaN /\ sharpe = XFin 0) /\
  (forall v, Forall (fun q => q == v)%Q totals -> sharpe = XFin 0) /\
  ((exists rs, rp = List.map XFin rs /\ (2 <= length rs)%nat /\
               0 < spec_stdev rs) \/
   std rp = XFin 0 \/ std rp = XNaN) /\
  (exists x, sharpe = XFin x).
Proof.
  intros Hr totals rp sharpe.
  destruct (generate_results_inv pf om r Hr) as (annual & ts & _ & _ & _ & ->).
  subst rp sharpe. cbn [returns_pct metrics sharpe_ratio]. fold totals.
  set (rp := returns_pct_series totals).
  assert (Hdrop : dropna rp = rp) by apply dropna_fillna.
  assert (Hformula : forall rs, rp = List.map XFin rs ->
            (2 <= length rs)%nat -> 0 < spec_stdev rs ->
            mean rp = XFin (spec_mean rs) /\
            std rp = XFin (spec_stdev rs) /\
            sharpe_of rp = XFin (spec_mean rs / spec_stdev rs * sqrt 252)).
  { intros rs -> Hlen Hpos.
    split; [apply mean_fin; destruct rs; [simpl in Hlen; lia|discriminate]|].
    split; [now apply std_fin|now apply sharpe_of_formula]. }
  assert (Hcases : (exists rs, rp = List.map XFin rs /\ (2 <= length rs)%nat /\
                               0 < spec_stdev rs) \/
                   std rp = XFin 0 \/ std rp = XNaN).
  { pose proof (sharpe_of_cases rp) as H. now rewrite Hdrop in H. }
  split.
  { subst rp. unfold returns_pct_series, returns_series, fillna.
    now rewrite length_map, pct_change_length, length_map. }
  split; [reflexivity|]. split; [apply returns_pct_series_spec|].
  split; [exact Hformula|]. split.
  { intros rs x y Hrs Hx Hy Hne.
    assert (Hlen : (2 <= length rs)%nat).
    { destruct rs as [|a [|b rs']]; simpl in *; [contradiction| |lia].
      destruct Hx as [<-|[]], Hy as [<-|[]]. contradiction. }
    apply (Hformula rs Hrs Hlen (spec_stdev_pos rs x y Hx Hy Hne)). }
  split; [apply sharpe_of_guard|]. split; [|split; [|split]].
  - intros Hlen. pose proof (returns_pct_short _ Hlen) as Hs.
    fold rp in Hs. split; [exact Hs|]. apply sharpe_of_guard. now right.
  - intros v Hflat. now apply (sharpe_of_flat _ v).
  - exact Hcases.
  - destruct Hcases as [(rs & Hrs & Hlen & Hpos)|Hz].
    + destruct (Hformula rs Hrs Hlen Hpos) as (_ & _ & ->). eauto.
    + rewrite (sharpe_of_guard _ Hz). eauto.
Qed.

Lemma swing_pf_ex_report :
  exists r, _generate_results swing_pf_ex om_ex = Some r.
Proof.
  destruct (annual_return_of_loss
              (Portfolio.s_total_profit_rate (Portfolio.get_summary swing_pf_ex))
              (length (Portfolio.total_value_history swing_pf_ex)))
    as (v & Hv); [reflexivity|discriminate|].
  exact (generate_results_intro swing_pf_ex om_ex v [] eq_refl Hv eq_refl).
Qed.

(** Total values of 100, 110 and 99: daily returns of 0, a tenth up and a
    tenth down, and a Sharpe ratio that is their mean over their standard
    deviation, annualised. *)
Lemma sharpe_ratio_guarded_witness :
  exists r,
    _generate_results swing_pf_ex om_ex = Some r /\
    returns_pct r
      = List.map XFin (spec_daily_returns (List.map Q2R [100; 110; 99]%Q)) /\
    sharpe_ratio (metrics r)
      = XFin (spec_sharpe (spec_daily_returns (List.map Q2R [100; 110; 99]%Q))).
Proof.
  destruct swing_pf_ex_report as (r & Hr). exists r.
  destruct (sharpe_ratio_guarded swing_pf_ex om_ex r Hr)
    as (_ & _ & Hseries & _ & Hsharpe & _).
  assert (Hnz : Forall (fun q => ~ q == 0)%Q
                  (Portfolio.total_value_history swing_pf_ex))
    by (repeat constructor; discriminate).
  split; [exact Hr|]. split; [exact (Hseries Hnz)|].
  apply (Hsharpe _ 0 (Q2R 110 / Q2R 100 - 1) (Hseries Hnz)).
  - now left.
  - right. now left.
  - unfold Q2R. cbn [Qnum Qden]. lra.
Defined.

(** The daily returns of the scenario in numbers. *)
Example swing_daily_returns :
  spec_daily_returns (List.map Q2R [100; 110; 99]%Q)
  = [0; Q2R 110 / Q2R 100 - 1; Q2R 99 / Q2R 110 - 1] /\
  Q2R 110 / Q2R 100 - 1 = 1 / 10 /\
  Q2R 99 / Q2R 110 - 1 = - (1 / 10).
Proof.
  split; [reflexivity|]. unfold Q2R. cbn [Qnum Qden]. split; lra.
Qed.
End Sharpe.

(** ** The trade history *)

Lemma insert_by_date_perm t l : Permutation (t :: l) (insert_by_date t l).
Proof.
  induction l as [|u l IH]; simpl; [reflexivity|].
  destruct (t_date t <=? t_date u)%Z; [reflexivity|].
  rewrite perm_swap. now apply perm_skip.
Qed.

Lemma sort_by_date_perm l : Permutation l (sort_by_date l).
Proof.
  induction l as [|t l IH]; simpl; [reflexivity|].
  rewrite <- insert_by_date_perm. now apply perm_skip.
Qed.

Lemma insert_by_date_hd t u l :
  date_le u t -> HdRel date_le u l -> HdRel date_le u (insert_by_date t l).
Proof.
  intros Hut Hl. destruct l as [|v l]; simpl; [now constructor|].
  destruct (t_date t <=? t_date v)%Z; constructor; [exact Hut|].
  now inversion Hl.
Qed.

Lemma insert_by_date_sorted t l :
  Sorted date_le l -> Sorted date_le (insert_by_date t l).
Proof.
  induction 1 as [|u l Hs IH Hhd]; simpl; [repeat constructor|].
  destruct (t_date t <=? t_date u)%Z eqn:E.
  - apply Z.leb_le in E. repeat constructor; assumption.
  - apply Z.leb_gt in E. constructor; [exact IH|].
    apply insert_by_date_hd; [unfold date_le; lia|exact Hhd].
Qed.

Lemma sort_by_date_sorted l : Sorted date_le (sort_by_date l).
Proof.
  induction l as [|t l IH]; simpl; [constructor|].
  now apply insert_by_date_sorted.
Qed.

Lemma trade_entry_complete om o :
  filled_complete o -> Order.is_filled o = true ->
  exists t, trade_entry om o = Some (Some t) /\
            trade_of_order (OrderManager.commission_rate om) o t.
Proof.
  intros Hc Hf. unfold trade_entry. rewrite Hf.
  apply bool_decide_eq_true_1 in Hf.
  destruct (Hc Hf) as ([fa Hfa] & [fp Hfp] & [ft Hft]).
  unfold OrderManager.get_commission. rewrite Hft, Hfa, Hfp.
  eexists. split; [reflexivity|].
  exists fa, fp, ft. simpl. repeat (split; [assumption || reflexivity|]).
  split; intros H.
  - apply Qgtb_true in H. now rewrite H.
  - apply Qgtb_false in H. now rewrite H.
Qed.

Lemma trade_entries_complete om os :
  Forall filled_complete os ->
  Forall (fun o => Order.is_filled o = true) os ->
  exists ts, trade_entries om os = Some ts /\
             Forall2 (trade_of_order (OrderManager.commission_rate om)) os ts.
Proof.
  induction os as [|o os IH]; intros Hc Hf; [exists []; split; constructor|].
  inversion Hc as [|? ? Hco Hcos]; inversion Hf as [|? ? Hfo Hfos]; subst.
  destruct (trade_entry_complete om o Hco Hfo) as (t & Ht & Hrel).
  destruct (IH Hcos Hfos) as (ts & Hts & Hrels).
  exists (t :: ts). simpl. rewrite Ht, Hts. split; [reflexivity|].
  now constructor.
Qed.

Lemma filled_orders_filled om :
  Forall (fun o => Order.is_filled o = true) (OrderManager.get_filled_orders om).
Proof.
  apply List.Forall_forall. intros o Ho.
  now apply filter_In in Ho as [_ Ho].
Qed.

Lemma filled_orders_complete om :
  Forall filled_complete (OrderManager.orders om) ->
  Forall filled_complete (OrderManager.get_filled_orders om).
Proof.
  rewrite !List.Forall_forall. intros H o Ho.
  apply filter_In in Ho as [Ho _]. now apply H.
Qed.

Lemma filled_complete_priced o : filled_complete o -> filled_priced o.
Proof. intros H Hs. destruct (H Hs) as (H1 & H2 & _). auto. Qed.

Lemma trade_entry_total om o :
  filled_priced o -> exists e, trade_entry om o = Some e.
Proof.
  intros Hc. unfold trade_entry, Order.is_filled.
  case_bool_decide as Hf; [|eauto].
  destruct (Order.fill_time o); [|eauto].
  destruct (Hc Hf) as ([fa Hfa] & [fp Hfp]).
  unfold OrderManager.get_commission. rewrite Hfa, Hfp. eauto.
Qed.

Lemma trade_entries_total om os :
  Forall filled_priced os -> exists ts, trade_entries om os = Some ts.
Proof.
  induction 1 as [|o os Ho _ (ts & IH)]; simpl; [eauto|].
  destruct (trade_entry_total om o Ho) as (e & ->). rewrite IH. eauto.
Qed.

Lemma filled_orders_priced om :
  backlog_ok om -> Forall filled_priced (OrderManager.get_filled_orders om).
Proof.
  unfold backlog_ok. rewrite !List.Forall_forall. intros H o Ho.
  apply filter_In in Ho as [Ho _]. now apply H.
Qed.

(** On a backlog in order the report is produced, if lines 248 and 253
    let it. *)
Lemma generate_results_total pf om :
  statistics_defined pf -> backlog_ok om ->
  exists r, _generate_results pf om = Some r.
Proof.
  intros [Hl (v & Hv)] H.
  destruct (trade_entries_total om _ (filled_orders_priced om H)) as (ts & Ht).
  exact (generate_results_intro pf om v ts Hl Hv Ht).
Qed.

Lemma trade_sign rate o t :
  0 <= rate -> rate < 1 -> trade_of_order rate o t ->
  match t_type t with
  | Buy => t_net_value t <= 0
  | Sell => 0 <= t_net_value t
  end.
Proof.
  intros H0 H1 (fa & fp & ft & _ & _ & _ & _ & _ & _ & _ & Hv & Hc & Hb & Hs).
  pose proof (Qabs_nonneg (fa * fp)) as Hn.
  assert (Hm : 0 <= Qabs (fa * fp) * rate) by now apply Qmult_le_0_compat.
  assert (Hm' : 0 <= Qabs (fa * fp) * (1 - rate))
    by (apply Qmult_le_0_compat; [exact Hn|lra]).
  destruct (Qlt_le_dec 0 fa) as [Hpos|Hneg].
  - destruct (Hb Hpos) as [-> ->]. rewrite Hv, Hc. lra.
  - destruct (Hs Hneg) as [-> ->]. rewrite Hv, Hc. lra.
Qed.

Lemma trades_sign rate os ts :
  0 <= rate -> rate < 1 -> Forall2 (trade_of_order rate) os ts ->
  Forall (fun t => match t_type t with
                   | Buy => t_net_value t <= 0
                   | Sell => 0 <= t_net_value t
                   end) ts.
Proof.
  intros H0 H1. induction 1 as [|o t os ts Hot _ IH]; constructor;
    [now apply (trade_sign rate o)|exact IH].
Qed.

(** C9.  On a backlog whose filled orders carry their fill attributes,
    report generation raises only ahead of the trade history (the series of
    line 248 or the power of line 253); the report it otherwise returns has
    a trade history with exactly one entry per filled order (the entries,
    taken in backlog order, are a rearrangement of the history), sorted by
    fill date; an entry has gross value |fill_amount * fill_price| and net
    cash flow -(gross + commission) for a buy and gross - commission for a
    sell, which for a commission rate in [0, 1) is not positive for a buy
    and not negative for a sell. *)
Theorem trade_history_one_entry_per_fill pf om :
  Forall filled_complete (OrderManager.orders om) ->
  exists entries,
    Forall2 (trade_of_order (OrderManager.commission_rate om))
            (OrderManager.get_filled_orders om) entries /\
    (statistics_defined pf <-> exists r, _generate_results pf om = Some r) /\
    forall r, _generate_results pf om = Some r ->
      Permutation entries (trade_history r) /\
      Sorted date_le (trade_history r) /\
      length (trade_history r) = length (OrderManager.get_filled_orders om) /\
      total_trades (metrics r) = length (OrderManager.get_filled_orders om) /\
      (0 <= OrderManager.commission_rate om ->
       OrderManager.commission_rate om < 1 ->
       Forall (fun t => match t_type t with
                        | Buy => t_net_value t <= 0
                        | Sell => 0 <= t_net_value t
                        end) (trade_history r)).
Proof.
  intros H.
  destruct (trade_entries_complete om _ (filled_orders_complete om H)
              (filled_orders_filled om)) as (ts & Hts & Hrel).
  exists ts. split; [exact Hrel|]. split.
  { split.
    - intros [Hl (v & Hv)]. exact (generate_results_intro pf om v ts Hl Hv Hts).
    - intros (r & Hr). exact (generate_results_statistics pf om r Hr). }
  intros r Hr.
  destruct (generate_results_inv pf om r Hr) as (a & ts' & _ & _ & Hts' & ->).
  rewrite Hts in Hts'. inversion Hts'; subst ts'. simpl.
  split; [apply sort_by_date_perm|].
  split; [apply sort_by_date_sorted|]. split; [|split; [reflexivity|]].
  - rewrite <- (Permutation_length (sort_by_date_perm ts)).
    symmetry. eapply Forall2_length, Hrel.
  - intros H0 H1.
    apply (Permutation_Forall (sort_by_date_perm ts)).
    now apply (trades_sign _ _ _ H0 H1 Hrel).
Qed.

(** The guard of line 261 at work: an order marked filled that carries no
    fill time (the settlement loop never leaves one) gets no entry. *)
Example unstamped_fill_has_no_entry :
  trade_entry om_ex
    (Order.mk "A" 1000 FILLED (Some (1001 # 10)) (Some 1000) None 0%Z)
  = Some None.
Proof. reflexivity. Qed.

(** The backlog of the scenario after its first settlement step. *)
Lemma trade_history_one_entry_per_fill_witness :
  Forall filled_complete (OrderManager.orders filled_om_ex) /\
  exists r, _generate_results rich_pf_ex filled_om_ex = Some r /\
            length (trade_history r) = 1%nat.
Proof.
  assert (H : Forall filled_complete (OrderManager.orders filled_om_ex)).
  { repeat constructor; eexists; reflexivity. }
  split; [exact H|].
  destruct (trade_history_one_entry_per_fill rich_pf_ex filled_om_ex H)
    as (entries & _ & Hdef & Hall).
  destruct (proj1 Hdef (fresh_statistics_defined rich_pf_ex eq_refl eq_refl))
    as (r & Hr).
  exists r. split; [exact Hr|]. apply (Hall r Hr).
Defined.

(** ** What leaves the date loop *)

Lemma handle_date_error_spec {S} d x (e : BacktestEngine.t S) :
  (catchable x /\
   handle_date_error d x e = (log_event e (EvLogError d), None)) \/
  (~ catchable x /\
   exists y, handle_date_error d x e = (e, Some y) /\
             (y = Uncaught x \/ y = HandlerError x)).
Proof.
  unfold handle_date_error, catchable.
  destruct (is_Exception x), (str_returns x); [left; auto|right..];
    (split; [intros [? ?]; discriminate|eauto]).
Qed.

(** The exceptions that leave the loop are those that its handler does not
    take, and those that the handler raises. *)
Lemma date_loop_escapes {S} all_data dates : forall (e : BacktestEngine.t S) y,
  (date_loop all_data dates e).2 = Some y ->
  exists x, ~ catchable x /\ (y = Uncaught x \/ y = HandlerError x).
Proof.
  induction dates as [|d dates IH]; intros e y; simpl; [discriminate|].
  unfold try_date.
  destruct (process_date all_data d e) as [e1 [x|[]]].
  - destruct (handle_date_error_spec d x e1) as [[_ ->]|(Hx & y' & -> & Hy)].
    + apply IH.
    + simpl. intros H; inversion H; subst. eauto.
  - apply IH.
Qed.

(** ** Configuration errors *)

(** C3.  [run] leaves through one of its two [raise] statements, both ahead
    of the date loop, exactly when no strategy is attached or the data
    provider returns an empty table; the engine is then exactly as it was:
    no step of the date pipeline was entered, nothing was settled and no
    snapshot was recorded. *)
Theorem run_configuration_errors {S} (e : BacktestEngine.t S)
    start_date end_date securities frequency :
  let out := run e start_date end_date securities frequency in
  let all_data :=
    BacktestEngine.data_provider e securities start_date end_date frequency in
  ((out.2 = Raised NoStrategy \/ out.2 = Raised NoData) <->
   (BacktestEngine.strategy e = None \/ df_empty all_data = true)) /\
  (BacktestEngine.strategy e = None -> out = (e, Raised NoStrategy)) /\
  (BacktestEngine.strategy e <> None -> df_empty all_data = true ->
   out = (e, Raised NoData)) /\
  (BacktestEngine.strategy e = None \/ df_empty all_data = true ->
   BacktestEngine.trace out.1 = BacktestEngine.trace e /\
   BacktestEngine.portfolio out.1 = BacktestEngine.portfolio e /\
   BacktestEngine.order_manager out.1 = BacktestEngine.order_manager e /\
   BacktestEngine.process_order_calls out.1
     = BacktestEngine.process_order_calls e).
Proof.
  intros out all_data. subst out. unfold run. fold all_data.
  destruct (BacktestEngine.strategy e) as [st|] eqn:Hst.
  - destruct (df_empty all_data) eqn:Hemp; simpl.
    + split; [split; auto|]. split; [discriminate|]. auto.
    + assert (Hout : forall o : Outcome,
                (exists x, o = Raised (Uncaught x) \/
                           o = Raised (HandlerError x)) \/
                o = Raised ResultsError \/ (exists r, o = Returned r) ->
                ~ (o = Raised NoStrategy \/ o = Raised NoData)).
      { intros o [(x & [-> | ->])|[->|(r & ->)]] [H|H]; discriminate. }
      match goal with |- context [date_loop ?a ?l ?x] =>
        pose proof (date_loop_escapes a l x) as Hesc;
        destruct (date_loop a l x) as [e2 [y|]]
      end; simpl.
      * destruct (Hesc y eq_refl) as (x & _ & Hy).
        specialize (Hout (Raised y)).
        assert (Hno : ~ (Raised y = Raised NoStrategy \/ Raised y = Raised NoData))
          by (apply Hout; left; exists x; destruct Hy as [-> | ->]; auto).
        split; [split; [intros H; now destruct Hno|intros [H|H]; discriminate]|].
        split; [discriminate|]. split; [discriminate|].
        intros [H|H]; discriminate.
      * destruct (_generate_results _ _); simpl.
        -- split; [split; intros [H|H]; discriminate|].
           split; [discriminate|]. split; [discriminate|].
           intros [H|H]; discriminate.
        -- split; [split; intros [H|H]; discriminate|].
           split; [discriminate|]. split; [discriminate|].
           intros [H|H]; discriminate.
  - simpl. split; [split; auto|]. split; [reflexivity|].
    split; [congruence|]. auto.
Qed.

(** ** A table without a date index *)

(** C10.  With a strategy attached, a backlog in order and a portfolio on
    which lines 248 and 253 do not raise (one without snapshots, as the
    constructor leaves it, is such a portfolio), a non-empty table whose
    index is not a [DatetimeIndex] gives an empty list of trading dates;
    [run] returns a report, and apart from the context's security list and
    the stored report the engine is as it was: no callback ran, no order
    was settled, no snapshot was recorded.  The history lists of the report
    are those the portfolio had at the start, hence empty for a portfolio
    that had none. *)
Theorem run_without_datetime_index {S} (e : BacktestEngine.t S) st
    start_date end_date securities frequency :
  let all_data :=
    BacktestEngine.data_provider e securities start_date end_date frequency in
  BacktestEngine.strategy e = Some st ->
  df_empty all_data = false ->
  index_is_datetime all_data = false ->
  backlog_ok (BacktestEngine.order_manager e) ->
  statistics_defined (BacktestEngine.portfolio e) ->
  trading_dates all_data = [] /\
  exists r,
    run e start_date end_date securities frequency
      = (set_results (set_context_securities e securities) (Some r),
         Returned r) /\
    BacktestEngine.trace (run e start_date end_date securities frequency).1
      = BacktestEngine.trace e /\
    BacktestEngine.process_order_calls
      (run e start_date end_date securities frequency).1
      = BacktestEngine.process_order_calls e /\
    BacktestEngine.portfolio (run e start_date end_date securities frequency).1
      = BacktestEngine.portfolio e /\
    BacktestEngine.order_manager
      (run e start_date end_date securities frequency).1
      = BacktestEngine.order_manager e /\
    portfolio_history r =
      mkPortfolioHistory
        (Portfolio.date_history (BacktestEngine.portfolio e))
        (Portfolio.total_value_history (BacktestEngine.portfolio e))
        (Portfolio.cash_history (BacktestEngine.portfolio e)) /\
    (Portfolio.date_history (BacktestEngine.portfolio e) = [] ->
     Portfolio.total_value_history (BacktestEngine.portfolio e) = [] ->
     Portfolio.cash_history (BacktestEngine.portfolio e) = [] ->
     portfolio_history r = mkPortfolioHistory [] [] []).
Proof.
  intros all_data Hst Hne Hidx Hok Hstat.
  assert (Hd : trading_dates all_data = [])
    by (unfold trading_dates; now rewrite Hidx).
  split; [exact Hd|].
  unfold run. rewrite Hst. fold all_data. rewrite Hne, Hd. simpl.
  destruct (generate_results_total (BacktestEngine.portfolio e)
              (BacktestEngine.order_manager e) Hstat Hok) as (r & Hr).
  rewrite Hr. exists r. simpl.
  assert (Hph : portfolio_history r =
      mkPortfolioHistory
        (Portfolio.date_history (BacktestEngine.portfolio e))
        (Portfolio.total_value_history (BacktestEngine.portfolio e))
        (Portfolio.cash_history (BacktestEngine.portfolio e))).
  { destruct (generate_results_inv _ _ r Hr) as (a & ts & _ & _ & _ & ->).
    reflexivity. }
  repeat (split; [reflexivity|]). split; [exact Hph|].
  intros H1 H2 H3. now rewrite Hph, H1, H2, H3.
Qed.

(** The scenario's prices under a plain index. *)
Lemma run_without_datetime_index_witness :
  BacktestEngine.strategy plain_engine_ex = Some faulty_ex /\
  df_empty plain_data_ex = false /\
  index_is_datetime plain_data_ex = false /\
  backlog_ok (BacktestEngine.order_manager plain_engine_ex) /\
  statistics_defined (BacktestEngine.portfolio plain_engine_ex) /\
  trading_dates plain_data_ex = [].
Proof.
  assert (H : backlog_ok (BacktestEngine.order_manager plain_engine_ex))
    by constructor.
  assert (Hs : statistics_defined (BacktestEngine.portfolio plain_engine_ex))
    by (now apply fresh_statistics_defined).
  repeat (split; [reflexivity || exact H || exact Hs|]).
  apply (run_without_datetime_index plain_engine_ex faulty_ex 1%Z 5%Z ["A"]
           "daily" eq_refl eq_refl eq_refl H Hs).
Defined.

(** ** The date loop *)

Lemma turn_filled_complete om date dd o pf :
  filled_complete o -> filled_complete (Settlement.order (turn om date dd o pf)).
Proof.
  intros Hc.
  destruct (decide (Order.status o = PENDING)) as [Hs|Hs].
  - rewrite (turn_pending _ _ _ _ _ Hs).
    destruct (price_available (current_price_of dd (Order.security o)))
      as [p|] eqn:Hp.
    + destruct (settle_order_priced om date dd o pf p Hs Hp)
        as (o2 & -> & _ & _ & Hfa & Hfp & Hft). simpl.
      intros _. rewrite Hfa, Hfp. eauto.
    + now rewrite (settle_order_unpriced _ _ _ _ _ Hp).
  - now rewrite (turn_not_pending _ _ _ _ _ Hs).
Qed.

(** The settlement loop leaves every filled order with its fill amount,
    fill price and fill time. *)
Lemma settle_all_filled_complete om date dd os : forall pf,
  Forall filled_complete os ->
  Forall filled_complete (settle_all om date dd os pf).1.1.
Proof.
  induction os as [|o os IH]; intros pf H; [constructor|].
  inversion H; subst. rewrite settle_all_cons. simpl.
  constructor; [now apply turn_filled_complete|now apply IH].
Qed.

Lemma turn_filled_priced om date dd o pf :
  filled_priced o -> filled_priced (Settlement.order (turn om date dd o pf)).
Proof.
  intros Hc.
  destruct (decide (Order.status o = PENDING)) as [Hs|Hs].
  - rewrite (turn_pending _ _ _ _ _ Hs).
    destruct (price_available (current_price_of dd (Order.security o)))
      as [p|] eqn:Hp.
    + destruct (settle_order_priced om date dd o pf p Hs Hp)
        as (o2 & -> & _ & _ & Hfa & Hfp & _). simpl.
      intros _. rewrite Hfa, Hfp. eauto.
    + now rewrite (settle_order_unpriced _ _ _ _ _ Hp).
  - now rewrite (turn_not_pending _ _ _ _ _ Hs).
Qed.

Lemma settle_all_filled_priced om date dd os : forall pf,
  Forall filled_priced os ->
  Forall filled_priced (settle_all om date dd os pf).1.1.
Proof.
  induction os as [|o os IH]; intros pf H; [constructor|].
  inversion H; subst. rewrite settle_all_cons. simpl.
  constructor; [now apply turn_filled_priced|now apply IH].
Qed.

(** The settlement step records no snapshot. *)
Lemma apply_fill_date_history om o pf :
  Portfolio.date_history (apply_fill om o pf) = Portfolio.date_history pf.
Proof.
  unfold apply_fill.
  destruct (OrderManager.get_commission om o); [|reflexivity].
  destruct (Order.fill_amount o); [|reflexivity].
  destruct (Order.fill_price o); [|reflexivity].
  destruct (Qgtb _ _).
  - now destruct (Qgeb _ _).
  - destruct (Portfolio.get_position _ _) as [pos|] eqn:E; [|reflexivity].
    destruct (Qgeb _ _); [|reflexivity].
    unfold Portfolio.remove_position, Portfolio.get_position in *. simpl.
    now rewrite E.
Qed.

Lemma settle_all_date_history om date dd os : forall pf,
  Portfolio.date_history (settle_all om date dd os pf).1.2
    = Portfolio.date_history pf.
Proof.
  induction os as [|o os IH]; intros pf; [reflexivity|].
  rewrite settle_all_cons. simpl. rewrite IH.
  unfold turn. destruct (Order.is_pending o); [|reflexivity].
  unfold settle_order. destruct (price_available _); [|reflexivity].
  destruct (OrderManager.process_order om o _) as [o1 [|]]; [|reflexivity].
  apply apply_fill_date_history.
Qed.

Section Loop.
Context {S : Type} (st : Strategy S).

(** One callback of the strategy: the step enters the journal, the world
    the callback leaves is taken over, the strategy object keeps its
    callbacks, and the step ends as the callback did. *)
Lemma call_hook_spec ev (hook : Strategy S -> World S -> World S * Completion)
    (h : World S -> World S * Completion) (e : BacktestEngine.t S) :
  (exists st', BacktestEngine.strategy e = Some st' /\ same_hooks st st') ->
  (forall st', same_hooks st st' -> hook st' = h) ->
  exists w,
    (call_hook ev hook e).2
      = match (h w).2 with Normal => inr tt | Raise x => inl x end /\
    (exists st', BacktestEngine.strategy (call_hook ev hook e).1 = Some st' /\
                 same_hooks st st') /\
    BacktestEngine.trace (call_hook ev hook e).1
      = BacktestEngine.trace e ++ [ev] /\
    w_order_manager w = BacktestEngine.order_manager e /\
    BacktestEngine.order_manager (call_hook ev hook e).1
      = w_order_manager (h w).1 /\
    w_portfolio w = BacktestEngine.portfolio e /\
    BacktestEngine.portfolio (call_hook ev hook e).1 = w_portfolio (h w).1.
Proof.
  intros (st' & Hs & Hsame) Hh. unfold call_hook. rewrite Hs, (Hh st' Hsame).
  exists (world_of (log_event e ev) st').
  destruct (h (world_of (log_event e ev) st')) as [w c]. simpl.
  split; [reflexivity|]. split; [|auto 6].
  eexists. split; [reflexivity|]. destruct Hsame as (H1 & H2 & H3).
  now repeat split.
Qed.

Lemma hook_keeps_history (h : World S -> World S * Completion) w
    (e e' : BacktestEngine.t S) :
  hook_keeps_snapshot_dates h ->
  w_portfolio w = BacktestEngine.portfolio e ->
  BacktestEngine.portfolio e' = w_portfolio (h w).1 ->
  Portfolio.date_history (BacktestEngine.portfolio e')
    = Portfolio.date_history (BacktestEngine.portfolio e).
Proof. intros Hh Hw He. now rewrite He, Hh, Hw. Qed.

Lemma hook_keeps_backlog (h : World S -> World S * Completion) w
    (e e' : BacktestEngine.t S) :
  hook_respects_backlog h ->
  w_order_manager w = BacktestEngine.order_manager e ->
  BacktestEngine.order_manager e' = w_order_manager (h w).1 ->
  backlog_ok (BacktestEngine.order_manager e) ->
  backlog_ok (BacktestEngine.order_manager e').
Proof. intros Hh Hw He Hok. rewrite He. apply Hh. now rewrite Hw. Qed.

(** One date: the steps are entered in order up to the first callback that
    raises, which ends the date; without one the date ends with its
    snapshot. *)
Lemma process_date_spec all_data d (e : BacktestEngine.t S) :
  (exists st', BacktestEngine.strategy e = Some st' /\ same_hooks st st') ->
  daily_empty (daily_slice all_data d) = false ->
  let r := process_date all_data d e in
  (exists st', BacktestEngine.strategy r.1 = Some st' /\ same_hooks st st') /\
  (strategy_respects_backlog st ->
   backlog_ok (BacktestEngine.order_manager e) ->
   backlog_ok (BacktestEngine.order_manager r.1)) /\
  (strategy_keeps_snapshot_dates st ->
   Portfolio.date_history (BacktestEngine.portfolio r.1)
   = Portfolio.date_history (BacktestEngine.portfolio e)
     ++ match r.2 with inr _ => [d] | inl _ => [] end) /\
  ((r.2 = inr tt /\
    BacktestEngine.trace r.1 = BacktestEngine.trace e ++ pipeline d /\
    date_outcome st (daily_slice all_data d) d (pipeline d)) \/
   (exists x n,
      (n <= 5)%nat /\
      r.2 = inl x /\
      BacktestEngine.trace r.1
        = BacktestEngine.trace e ++ firstn n (pipeline d) /\
      date_outcome st (daily_slice all_data d) d
        (firstn n (pipeline d) ++ [EvLogError d]) /\
      (strategy_raises_catchable st -> catchable x))).
Proof.
  intros Hinv Hne r. subst r. unfold process_date. rewrite Hne.
  unfold bind.
  destruct (call_hook_spec (EvBeforeTradingStart d)
              (fun s => before_trading_start s d) (before_trading_start st d)
              e Hinv) as (w1 & R1 & I1 & T1 & W1 & O1 & V1 & P1);
    [now intros st' (-> & _)|].
  destruct (call_hook _ _ e) as [e1 r1]; simpl in R1, I1, T1, O1, P1.
  subst r1.
  assert (D1 : strategy_keeps_snapshot_dates st ->
               Portfolio.date_history (BacktestEngine.portfolio e1)
               = Portfolio.date_history (BacktestEngine.portfolio e)).
  { intros (Hk & _). exact (hook_keeps_history _ w1 e e1 (Hk d) V1 P1). }
  assert (B1 : strategy_respects_backlog st ->
               backlog_ok (BacktestEngine.order_manager e) ->
               backlog_ok (BacktestEngine.order_manager e1)).
  { intros (Hb & _) Hok. exact (hook_keeps_backlog _ w1 e e1 (Hb d) W1 O1 Hok). }
  destruct ((before_trading_start st d w1).2) as [|x] eqn:C1.
  2:{ split; [exact I1|]. split; [exact B1|].
      split; [intros Hk; simpl; now rewrite app_nil_r, D1|].
      right. exists x, 1%nat. split; [lia|].
      split; [reflexivity|]. split; [exact T1|].
      split; [exact (date_left_before st _ d w1 x C1)|].
      intros (Hc & _). exact (Hc d w1 x C1). }
  destruct (call_hook_spec (EvHandleData d)
              (fun s => handle_data s (daily_slice all_data d) d)
              (handle_data st (daily_slice all_data d) d) e1 I1)
    as (w2 & R2 & I2 & T2 & W2 & O2 & V2 & P2);
    [now intros st' (_ & -> & _)|].
  destruct (call_hook _ _ e1) as [e2 r2]; simpl in R2, I2, T2, O2, P2.
  subst r2.
  assert (D2 : strategy_keeps_snapshot_dates st ->
               Portfolio.date_history (BacktestEngine.portfolio e2)
               = Portfolio.date_history (BacktestEngine.portfolio e)).
  { intros Hk. rewrite <- (D1 Hk). destruct Hk as (_ & Hk & _).
    exact (hook_keeps_history _ w2 e1 e2 (Hk _ d) V2 P2). }
  assert (B2 : strategy_respects_backlog st ->
               backlog_ok (BacktestEngine.order_manager e) ->
               backlog_ok (BacktestEngine.order_manager e2)).
  { intros Hr Hok. pose proof (B1 Hr Hok) as Hok1.
    destruct Hr as (_ & Hh & _).
    exact (hook_keeps_backlog _ w2 e1 e2 (Hh _ d) W2 O2 Hok1). }
  destruct ((handle_data st (daily_slice all_data d) d w2).2) as [|x] eqn:C2.
  2:{ split; [exact I2|]. split; [exact B2|].
      split; [intros Hk; simpl; now rewrite app_nil_r, D2|].
      right. exists x, 2%nat. split; [lia|].
      split; [reflexivity|]. split; [simpl; now rewrite T2, T1, <- app_assoc|].
      split; [exact (date_left_in_handle_data st _ d w1 w2 x C1 C2)|].
      intros (_ & Hc & _). exact (Hc _ d w2 x C2). }
  destruct (process_orders_state e2 d (daily_slice all_data d))
    as (O3 & _ & _ & P3 & _ & T3 & S3 & R3).
  pose proof (settle_all_date_history (BacktestEngine.order_manager e2) d
                (daily_slice all_data d)
                (OrderManager.orders (BacktestEngine.order_manager e2))
                (BacktestEngine.portfolio e2)) as D3.
  rewrite <- P3 in D3.
  destruct (_process_orders d _ e2) as [e3 r3] eqn:E3;
    simpl in O3, T3, S3, R3, D3. subst r3.
  assert (B3 : strategy_respects_backlog st ->
               backlog_ok (BacktestEngine.order_manager e) ->
               backlog_ok (BacktestEngine.order_manager e3)).
  { intros Hr Hok. unfold backlog_ok. rewrite O3.
    apply settle_all_filled_priced. exact (B2 Hr Hok). }
  unfold mark_prices_step, update_prices_step.
  match goal with |- context [call_hook ?ev ?hk ?x] =>
    destruct (call_hook_spec ev hk (after_trading_end st d) x)
      as (w3 & R5 & I5 & T5 & W5 & O5 & V5 & P5);
      [simpl; now rewrite S3|now intros st' (_ & _ & ->)|];
    destruct (call_hook ev hk x) as [e5 r5]
  end.
  simpl in R5, I5, T5, W5, O5, V5, P5. subst r5.
  assert (D5 : strategy_keeps_snapshot_dates st ->
               Portfolio.date_history (BacktestEngine.portfolio e5)
               = Portfolio.date_history (BacktestEngine.portfolio e)).
  { intros Hk. rewrite <- (D2 Hk), <- D3. destruct Hk as (_ & _ & Hk).
    rewrite P5, Hk, V5. reflexivity. }
  assert (B5 : strategy_respects_backlog st ->
               backlog_ok (BacktestEngine.order_manager e) ->
               backlog_ok (BacktestEngine.order_manager e5)).
  { intros Hr Hok. pose proof (B3 Hr Hok) as Hok3.
    destruct Hr as (_ & _ & Ha). rewrite O5. apply Ha. now rewrite W5. }
  assert (T : BacktestEngine.trace e5
              = BacktestEngine.trace e ++ firstn 5 (pipeline d)).
  { rewrite T5, T3, T2, T1, <- !app_assoc. reflexivity. }
  destruct ((after_trading_end st d w3).2) as [|x] eqn:C3.
  2:{ split; [exact I5|]. split; [exact B5|].
      split; [intros Hk; simpl; now rewrite app_nil_r, D5|].
      right. exists x, 5%nat. split; [lia|].
      split; [reflexivity|]. split; [exact T|].
      split; [exact (date_left_after st _ d w1 w2 w3 x C1 C2 C3)|].
      intros (_ & _ & Hc). exact (Hc d w3 x C3). }
  simpl. split; [exact I5|]. split; [exact B5|].
  split; [intros Hk; now rewrite D5|]. left.
  split; [reflexivity|]. split.
  - rewrite T, <- app_assoc. reflexivity.
  - exact (date_completed st _ d w1 w2 w3 C1 C2 C3).
Qed.

(** The whole loop when the handler takes every exception that the
    callbacks raise: no exception leaves it, and every date is entered,
    whatever happened on the dates before. *)
Lemma date_loop_spec all_data dates : forall (e : BacktestEngine.t S),
  (exists st', BacktestEngine.strategy e = Some st' /\ same_hooks st st') ->
  strategy_raises_catchable st ->
  Forall (fun d => daily_empty (daily_slice all_data d) = false) dates ->
  let r := date_loop all_data dates e in
  r.2 = None /\
  (strategy_respects_backlog st ->
   backlog_ok (BacktestEngine.order_manager e) ->
   backlog_ok (BacktestEngine.order_manager r.1)) /\
  exists segs,
    BacktestEngine.trace r.1 = BacktestEngine.trace e ++ concat segs /\
    Forall2 (fun d seg => date_outcome st (daily_slice all_data d) d seg)
            dates segs /\
    (strategy_keeps_snapshot_dates st ->
     Portfolio.date_history (BacktestEngine.portfolio r.1)
     = Portfolio.date_history (BacktestEngine.portfolio e)
       ++ recorded_dates (concat segs)).
Proof.
  induction dates as [|d dates IH]; intros e Hinv Hcatch Hall; simpl.
  - split; [reflexivity|]. split; [auto|].
    exists []. simpl. rewrite !app_nil_r. repeat split. constructor.
  - inversion Hall as [|? ? Hd Hrest]; subst.
    destruct (process_date_spec all_data d e Hinv Hd) as (I1 & B1 & S1 & H1).
    unfold try_date.
    destruct (process_date all_data d e) as [e1 r1]; simpl in I1, B1, S1, H1.
    destruct H1 as [(-> & T1 & D1)|(x & n & Hn5 & -> & T1 & D1 & Hx)].
    + destruct (IH e1 I1 Hcatch Hrest) as (R2 & B2 & segs & T2 & F2 & S2).
      split; [exact R2|]. split; [auto|].
      exists (pipeline d :: segs). split; [|split; [now constructor|]].
      * rewrite T2, T1. simpl concat. now rewrite <- app_assoc.
      * intros Hk. rewrite (S2 Hk), (S1 Hk), <- app_assoc. reflexivity.
    + destruct (handle_date_error_spec d x e1) as [[_ ->]|(Hn & _)];
        [|now destruct (Hn (Hx Hcatch))].
      destruct (IH (log_event e1 (EvLogError d)) I1 Hcatch Hrest)
        as (R2 & B2 & segs & T2 & F2 & S2).
      split; [exact R2|]. split; [auto|].
      exists ((firstn n (pipeline d) ++ [EvLogError d]) :: segs).
      split; [|split; [now constructor|]].
      * rewrite T2. simpl. rewrite T1. simpl concat.
        now rewrite <- !app_assoc.
      * intros Hk. rewrite (S2 Hk). simpl BacktestEngine.portfolio.
        rewrite (S1 Hk), app_nil_r. f_equal. simpl concat.
        unfold recorded_dates. rewrite !flat_map_app.
        assert (E : flat_map
                      (fun ev => match ev with EvRecord d0 => [d0] | _ => [] end)
                      (firstn n (pipeline d)) = []).
        { do 6 (destruct n as [|n]; [reflexivity|]). lia. }
        now rewrite E.
Qed.

(** When the date decides which callback raises, the date decides the
    journal. *)
Lemma date_outcome_journal raises_before raises_handle raises_after dd d seg :
  (forall d w, (before_trading_start st d w).2 = Normal
               <-> raises_before d = false) ->
  (forall dd d w, (handle_data st dd d w).2 = Normal
                  <-> raises_handle d = false) ->
  (forall d w, (after_trading_end st d w).2 = Normal
               <-> raises_after d = false) ->
  date_outcome st dd d seg ->
  seg = date_journal raises_before raises_handle raises_after d.
Proof.
  intros Hb Hh Ha Hout. unfold date_journal.
  assert (Hraise : forall (c : Completion) x (b : bool),
            (c = Normal <-> b = false) -> c = Raise x -> b = true).
  { intros c x b Hc ->. destruct b; [reflexivity|].
    now assert (Raise x = Normal) by now apply Hc. }
  destruct Hout as [w1 w2 w3 C1 C2 C3|w1 x C1|w1 w2 x C1 C2|w1 w2 w3 x C1 C2 C3].
  - apply Hb in C1. apply Hh in C2. apply Ha in C3. now rewrite C1, C2, C3.
  - now rewrite (Hraise _ x _ (Hb d w1) C1).
  - apply Hb in C1. now rewrite C1, (Hraise _ x _ (Hh dd d w2) C2).
  - apply Hb in C1. apply Hh in C2.
    now rewrite C1, C2, (Hraise _ x _ (Ha d w3) C3).
Qed.
End Loop.

(** ** The trading dates *)

Lemma insert_date_In d x l : In x (insert_date d l) <-> x = d \/ In x l.
Proof.
  induction l as [|y l IH]; simpl; [intuition|].
  destruct (d <=? y)%Z; simpl; [intuition|]. rewrite IH. intuition.
Qed.

Lemma sorted_dates_In x l : In x (sorted_dates l) <-> In x l.
Proof.
  induction l as [|y l IH]; simpl; [reflexivity|].
  rewrite insert_date_In, IH. intuition.
Qed.

Lemma insert_date_perm d l : Permutation (d :: l) (insert_date d l).
Proof.
  induction l as [|x l IH]; simpl; [reflexivity|].
  destruct (d <=? x)%Z; [reflexivity|].
  rewrite perm_swap. now apply perm_skip.
Qed.

Lemma sorted_dates_perm l : Permutation l (sorted_dates l).
Proof.
  induction l as [|x l IH]; simpl; [reflexivity|].
  rewrite <- insert_date_perm. now apply perm_skip.
Qed.

Lemma insert_date_sorted d l :
  Sorted Z.le l -> Sorted Z.le (insert_date d l).
Proof.
  induction 1 as [|x l Hs IH Hhd]; simpl; [repeat constructor|].
  destruct (d <=? x)%Z eqn:E.
  - apply Z.leb_le in E. repeat constructor; assumption.
  - apply Z.leb_gt in E. constructor; [exact IH|].
    destruct l as [|y l]; simpl; [constructor; lia|].
    destruct (d <=? y)%Z; constructor; [lia|now inversion Hhd].
Qed.

(** The trading dates come in increasing order, each once. *)
Lemma trading_dates_sorted all_data :
  Sorted Z.le (trading_dates all_data) /\ NoDup (trading_dates all_data).
Proof.
  unfold trading_dates. destruct (index_is_datetime all_data);
    [|split; constructor].
  split.
  - induction (remove_dups (List.map row_index (rows all_data)))
      as [|x l IH]; simpl; [constructor|now apply insert_date_sorted].
  - rewrite <- sorted_dates_perm. apply NoDup_remove_dups.
Qed.

Lemma trading_dates_in_index all_data d :
  In d (trading_dates all_data) -> In d (List.map row_index (rows all_data)).
Proof.
  unfold trading_dates. destruct (index_is_datetime all_data); [|contradiction].
  rewrite sorted_dates_In, <- !list_elem_of_In. apply elem_of_remove_dups.
Qed.

(** A date of the index has rows, so its slice is not empty. *)
Lemma daily_slice_nonempty all_data d :
  df_empty all_data = false ->
  In d (List.map row_index (rows all_data)) ->
  daily_empty (daily_slice all_data d) = false.
Proof.
  intros Hne Hin.
  assert (Hcols : columns all_data <> []).
  { unfold df_empty in Hne. destruct (rows all_data), (columns all_data);
      congruence. }
  assert (Hrows : rows_at d (rows all_data) <> []).
  { apply in_map_iff in Hin as (r & Hr & Hin).
    intros E. assert (H : In r (rows_at d (rows all_data))).
    { apply filter_In. split; [exact Hin|]. now apply bool_decide_eq_true_2. }
    rewrite E in H. contradiction. }
  unfold daily_slice, in_index.
  rewrite (bool_decide_eq_true_2 _ (proj2 (list_elem_of_In _ _) Hin)).
  destruct (has_column "security" (columns all_data)).
  - simpl. unfold df_empty. simpl.
    destruct (rows_at d (rows all_data)), (columns all_data); congruence.
  - destruct (rows_at d (rows all_data)) as [|r [|r' rs]] eqn:E;
      [congruence| |]; simpl.
    + destruct (columns all_data); congruence.
    + unfold df_empty. simpl. destruct (columns all_data); congruence.
Qed.

Lemma journals_of_dates {S} (st : Strategy S) all_data
    (journal : Date -> list Event) dates segs :
  (forall d seg, date_outcome st (daily_slice all_data d) d seg ->
                 seg = journal d) ->
  Forall2 (fun d seg => date_outcome st (daily_slice all_data d) d seg)
          dates segs ->
  concat segs = concat (List.map journal dates).
Proof.
  intros Hj. induction 1 as [|d seg dates segs Hd _ IH]; [reflexivity|].
  simpl. now rewrite IH, (Hj d seg Hd).
Qed.

(** C4, as amended.  With a strategy attached and a non-empty table, the
    only exceptions that leave [run] are those of report generation, which
    runs after the loop and outside its handler, and those that the handler
    of the date loop does not take: an exception that is no instance of
    [Exception], or one whose [str()] raises inside the handler.  When the
    callbacks raise nothing but instances of [Exception] whose [str()]
    returns, no exception raised on a date leaves [run]: every trading date
    is entered, in order, whatever earlier dates raised; on each date the
    pipeline steps run in order up to the first callback that raises, the
    handler writes its log entry, the rest of that date is not run, and the
    loop goes on with the next date; when the callbacks leave the list of
    snapshot dates alone, the dates recorded are those of the snapshot
    steps of the journal, none for a date that raised.  Where the date
    alone decides which callback raises, it decides the journal of the
    run.  After the loop [run] returns the report unless report generation
    raises; it does not raise on a backlog that is in order and that the
    callbacks keep in order, when lines 248 and 253 let it. *)
Theorem run_survives_date_errors {S} (e : BacktestEngine.t S) st
    start_date end_date securities frequency :
  let all_data :=
    BacktestEngine.data_provider e securities start_date end_date frequency in
  let out := run e start_date end_date securities frequency in
  BacktestEngine.strategy e = Some st ->
  df_empty all_data = false ->
  (forall y, out.2 = Raised y ->
     y = ResultsError \/
     exists x, ~ catchable x /\ (y = Uncaught x \/ y = HandlerError x)) /\
  (strategy_raises_catchable st ->
   (exists segs,
      BacktestEngine.trace out.1 = BacktestEngine.trace e ++ concat segs /\
      Forall2 (fun d seg => date_outcome st (daily_slice all_data d) d seg)
              (trading_dates all_data) segs /\
      (strategy_keeps_snapshot_dates st ->
       Portfolio.date_history (BacktestEngine.portfolio out.1)
       = Portfolio.date_history (BacktestEngine.portfolio e)
         ++ recorded_dates (concat segs))) /\
   (forall raises_before raises_handle raises_after,
      (forall d w, (before_trading_start st d w).2 = Normal
                   <-> raises_before d = false) ->
      (forall dd d w, (handle_data st dd d w).2 = Normal
                      <-> raises_handle d = false) ->
      (forall d w, (after_trading_end st d w).2 = Normal
                   <-> raises_after d = false) ->
      BacktestEngine.trace out.1
        = BacktestEngine.trace e
          ++ concat (List.map
                       (date_journal raises_before raises_handle raises_after)
                       (trading_dates all_data))) /\
   out.2 = match _generate_results (BacktestEngine.portfolio out.1)
                                   (BacktestEngine.order_manager out.1) with
           | Some r => Returned r
           | None => Raised ResultsError
           end /\
   (backlog_ok (BacktestEngine.order_manager e) ->
    strategy_respects_backlog st ->
    statistics_defined (BacktestEngine.portfolio out.1) ->
    exists r, out.2 = Returned r)).
Proof.
  intros all_data out Hst Hne. subst out. split.
  { unfold run. rewrite Hst. fold all_data. rewrite Hne. cbv zeta.
    match goal with |- context [date_loop ?a ?l ?x] =>
      pose proof (date_loop_escapes a l x) as Hesc;
      destruct (date_loop a l x) as [e2 [y'|]]
    end; simpl.
    - intros y Hy. inversion Hy; subst y'. right. now apply Hesc.
    - destruct (_generate_results _ _); intros y Hy; inversion Hy. now left. }
  intros Hcatch.
  assert (Hinv : exists st',
             BacktestEngine.strategy (set_context_securities e securities)
               = Some st' /\ same_hooks st st').
  { exists st. split; [exact Hst|]. now repeat split. }
  assert (Hall : Forall (fun d => daily_empty (daily_slice all_data d) = false)
                        (trading_dates all_data)).
  { apply List.Forall_forall. intros d Hd.
    apply daily_slice_nonempty; [exact Hne|now apply trading_dates_in_index]. }
  destruct (date_loop_spec st all_data (trading_dates all_data) _ Hinv Hcatch
              Hall) as (Hesc & Hok & segs & Ht & Hsegs & Hsnap).
  unfold run. rewrite Hst. fold all_data. rewrite Hne. cbv zeta.
  destruct (date_loop all_data (trading_dates all_data)
              (set_context_securities e securities)) as [e2 esc].
  simpl in Hesc, Hok, Ht, Hsnap. subst esc. simpl.
  split; [exists segs; split; [exact Ht|split; [exact Hsegs|exact Hsnap]]|].
  split; [|split].
  - intros rb rh ra Hb Hh Ha. rewrite Ht. f_equal.
    apply (journals_of_dates st all_data); [|exact Hsegs].
    intros d seg. now apply date_outcome_journal.
  - reflexivity.
  - intros Hb Hr Hs.
    destruct (generate_results_total _ _ Hs (Hok Hr Hb)) as (r & ->). eauto.
Qed.

Lemma faulty_ex_respects_backlog : strategy_respects_backlog faulty_ex.
Proof.
  assert (Hsub : forall (w : World unit) sec amt d,
            backlog_ok (w_order_manager w) ->
            backlog_ok (w_order_manager (submit w (Order.new sec amt d)))).
  { intros w sec amt d H. unfold backlog_ok, submit. simpl.
    apply Forall_app. split; [exact H|].
    constructor; [|constructor]. intros Hf. discriminate Hf. }
  split; [|split].
  - intros d w H. exact H.
  - intros dd d w H. simpl.
    destruct (d =? 1)%Z; [now apply Hsub|].
    destruct (d =? 3)%Z; [now apply Hsub|exact H].
  - intros d w H. exact H.
Qed.

Lemma faulty_ex_raises_catchable : strategy_raises_catchable faulty_ex.
Proof.
  split; [|split].
  - intros d w x H. discriminate H.
  - intros dd d w x. simpl. destruct (d =? 1)%Z; [discriminate|].
    destruct (d =? 3)%Z; [|discriminate].
    intros H. inversion H. now split.
  - intros d w x H. discriminate H.
Qed.

(** In the scenario the date decides what raises: [handle_data] on day 3,
    nothing else. *)
Lemma faulty_ex_raises_on_day_3 :
  (forall d w, (before_trading_start faulty_ex d w).2 = Normal
               <-> false = false) /\
  (forall dd d w, (handle_data faulty_ex dd d w).2 = Normal
                  <-> (d =? 3)%Z = false) /\
  (forall d w, (after_trading_end faulty_ex d w).2 = Normal
               <-> false = false).
Proof.
  split; [now split|]. split; [|now split].
  intros dd d w. simpl. destruct (d =? 1)%Z eqn:E1.
  - apply Z.eqb_eq in E1. subst d. now split.
  - destruct (d =? 3)%Z; split; (reflexivity || discriminate).
Qed.

(** Five flat days with a strategy whose [handle_data] raises a
    [ValueError] on the third: the third day stops there, with the entry in
    the log, the other four run in full, and [run] returns. *)
Lemma run_survives_date_errors_witness :
  BacktestEngine.strategy run_engine_ex = Some faulty_ex /\
  df_empty (BacktestEngine.data_provider run_engine_ex ["A"] 1%Z 5%Z "daily")
    = false /\
  strategy_raises_catchable faulty_ex /\
  BacktestEngine.trace (run run_engine_ex 1%Z 5%Z ["A"] "daily").1
    = BacktestEngine.trace run_engine_ex
      ++ concat (List.map
                   (date_journal (fun _ => false) (fun d => (d =? 3)%Z)
                                 (fun _ => false))
                   (trading_dates
                      (BacktestEngine.data_provider run_engine_ex ["A"] 1%Z
                         5%Z "daily"))) /\
  exists r, (run run_engine_ex 1%Z 5%Z ["A"] "daily").2 = Returned r.
Proof.
  split; [reflexivity|]. split; [reflexivity|].
  split; [exact faulty_ex_raises_catchable|].
  destruct (proj2 (run_survives_date_errors run_engine_ex faulty_ex 1%Z 5%Z
                     ["A"] "daily" eq_refl eq_refl)
              faulty_ex_raises_catchable)
    as (_ & Hjournal & _ & Hreturns).
  destruct faulty_ex_raises_on_day_3 as (Hb & Hh & Ha).
  split; [exact (Hjournal _ _ _ Hb Hh Ha)|].
  apply Hreturns; [constructor|exact faulty_ex_respects_backlog|].
  split; [reflexivity|].
  apply annual_return_of_loss; [reflexivity|apply Qle_bool_iff; reflexivity].
Defined.

(** The steps entered in the scenario: day 3 stops in [handle_data], days 4
    and 5 run in full; the order submitted on day 3 ahead of the exception
    is settled on day 4. *)
Example faulty_run_trace :
  BacktestEngine.trace (run run_engine_ex 1%Z 5%Z ["A"] "daily").1
    = pipeline 1%Z ++ pipeline 2%Z
      ++ [EvBeforeTradingStart 3%Z; EvHandleData 3%Z; EvLogError 3%Z]
      ++ pipeline 4%Z ++ pipeline 5%Z.
Proof. reflexivity. Qed.

Example faulty_run_snapshots :
  Portfolio.date_history
    (BacktestEngine.portfolio (run run_engine_ex 1%Z 5%Z ["A"] "daily").1)
    = [1; 2; 4; 5]%Z.
Proof. reflexivity. Qed.

(** The first snapshot of the scenario values the portfolio at
    999,869.97: the cash left by the buy plus 1000 shares marked at 100. *)
Example faulty_run_first_value :
  List.map Qred
    (firstn 2 (Portfolio.total_value_history
       (BacktestEngine.portfolio (run run_engine_ex 1%Z 5%Z ["A"] "daily").1)))
    = [99986997 # 100; 99986997 # 100].
Proof. reflexivity. Qed.

(** C4 as stated fails on an exception that is no [Exception].  The
    strategy is attached and the table has five days; [handle_data] leaves
    day 3 through [sys.exit()].  The handler of the date loop does not take
    a [SystemExit]: it leaves [run], days 4 and 5 are never entered and no
    report is produced. *)
Lemma run_left_by_system_exit :
  let out := run exiting_engine_ex 1%Z 5%Z ["A"] "daily" in
  BacktestEngine.strategy exiting_engine_ex = Some exiting_ex /\
  df_empty (BacktestEngine.data_provider exiting_engine_ex ["A"] 1%Z 5%Z
              "daily") = false /\
  trading_dates (BacktestEngine.data_provider exiting_engine_ex ["A"] 1%Z 5%Z
                   "daily") = [1; 2; 3; 4; 5]%Z /\
  (forall dd w, (handle_data exiting_ex dd 3%Z w).2 = Raise system_exit_ex) /\
  out.2 = Raised (Uncaught system_exit_ex) /\
  (forall r, out.2 <> Returned r) /\
  BacktestEngine.results out.1 = None /\
  BacktestEngine.trace out.1
    = pipeline 1%Z ++ pipeline 2%Z
      ++ [EvBeforeTradingStart 3%Z; EvHandleData 3%Z].
Proof.
  intros out.
  assert (Hout : out.2 = Raised (Uncaught system_exit_ex)) by reflexivity.
  repeat (split; [reflexivity|]).
  split; [intros r H; rewrite Hout in H; discriminate H|].
  split; reflexivity.
Qed.

(** The handler itself raises when [str()] of the exception does: the
    exception of [__str__] leaves [run] on day 3, ahead of the log entry. *)
Example run_left_by_the_handler :
  (run garbled_engine_ex 1%Z 5%Z ["A"] "daily").2
    = Raised (HandlerError unprintable_ex) /\
  BacktestEngine.trace (run garbled_engine_ex 1%Z 5%Z ["A"] "daily").1
    = pipeline 1%Z ++ pipeline 2%Z
      ++ [EvBeforeTradingStart 3%Z; EvHandleData 3%Z].
Proof. split; reflexivity. Qed.

(** * Further properties of the settlement step *)

Lemma positions_add_position_ne pf sec a p sec' :
  sec' <> sec ->
  Portfolio.get_position (Portfolio.add_position pf sec a p) sec'
    = Portfolio.get_position pf sec'.
Proof.
  intros H. unfold Portfolio.get_position, Portfolio.add_position. simpl.
  now rewrite lookup_insert_ne.
Qed.

Lemma positions_remove_position_ne pf sec a p sec' :
  sec' <> sec ->
  Portfolio.get_position (Portfolio.remove_position pf sec a p) sec'
    = Portfolio.get_position pf sec'.
Proof.
  intros H. unfold Portfolio.get_position, Portfolio.remove_position.
  destruct (Portfolio.positions pf !! sec); [|reflexivity]. simpl.
  now rewrite lookup_insert_ne.
Qed.

(** X1.  A pending buy order with a known price [p] whose cost
    fill_amount * fill_price + commission is covered by the cash is paid for
    exactly: cash goes down by the cost, the position in the order's
    security is opened with, or raised by, the fill amount, and no other
    position and no history is touched. *)
Theorem buy_settlement_applies om date dd o pf p :
  Order.status o = PENDING ->
  0 < Order.amount o ->
  price_available (current_price_of dd (Order.security o)) = Some p ->
  let fill_price := p * (1 + OrderManager.slippage om) in
  let cost := Order.amount o * fill_price
              + Qabs (Order.amount o * fill_price)
                * OrderManager.commission_rate om in
  cost <= Portfolio.cash pf ->
  let pf' := Settlement.portfolio (settle_order om date dd o pf) in
  Portfolio.cash pf' = Portfolio.cash pf - cost /\
  (exists pos,
     Portfolio.get_position pf' (Order.security o) = Some pos /\
     Position.amount pos =
       match Portfolio.get_position pf (Order.security o) with
       | Some old => Position.amount old + Order.amount o
       | None => Order.amount o
       end) /\
  (forall sec, sec <> Order.security o ->
     Portfolio.get_position pf' sec = Portfolio.get_position pf sec) /\
  Portfolio.date_history pf' = Portfolio.date_history pf /\
  Portfolio.total_value_history pf' = Portfolio.total_value_history pf /\
  Portfolio.cash_history pf' = Portfolio.cash_history pf /\
  Portfolio.initial_cash pf' = Portfolio.initial_cash pf.
Proof.
  intros Hst Hbuy Hp fill_price cost Hcost pf'. subst pf'.
  destruct (settle_order_priced om date dd o pf p Hst Hp)
    as (o2 & -> & Hsec & _ & Hfa & Hfp & _). simpl.
  pose proof Hbuy as Hb. apply Qgtb_true in Hb. rewrite Hb in Hfp.
  fold fill_price in Hfp.
  destruct (apply_fill_buy om o2 pf _ _ Hfa Hfp Hbuy) as [[Hlt _]|[_ ->]].
  { exfalso. fold cost in Hlt. lra. }
  fold cost. rewrite Hsec. split; [reflexivity|]. split; [|split].
  - unfold Portfolio.get_position, Portfolio.add_position. simpl.
    rewrite lookup_insert_eq. eexists. split; [reflexivity|].
    now destruct (Portfolio.positions pf !! Order.security o).
  - intros sec Hne. now rewrite positions_add_position_ne.
  - repeat split.
Qed.

Lemma buy_settlement_applies_witness :
  Order.status buy_ex = PENDING /\
  0 < Order.amount buy_ex /\
  price_available (current_price_of day_ex (Order.security buy_ex)) = Some 100 /\
  Portfolio.cash
    (Settlement.portfolio (settle_order om_ex 1%Z day_ex buy_ex rich_pf_ex))
    == 89986997 # 100.
Proof.
  split; [reflexivity|]. split; [reflexivity|]. split; [reflexivity|].
  assert (Hc : 1000 * (100 * (1 + OrderManager.slippage om_ex))
               + Qabs (1000 * (100 * (1 + OrderManager.slippage om_ex)))
                 * OrderManager.commission_rate om_ex
               <= Portfolio.cash rich_pf_ex) by (vm_compute; discriminate).
  destruct (buy_settlement_applies om_ex 1%Z day_ex buy_ex rich_pf_ex 100
              eq_refl eq_refl eq_refl Hc) as [-> _].
  reflexivity.
Defined.

(** X2.  A pending sell order with a known price [p], met by a position
    that holds at least the amount to sell, is paid out exactly: cash goes
    up by |fill_amount| * fill_price - commission, the position goes down by
    the amount sold and stays non-negative with its cost basis and mark, and
    no other position is touched. *)
Theorem sell_settlement_applies om date dd o pf p position :
  Order.status o = PENDING ->
  Order.amount o < 0 ->
  price_available (current_price_of dd (Order.security o)) = Some p ->
  Portfolio.get_position pf (Order.security o) = Some position ->
  Qabs (Order.amount o) <= Position.amount position ->
  let fill_price := p * (1 - OrderManager.slippage om) in
  let revenue := Qabs (Order.amount o) * fill_price
                 - Qabs (Order.amount o * fill_price)
                   * OrderManager.commission_rate om in
  let pf' := Settlement.portfolio (settle_order om date dd o pf) in
  Portfolio.cash pf' = Portfolio.cash pf + revenue /\
  (exists pos,
     Portfolio.get_position pf' (Order.security o) = Some pos /\
     Position.amount pos = Position.amount position - Qabs (Order.amount o) /\
     0 <= Position.amount pos /\
     Position.avg_cost pos = Position.avg_cost position /\
     Position.last_price pos = Position.last_price position) /\
  (forall sec, sec <> Order.security o ->
     Portfolio.get_position pf' sec = Portfolio.get_position pf sec).
Proof.
  intros Hst Hsell Hp Hpos Hle fill_price revenue pf'. subst pf'.
  destruct (settle_order_priced om date dd o pf p Hst Hp)
    as (o2 & -> & Hsec & _ & Hfa & Hfp & _). simpl.
  assert (Hs : Order.amount o <= 0) by lra.
  pose proof Hs as Hb. apply Qgtb_false in Hb. rewrite Hb in Hfp.
  fold fill_price in Hfp.
  unfold apply_fill, OrderManager.get_commission.
  rewrite Hfa, Hfp, Hb, Hsec, Hpos.
  apply Qgeb_true in Hle as Hg. rewrite Hg. fold revenue.
  rewrite cash_remove_position, cash_set_cash. split; [reflexivity|].
  split.
  - unfold Portfolio.get_position, Portfolio.remove_position in *. simpl.
    rewrite Hpos. simpl. rewrite lookup_insert_eq. eexists.
    split; [reflexivity|]. simpl. repeat split. lra.
  - intros sec Hne. now rewrite positions_remove_position_ne.
Qed.

Lemma sell_settlement_applies_witness :
  Order.status (Order.new "A" (-100) 0%Z) = PENDING /\
  Order.amount (Order.new "A" (-100) 0%Z) < 0 /\
  Portfolio.get_position holding_pf_ex "A" = Some (Position.mk "A" 400 100 100) /\
  Qabs (-100) <= 400 /\
  exists pos,
    Portfolio.get_position
      (Settlement.portfolio
         (settle_order om_ex 1%Z day_ex (Order.new "A" (-100) 0%Z) holding_pf_ex))
      "A" = Some pos /\
    Position.amount pos = 400 - Qabs (-100).
Proof.
  split; [reflexivity|]. split; [reflexivity|]. split; [reflexivity|].
  assert (H : Qabs (-100) <= 400) by (vm_compute; discriminate).
  split; [exact H|].
  destruct (sell_settlement_applies om_ex 1%Z day_ex (Order.new "A" (-100) 0%Z)
              holding_pf_ex 100 (Position.mk "A" 400 100 100)
              eq_refl eq_refl eq_refl eq_refl H) as (_ & (pos & H1 & H2 & _) & _).
  exists pos. split; [exact H1|exact H2].
Defined.

(** What a turn of the loop never changes in an order. *)
Lemma turn_keeps_identity om date dd o pf :
  let o' := Settlement.order (turn om date dd o pf) in
  Order.security o' = Order.security o /\
  Order.amount o' = Order.amount o /\
  Order.add_time o' = Order.add_time o.
Proof.
  unfold turn, Order.is_pending. case_bool_decide as Hs; [|now simpl].
  unfold settle_order.
  destruct (price_available _) as [p|]; [|now simpl].
  rewrite (process_order_pending _ _ _ Hs). simpl.
  unfold stamp_fill_time. simpl. now destruct (Order.fill_time o).
Qed.

(** X3.  The settlement step keeps the backlog's shape: no order is added,
    dropped or moved, no order changes its security, its requested amount
    or its submission time, and the commission rate and the slippage of the
    order manager stay as they were. *)
Theorem settlement_keeps_backlog_shape {S} (e : BacktestEngine.t S) date dd :
  let om := BacktestEngine.order_manager e in
  let om' := BacktestEngine.order_manager (_process_orders date dd e).1 in
  length (OrderManager.orders om') = length (OrderManager.orders om) /\
  Forall2 (fun o o' =>
             Order.security o' = Order.security o /\
             Order.amount o' = Order.amount o /\
             Order.add_time o' = Order.add_time o)
          (OrderManager.orders om) (OrderManager.orders om') /\
  OrderManager.commission_rate om' = OrderManager.commission_rate om /\
  OrderManager.slippage om' = OrderManager.slippage om.
Proof.
  intros om om'. subst om om'.
  destruct (process_orders_state e date dd) as (-> & -> & -> & _).
  split; [apply settle_all_length|]. split; [|auto].
  generalize (BacktestEngine.portfolio e).
  induction (OrderManager.orders (BacktestEngine.order_manager e))
    as [|o os IH]; intros pf; [constructor|].
  rewrite settle_all_cons. simpl. constructor; [|apply IH].
  apply turn_keeps_identity.
Qed.

(** X4.  An order that the settlement step fills on date [d] carries a
    fill time afterwards: [d] when it had none, its own when it already had
    one. *)
Theorem settlement_stamps_fill_time {S} (e : BacktestEngine.t S) date dd i o p :
  OrderManager.orders (BacktestEngine.order_manager e) !! i = Some o ->
  Order.status o = PENDING ->
  price_available (current_price_of dd (Order.security o)) = Some p ->
  exists o',
    OrderManager.orders
      (BacktestEngine.order_manager (_process_orders date dd e).1) !! i
      = Some o' /\
    Order.status o' = FILLED /\
    Order.fill_time o' =
      Some (match Order.fill_time o with Some t => t | None => date end).
Proof.
  intros Hi Hs Hp.
  destruct (process_orders_state e date dd) as (-> & _).
  destruct (settle_all_lookup (BacktestEngine.order_manager e) date dd _
              (BacktestEngine.portfolio e) i o Hi) as (pf_i & ->).
  rewrite (turn_pending _ _ _ _ _ Hs). unfold settle_order. rewrite Hp.
  rewrite (process_order_pending _ _ _ Hs). simpl.
  eexists. split; [reflexivity|]. unfold stamp_fill_time. simpl.
  destruct (Order.fill_time o) eqn:E; simpl; rewrite ?E; auto.
Qed.

Lemma settlement_stamps_fill_time_witness :
  OrderManager.orders (BacktestEngine.order_manager engine_ex) !! 0%nat
    = Some buy_ex /\
  Order.status buy_ex = PENDING /\
  price_available (current_price_of day_ex (Order.security buy_ex)) = Some 100 /\
  exists o',
    OrderManager.orders
      (BacktestEngine.order_manager (_process_orders 7%Z day_ex engine_ex).1)
      !! 0%nat = Some o' /\
    Order.fill_time o' = Some 7%Z.
Proof.
  repeat (split; [reflexivity|]).
  destruct (settlement_stamps_fill_time engine_ex 7%Z day_ex 0%nat buy_ex 100
              eq_refl eq_refl eq_refl) as (o' & H1 & _ & H2).
  exists o'. split; [exact H1|exact H2].
Defined.

(** After its turn an order is settled for the day: it is no longer
    pending, or the day has no price for it. *)
Lemma turn_settled_for_day om date dd o pf :
  let o' := Settlement.order (turn om date dd o pf) in
  Order.status o' <> PENDING \/
  price_available (current_price_of dd (Order.security o')) = None.
Proof.
  destruct (decide (Order.status o = PENDING)) as [Hs|Hs].
  - rewrite (turn_pending _ _ _ _ _ Hs).
    destruct (price_available (current_price_of dd (Order.security o)))
      as [p|] eqn:Hp.
    + destruct (settle_order_priced om date dd o pf p Hs Hp)
        as (o2 & -> & _ & H & _). simpl. left. congruence.
    + rewrite (settle_order_unpriced _ _ _ _ _ Hp). simpl. now right.
  - rewrite (turn_not_pending _ _ _ _ _ Hs). simpl. now left.
Qed.

Lemma settle_all_settled_for_day om date dd os : forall pf,
  Forall (fun o => Order.status o <> PENDING \/
                   price_available (current_price_of dd (Order.security o))
                     = None)
         (settle_all om date dd os pf).1.1.
Proof.
  induction os as [|o os IH]; intros pf; [constructor|].
  rewrite settle_all_cons. simpl. constructor; [|apply IH].
  apply turn_settled_for_day.
Qed.

Lemma settle_all_nothing_to_do om date dd os : forall pf,
  Forall (fun o => Order.status o <> PENDING \/
                   price_available (current_price_of dd (Order.security o))
                     = None) os ->
  settle_all om date dd os pf = (os, pf, []).
Proof.
  induction os as [|o os IH]; intros pf H; [reflexivity|].
  inversion H as [|? ? Ho Hos]; subst. rewrite settle_all_cons.
  assert (E : turn om date dd o pf = Settlement.mk o pf []).
  { destruct Ho as [Ho|Ho]; [now apply turn_not_pending|].
    unfold turn. destruct (Order.is_pending o); [|reflexivity].
    now apply settle_order_unpriced. }
  rewrite E. simpl. now rewrite (IH _ Hos).
Qed.

(** X5.  Settling twice against the same rows settles once: a second
    settlement step over the rows of the first, under whatever date, leaves
    the backlog and the portfolio as the first step left them and hands no
    order to [process_order]. *)
Theorem settlement_idempotent_on_rows {S} (e : BacktestEngine.t S)
    date date2 dd :
  let e1 := (_process_orders date dd e).1 in
  let e2 := (_process_orders date2 dd e1).1 in
  BacktestEngine.order_manager e2 = BacktestEngine.order_manager e1 /\
  BacktestEngine.portfolio e2 = BacktestEngine.portfolio e1 /\
  BacktestEngine.process_order_calls e2 = BacktestEngine.process_order_calls e1.
Proof.
  intros e1 e2.
  assert (H : Forall (fun o => Order.status o <> PENDING \/
                   price_available (current_price_of dd (Order.security o))
                     = None)
                (OrderManager.orders (BacktestEngine.order_manager e1))).
  { subst e1. destruct (process_orders_state e date dd) as (-> & _).
    apply settle_all_settled_for_day. }
  subst e2.
  destruct (process_orders_state e1 date2 dd) as (Ho & Hr & Hs & -> & -> & _).
  rewrite (settle_all_nothing_to_do _ _ _ _ _ H) in *. simpl in *.
  split; [|split; [reflexivity|now rewrite app_nil_r]].
  destruct (BacktestEngine.order_manager (_process_orders date2 dd e1).1),
           (BacktestEngine.order_manager e1). simpl in *. congruence.
Qed.

(** X6.  When the day's rows are a single series (a table without a
    [security] column) whose close is a number, every pending order is
    filled at that close moved by the slippage, whatever security it names:
    no order is pending after the step. *)
Theorem series_day_fills_every_pending_order {S} (e : BacktestEngine.t S)
    date cols r p :
  has_column "close" cols = true ->
  row_close r = CNum p ->
  let om := BacktestEngine.order_manager e in
  let os' := OrderManager.orders
               (BacktestEngine.order_manager
                  (_process_orders date (DSeries cols r) e).1) in
  Forall (fun o => Order.status o <> PENDING) os' /\
  (forall i o, OrderManager.orders om !! i = Some o ->
     Order.status o = PENDING ->
     exists o', os' !! i = Some o' /\ Order.status o' = FILLED /\
       Order.fill_price o' =
         Some (if Qgtb (Order.amount o) 0
               then p * (1 + OrderManager.slippage om)
               else p * (1 - OrderManager.slippage om))).
Proof.
  intros Hc Hr om os'. subst om os'.
  assert (Hp : forall sec,
             price_available (current_price_of (DSeries cols r) sec) = Some p).
  { intros sec. simpl. now rewrite Hc, Hr. }
  destruct (process_orders_state e date (DSeries cols r)) as (-> & _).
  split.
  - pose proof (settle_all_settled_for_day (BacktestEngine.order_manager e)
                  date (DSeries cols r)
                  (OrderManager.orders (BacktestEngine.order_manager e))
                  (BacktestEngine.portfolio e)) as H.
    eapply Forall_impl; [exact H|]. intros o [Ho|Ho]; [exact Ho|].
    rewrite Hp in Ho. discriminate.
  - intros i o Hi Hs.
    destruct (settle_all_lookup (BacktestEngine.order_manager e) date
                (DSeries cols r) _ (BacktestEngine.portfolio e) i o Hi)
      as (pf_i & ->).
    rewrite (turn_pending _ _ _ _ _ Hs).
    destruct (settle_order_priced (BacktestEngine.order_manager e) date
                (DSeries cols r) o pf_i p Hs (Hp _))
      as (o2 & -> & _ & H1 & _ & H2 & _).
    eauto.
Qed.

Lemma series_day_fills_every_pending_order_witness :
  has_column "close" ["open"; "close"; "high"; "low"; "volume"] = true /\
  row_close (mkRow 1%Z EmptyString (CNum 100)) = CNum 100 /\
  Forall (fun o => Order.status o <> PENDING)
    (OrderManager.orders
       (BacktestEngine.order_manager
          (_process_orders 1%Z day_ex two_orders_engine_ex).1)).
Proof.
  split; [reflexivity|]. split; [reflexivity|].
  apply (series_day_fills_every_pending_order two_orders_engine_ex 1%Z
           ["open"; "close"; "high"; "low"; "volume"]
           (mkRow 1%Z EmptyString (CNum 100)) 100 eq_refl eq_refl).
Defined.

Lemma apply_fill_positions_nonneg om o pf :
  map_Forall (fun _ pos => 0 <= Position.amount pos) (Portfolio.positions pf) ->
  map_Forall (fun _ pos => 0 <= Position.amount pos)
             (Portfolio.positions (apply_fill om o pf)).
Proof.
  intros H. unfold apply_fill.
  destruct (OrderManager.get_commission om o) as [cm|]; [|exact H].
  destruct (Order.fill_amount o) as [fa|]; [|exact H].
  destruct (Order.fill_price o) as [fp|]; [|exact H].
  destruct (Qgtb fa 0) eqn:Hb.
  - destruct (Qgeb _ _); [|exact H].
    apply Qgtb_true in Hb. unfold Portfolio.add_position. simpl.
    apply map_Forall_insert_2; [|exact H].
    destruct (Portfolio.positions pf !! Order.security o) as [old|] eqn:E;
      simpl; [|lra].
    pose proof (H _ _ E) as Hold. simpl in Hold. lra.
  - unfold Portfolio.get_position.
    destruct (Portfolio.positions pf !! Order.security o) as [old|] eqn:E;
      [|exact H].
    destruct (Qgeb (Position.amount old) (Qabs fa)) eqn:Hg; [|exact H].
    apply Qgeb_true in Hg. unfold Portfolio.remove_position. simpl.
    rewrite E. simpl. apply map_Forall_insert_2; [simpl; lra|exact H].
Qed.

Lemma turn_positions_nonneg om date dd o pf :
  map_Forall (fun _ pos => 0 <= Position.amount pos) (Portfolio.positions pf) ->
  map_Forall (fun _ pos => 0 <= Position.amount pos)
    (Portfolio.positions (Settlement.portfolio (turn om date dd o pf))).
Proof.
  intros H. unfold turn. destruct (Order.is_pending o); [|exact H].
  unfold settle_order. destruct (price_available _) as [p|]; [|exact H].
  destruct (OrderManager.process_order om o p) as [o1 [|]]; [|exact H].
  now apply apply_fill_positions_nonneg.
Qed.

(** X7.  The settlement step never takes a position below zero: when no
    position of the portfolio has a negative amount before the step, none
    has after it, whatever the orders and the prices are. *)
Theorem settlement_keeps_positions_nonneg {S} (e : BacktestEngine.t S) date dd :
  map_Forall (fun _ pos => 0 <= Position.amount pos)
             (Portfolio.positions (BacktestEngine.portfolio e)) ->
  map_Forall (fun _ pos => 0 <= Position.amount pos)
             (Portfolio.positions
                (BacktestEngine.portfolio (_process_orders date dd e).1)).
Proof.
  destruct (process_orders_state e date dd) as (_ & _ & _ & -> & _).
  generalize (BacktestEngine.portfolio e).
  induction (OrderManager.orders (BacktestEngine.order_manager e))
    as [|o os IH]; intros pf H; [exact H|].
  rewrite settle_all_cons. simpl. apply IH.
  now apply turn_positions_nonneg.
Qed.

Lemma settlement_keeps_positions_nonneg_witness :
  map_Forall (fun _ pos => 0 <= Position.amount pos)
             (Portfolio.positions (BacktestEngine.portfolio two_orders_engine_ex))
  /\
  map_Forall (fun _ pos => 0 <= Position.amount pos)
             (Portfolio.positions
                (BacktestEngine.portfolio
                   (_process_orders 1%Z day_ex two_orders_engine_ex).1)).
Proof.
  assert (H : map_Forall (fun _ pos => 0 <= Position.amount pos)
             (Portfolio.positions (BacktestEngine.portfolio two_orders_engine_ex)))
    by apply map_Forall_empty.
  split; [exact H|].
  apply (settlement_keeps_positions_nonneg two_orders_engine_ex 1%Z day_ex H).
Defined.

(** X8.  With a commission rate and a slippage of at most 1 and rows whose
    prices are not negative, the settlement step keeps cash non-negative,
    buys and sells alike. *)
Theorem settlement_keeps_cash_nonneg {S} (e : BacktestEngine.t S) date dd :
  OrderManager.commission_rate (BacktestEngine.order_manager e) <= 1 ->
  OrderManager.slippage (BacktestEngine.order_manager e) <= 1 ->
  (forall sec p, price_available (current_price_of dd sec) = Some p -> 0 <= p) ->
  0 <= Portfolio.cash (BacktestEngine.portfolio e) ->
  0 <= Portfolio.cash (BacktestEngine.portfolio (_process_orders date dd e).1).
Proof.
  intros Hr Hs Hp Hc.
  destruct (process_orders_state e date dd) as (_ & _ & _ & -> & _).
  now apply settle_all_cash_nonneg.
Qed.

Lemma settlement_keeps_cash_nonneg_witness :
  OrderManager.commission_rate
    (BacktestEngine.order_manager two_orders_engine_ex) <= 1 /\
  OrderManager.slippage (BacktestEngine.order_manager two_orders_engine_ex) <= 1 /\
  (forall sec p, price_available (current_price_of day_ex sec) = Some p ->
                 0 <= p) /\
  0 <= Portfolio.cash (BacktestEngine.portfolio two_orders_engine_ex) /\
  0 <= Portfolio.cash
         (BacktestEngine.portfolio
            (_process_orders 1%Z day_ex two_orders_engine_ex).1).
Proof.
  assert (H1 : OrderManager.commission_rate
                 (BacktestEngine.order_manager two_orders_engine_ex) <= 1)
    by (vm_compute; discriminate).
  assert (H2 : OrderManager.slippage
                 (BacktestEngine.order_manager two_orders_engine_ex) <= 1)
    by (vm_compute; discriminate).
  assert (H3 : forall sec p,
             price_available (current_price_of day_ex sec) = Some p -> 0 <= p).
  { intros sec p H. simpl in H. inversion H. vm_compute. discriminate. }
  assert (H4 : 0 <= Portfolio.cash (BacktestEngine.portfolio two_orders_engine_ex))
    by (vm_compute; discriminate).
  repeat (split; [assumption|]).
  apply (settlement_keeps_cash_nonneg two_orders_engine_ex 1%Z day_ex H1 H2 H3 H4).
Defined.

(** * Marking prices *)

Lemma collect_prices_acc all_data dd secs : forall (m : gmap string Q) sec,
  fold_left
    (fun prices s =>
       match price_available (mark_price all_data dd s) with
       | Some p => <[s := p]> prices
       | None => prices
       end) secs m !! sec
  = match price_available (mark_price all_data dd sec) with
    | Some p => if bool_decide (sec ∈ secs) then Some p else m !! sec
    | None => m !! sec
    end.
Proof.
  induction secs as [|s secs IH]; intros m sec; simpl.
  - now destruct (price_available _).
  - rewrite IH.
    destruct (price_available (mark_price all_data dd sec)) as [p|] eqn:Hp.
    + destruct (decide (sec = s)) as [->|Hne].
      * rewrite Hp, lookup_insert_eq.
        rewrite (bool_decide_eq_true_2 (s ∈ s :: secs)) by constructor.
        now destruct (bool_decide (s ∈ secs)).
      * assert (E : bool_decide (sec ∈ s :: secs) = bool_decide (sec ∈ secs)).
        { apply bool_decide_ext. rewrite elem_of_cons. intuition. }
        rewrite E. destruct (bool_decide (sec ∈ secs)); [reflexivity|].
        destruct (price_available (mark_price all_data dd s));
          [now rewrite lookup_insert_ne|reflexivity].
    + destruct (price_available (mark_price all_data dd s)) as [q|] eqn:Hq;
        [|reflexivity].
      rewrite lookup_insert_ne; [reflexivity|]. intros ->. congruence.
Qed.

(** X9.  The [prices] dictionary built for the marking step holds exactly
    the securities of the run's list that have a number as their close in
    the day's rows, each with that close: nothing for a security outside
    the list, nothing for a missing or NaN close. *)
Theorem collect_prices_lookup all_data dd securities sec :
  collect_prices all_data dd securities !! sec
  = if bool_decide (sec ∈ securities)
    then price_available (mark_price all_data dd sec)
    else None.
Proof.
  unfold collect_prices. rewrite collect_prices_acc, lookup_empty.
  destruct (price_available _), (bool_decide _); reflexivity.
Qed.

(** X10.  The marking step and the settlement step read the same price:
    on the rows of any date of any table, the close used to mark a
    security is the close an order for that security is settled at. *)
Theorem mark_price_agrees_with_settlement all_data d sec :
  price_available (mark_price all_data (daily_slice all_data d) sec)
  = price_available (current_price_of (daily_slice all_data d) sec).
Proof.
  unfold mark_price, daily_slice.
  destruct (has_column "security" (columns all_data)) eqn:Hsec.
  - destruct (in_index d all_data); simpl; [|reflexivity]. rewrite Hsec.
    now destruct (rows_of_security sec (rows_at d (rows all_data))).
  - destruct (in_index d all_data); simpl.
    + destruct (rows_at d (rows all_data)) as [|r [|r' rs]]; simpl;
        try rewrite Hsec; reflexivity.
    + reflexivity.
Qed.

(** X11.  On a table without a [security] column the marking step gives
    every security of the run's list the same price, the close of the
    day's rows. *)
Theorem single_table_marks_all_alike all_data d securities s1 s2 :
  has_column "security" (columns all_data) = false ->
  s1 ∈ securities -> s2 ∈ securities ->
  collect_prices all_data (daily_slice all_data d) securities !! s1
  = collect_prices all_data (daily_slice all_data d) securities !! s2.
Proof.
  intros Hsec H1 H2. rewrite !collect_prices_lookup.
  rewrite !bool_decide_eq_true_2 by assumption.
  unfold mark_price. now rewrite Hsec.
Qed.

Lemma single_table_marks_all_alike_witness :
  has_column "security" (columns flat_data_ex) = false /\
  collect_prices flat_data_ex (daily_slice flat_data_ex 1%Z) ["A"; "B"] !! "A"
  = collect_prices flat_data_ex (daily_slice flat_data_ex 1%Z) ["A"; "B"] !! "B".
Proof.
  split; [reflexivity|].
  apply (single_table_marks_all_alike flat_data_ex 1%Z ["A"; "B"] "A" "B"
           eq_refl); set_solver.
Defined.

(** * Trading dates and daily rows *)

Lemma sorted_le_nodup_lt (l : list Z) :
  Sorted Z.le l -> NoDup l -> Sorted Z.lt l.
Proof.
  induction 1 as [|x l Hs IH Hhd]; intros Hnd; [constructor|].
  apply NoDup_cons in Hnd as [Hx Hnd]. constructor; [now apply IH|].
  destruct Hhd as [|y l' Hxy]; constructor.
  assert (x <> y) by (intros ->; apply Hx; constructor). lia.
Qed.

(** X12.  The trading dates of a table are the distinct values of its
    index, in strictly increasing order; a table whose index is not a
    [DatetimeIndex] has none. *)
Theorem trading_dates_spec all_data :
  Sorted Z.lt (trading_dates all_data) /\
  (forall d, In d (trading_dates all_data) <->
             index_is_datetime all_data = true /\
             In d (List.map row_index (rows all_data))).
Proof.
  split.
  - destruct (trading_dates_sorted all_data) as [H1 H2].
    now apply sorted_le_nodup_lt.
  - intros d. unfold trading_dates.
    destruct (index_is_datetime all_data).
    + rewrite sorted_dates_In, <- !list_elem_of_In, elem_of_remove_dups.
      intuition.
    + simpl. intuition discriminate.
Qed.

(** X13.  For a date of the index of a non-empty table the day's rows are
    never empty, so that the loop's [continue] on empty rows is not taken,
    and every row handed to the strategy and to the settlement step is a
    row of that date. *)
Theorem daily_slice_of_index_date all_data d :
  df_empty all_data = false ->
  In d (List.map row_index (rows all_data)) ->
  daily_empty (daily_slice all_data d) = false /\
  match daily_slice all_data d with
  | DSeries cols r => cols = columns all_data /\ rows_at d (rows all_data) = [r]
  | DFrame df => columns df = columns all_data /\
                 rows df = rows_at d (rows all_data)
  end /\
  Forall (fun r => row_index r = d /\ In r (rows all_data))
         (rows_at d (rows all_data)).
Proof.
  intros Hne Hin. split; [now apply daily_slice_nonempty|]. split.
  - unfold daily_slice, in_index.
    rewrite (bool_decide_eq_true_2 _ (proj2 (list_elem_of_In _ _) Hin)).
    destruct (has_column "security" (columns all_data)); [now simpl|].
    destruct (rows_at d (rows all_data)) as [|r [|r' rs]]; now simpl.
  - apply List.Forall_forall. intros r Hr. apply filter_In in Hr as [H1 H2].
    split; [now apply bool_decide_eq_true_1 in H2|exact H1].
Qed.

Lemma daily_slice_of_index_date_witness :
  df_empty two_stock_data_ex = false /\
  In 1%Z (List.map row_index (rows two_stock_data_ex)) /\
  daily_empty (daily_slice two_stock_data_ex 1%Z) = false.
Proof.
  assert (H : In 1%Z (List.map row_index (rows two_stock_data_ex)))
    by (simpl; auto).
  split; [reflexivity|]. split; [exact H|].
  apply (daily_slice_of_index_date two_stock_data_ex 1%Z eq_refl H).
Defined.

(** * The report, continued *)

Lemma fillna_no_nan v l :
  xis_nan v = false -> Forall (fun x => xis_nan x = false) (fillna v l).
Proof.
  intros Hv. induction l as [|x l IH]; simpl; constructor; [|exact IH].
  destruct (xis_nan x) eqn:E; assumption.
Qed.

Lemma pct_change_from_lookup l : forall prev i a b,
  (prev :: l) !! i = Some (XFin a) -> l !! i = Some (XFin b) -> a <> 0%R ->
  pct_change_from prev l !! i = Some (XFin (b / a - 1)%R).
Proof.
  induction l as [|x l IH]; intros prev i a b Ha Hb Hne; [discriminate|].
  destruct i as [|i]; simpl in *.
  - inversion Ha; inversion Hb; subst. simpl.
    destruct (Req_dec_T a 0) as [E|E]; [contradiction|].
    unfold Reqb. destruct (Req_dec_T a 0); [contradiction|]. reflexivity.
  - now apply IH with (a := a).
Qed.

(** X14.  The return series of the report has one entry per recorded
    snapshot and holds no NaN; its first entry is 0, and the entry that
    follows a snapshot of non-zero value [a] with a snapshot of value [b]
    is b / a - 1. *)
Theorem returns_pct_shape pf om r :
  _generate_results pf om = Some r ->
  let hist := Portfolio.total_value_history pf in
  length (returns r) = length hist /\
  length (returns_pct r) = length hist /\
  Forall (fun x => xis_nan x = false) (returns_pct r) /\
  (hist <> [] -> returns_pct r !! 0%nat = Some (XFin 0)) /\
  (forall i a b, hist !! i = Some a -> hist !! S i = Some b -> ~ a == 0 ->
     returns_pct r !! S i = Some (XFin (Q2R b / Q2R a - 1)%R)).
Proof.
  intros Hr hist.
  destruct (generate_results_inv pf om r Hr) as (an & ts & _ & _ & _ & ->).
  simpl. fold hist. unfold returns_pct_series, returns_series.
  split; [apply length_map|]. split.
  { unfold fillna. now rewrite length_map, pct_change_length, length_map. }
  split; [now apply fillna_no_nan|]. split.
  - intros Hne. destruct hist; [contradiction|reflexivity].
  - intros i a b Ha Hb Hz.
    destruct hist as [|v hist']; [discriminate|]. simpl.
    unfold fillna. rewrite list_lookup_fmap.
    erewrite pct_change_from_lookup; [reflexivity| | |now apply Q2R_nonzero].
    + change (XFin (Q2R v) :: List.map (fun q => XFin (Q2R q)) hist')
        with (List.map (fun q => XFin (Q2R q)) (v :: hist')).
      now rewrite list_lookup_fmap, Ha.
    + simpl in Hb. now rewrite list_lookup_fmap, Hb.
Qed.

Lemma flat_pf_ex_report :
  exists r, _generate_results flat_pf_ex om_ex = Some r.
Proof.
  destruct (annual_return_of_loss
              (Portfolio.s_total_profit_rate (Portfolio.get_summary flat_pf_ex))
              (length (Portfolio.total_value_history flat_pf_ex)))
    as (v & Hv); [reflexivity|apply Qle_bool_iff; reflexivity|].
  exact (generate_results_intro flat_pf_ex om_ex v [] eq_refl Hv eq_refl).
Qed.

Lemma returns_pct_shape_witness :
  exists r,
    _generate_results flat_pf_ex om_ex = Some r /\
    length (returns_pct r) = 3%nat.
Proof.
  destruct flat_pf_ex_report as (r & Hr). exists r. split; [exact Hr|].
  apply (returns_pct_shape flat_pf_ex om_ex r Hr).
Defined.

Lemma trade_entries_length om os : forall ts,
  Forall (fun o => Order.is_filled o = true) os ->
  trade_entries om os = Some ts ->
  length ts = length (List.filter has_fill_time os).
Proof.
  induction os as [|o os IH]; intros ts Hf H; simpl in *.
  - now inversion H.
  - inversion Hf as [|? ? Ho Hos]; subst.
    destruct (trade_entry om o) as [e|] eqn:He; [|discriminate].
    destruct (trade_entries om os) as [es|]; [|discriminate].
    inversion H; subst ts; clear H. specialize (IH es Hos eq_refl).
    unfold trade_entry in He. rewrite Ho in He. unfold has_fill_time.
    destruct (Order.fill_time o).
    + destruct (Order.fill_amount o), (Order.fill_price o),
        (OrderManager.get_commission om o); try discriminate.
      inversion He; subst. simpl. now rewrite IH.
    + inversion He; subst. exact IH.
Qed.

(** X15.  [total_trades] counts every filled order of the backlog, the
    trade history only those that carry a fill time: the history is never
    longer than [total_trades], and as long as it by exactly the filled
    orders with a fill time. *)
Theorem total_trades_bounds_trade_history pf om r :
  _generate_results pf om = Some r ->
  total_trades (metrics r) = length (OrderManager.get_filled_orders om) /\
  length (trade_history r)
    = length (List.filter has_fill_time (OrderManager.get_filled_orders om)) /\
  (length (trade_history r) <= total_trades (metrics r))%nat.
Proof.
  intros Hr.
  destruct (generate_results_inv pf om r Hr) as (an & ts & _ & _ & E & ->).
  simpl.
  assert (H : length (sort_by_date ts)
              = length (List.filter has_fill_time
                          (OrderManager.get_filled_orders om))).
  { rewrite <- (Permutation_length (sort_by_date_perm ts)).
    apply (trade_entries_length om); [apply filled_orders_filled|exact E]. }
  split; [reflexivity|]. split; [exact H|]. rewrite H. apply filter_length_le.
Qed.

Lemma total_trades_bounds_trade_history_witness :
  exists r,
    _generate_results rich_pf_ex filled_om_ex = Some r /\
    total_trades (metrics r) = 1%nat.
Proof.
  eexists. split; [reflexivity|].
  apply (total_trades_bounds_trade_history rich_pf_ex filled_om_ex _ eq_refl).
Defined.

Lemma insert_by_date_trades_on d t l :
  trades_on d (insert_by_date t l) = trades_on d (t :: l).
Proof.
  induction l as [|u l IH]; [reflexivity|]. simpl.
  destruct (t_date t <=? t_date u)%Z eqn:E; [reflexivity|].
  apply Z.leb_gt in E. unfold trades_on in *. simpl in *. rewrite IH.
  destruct (t_date u =? d)%Z eqn:Eu, (t_date t =? d)%Z eqn:Et; try reflexivity.
  apply Z.eqb_eq in Eu, Et. lia.
Qed.

Lemma sort_by_date_trades_on d l :
  trades_on d (sort_by_date l) = trades_on d l.
Proof.
  induction l as [|t l IH]; [reflexivity|]. simpl.
  rewrite insert_by_date_trades_on. unfold trades_on in *. simpl.
  now rewrite IH.
Qed.

(** X16.  The sort of the trade history is stable: the trades of one fill
    date appear in the order of their orders in the backlog. *)
Theorem trade_history_keeps_backlog_order pf om r :
  _generate_results pf om = Some r ->
  exists entries,
    trade_entries om (OrderManager.get_filled_orders om) = Some entries /\
    forall d, trades_on d (trade_history r) = trades_on d entries.
Proof.
  intros Hr.
  destruct (generate_results_inv pf om r Hr) as (an & ts & _ & _ & E & ->).
  simpl. exists ts.
  split; [exact E|]. intros d. apply sort_by_date_trades_on.
Qed.

(** Two orders filled on the same day, the buy of "A" ahead of the sale of
    "B" in the backlog: the history lists the two trades of that day in
    this order. *)
Lemma trade_history_keeps_backlog_order_witness :
  exists r,
    _generate_results rich_pf_ex twin_om_ex = Some r /\
    List.map Order.security (OrderManager.get_filled_orders twin_om_ex)
      = ["A"; "B"] /\
    List.map t_date (trade_history r) = [1; 1]%Z /\
    List.map t_security (trades_on 1%Z (trade_history r)) = ["A"; "B"].
Proof.
  eexists. split; [reflexivity|]. split; [reflexivity|].
  split; [reflexivity|].
  destruct (trade_history_keeps_backlog_order rich_pf_ex twin_om_ex _ eq_refl)
    as (entries & H1 & H2).
  rewrite H2. inversion H1. reflexivity.
Defined.

(** * The run, continued *)

Lemma call_hook_keeps_results {S} ev hook (e : BacktestEngine.t S) :
  BacktestEngine.results (call_hook ev hook e).1 = BacktestEngine.results e /\
  BacktestEngine.data_provider (call_hook ev hook e).1
    = BacktestEngine.data_provider e.
Proof.
  unfold call_hook. destruct (BacktestEngine.strategy e); [|now simpl].
  now destruct (hook _ _).
Qed.

Lemma process_orders_keeps_results {S} d dd (e : BacktestEngine.t S) :
  BacktestEngine.results (_process_orders d dd e).1 = BacktestEngine.results e /\
  BacktestEngine.data_provider (_process_orders d dd e).1
    = BacktestEngine.data_provider e.
Proof. unfold _process_orders. simpl. now destruct (settle_all _ _ _ _ _) as [[? ?] ?]. Qed.

Lemma process_date_keeps_results {S} all_data d (e : BacktestEngine.t S) :
  BacktestEngine.results (process_date all_data d e).1
    = BacktestEngine.results e /\
  BacktestEngine.data_provider (process_date all_data d e).1
    = BacktestEngine.data_provider e.
Proof.
  unfold process_date. destruct (daily_empty _); [now simpl|]. unfold bind.
  destruct (call_hook_keeps_results (EvBeforeTradingStart d)
              (fun st => before_trading_start st d) e) as [R1 D1].
  destruct (call_hook _ _ e) as [e1 [x|[]]]; simpl in R1, D1; [now simpl|].
  destruct (call_hook_keeps_results (EvHandleData d)
              (fun st => handle_data st (daily_slice all_data d) d) e1)
    as [R2 D2].
  destruct (call_hook _ _ e1) as [e2 [x|[]]]; simpl in R2, D2;
    [simpl; split; congruence|].
  destruct (process_orders_keeps_results d (daily_slice all_data d) e2)
    as [R3 D3].
  destruct (_process_orders d _ e2) as [e3 [x|[]]]; simpl in R3, D3;
    [simpl; split; congruence|].
  unfold mark_prices_step, update_prices_step. simpl.
  match goal with |- context [call_hook ?ev ?h ?x] =>
    destruct (call_hook_keeps_results ev h x) as [R5 D5];
    destruct (call_hook ev h x) as [e5 [y|[]]]
  end; simpl in R5, D5; simpl; split; congruence.
Qed.

Lemma try_date_keeps_results {S} all_data d (e : BacktestEngine.t S) :
  BacktestEngine.results (try_date all_data e d).1
    = BacktestEngine.results e /\
  BacktestEngine.data_provider (try_date all_data e d).1
    = BacktestEngine.data_provider e.
Proof.
  unfold try_date, handle_date_error.
  pose proof (process_date_keeps_results all_data d e) as H.
  destruct (process_date all_data d e) as [e1 [x|[]]]; [|exact H].
  now destruct (is_Exception x), (str_returns x).
Qed.

Lemma loop_keeps_results {S} all_data dates :
  forall e : BacktestEngine.t S,
  BacktestEngine.results (date_loop all_data dates e).1
    = BacktestEngine.results e /\
  BacktestEngine.data_provider (date_loop all_data dates e).1
    = BacktestEngine.data_provider e.
Proof.
  induction dates as [|d dates IH]; intros e; simpl; [auto|].
  pose proof (try_date_keeps_results all_data d e) as H.
  destruct (try_date all_data e d) as [e1 [y|]]; [exact H|].
  destruct (IH e1) as [-> ->]. exact H.
Qed.

(** X17.  A run that returns stores the report it returns in the engine's
    [results]; a run that raises, for whatever reason, leaves [results] as
    it was.  The data provider is never replaced. *)
Theorem run_stores_results {S} (e : BacktestEngine.t S)
    start_date end_date securities frequency :
  let out := run e start_date end_date securities frequency in
  (forall r, out.2 = Returned r -> BacktestEngine.results out.1 = Some r) /\
  (forall x, out.2 = Raised x ->
             BacktestEngine.results out.1 = BacktestEngine.results e) /\
  BacktestEngine.data_provider out.1 = BacktestEngine.data_provider e.
Proof.
  intros out. subst out. unfold run.
  destruct (BacktestEngine.strategy e); [|simpl; repeat split; discriminate].
  destruct (df_empty _); [simpl; repeat split; discriminate|].
  match goal with |- context [date_loop ?a ?l ?x] =>
    destruct (loop_keeps_results a l x) as [R D];
    destruct (date_loop a l x) as [e2 [y|]]
  end; simpl in R, D.
  - simpl. split; [discriminate|]. split; [intros _ _; exact R|exact D].
  - cbv zeta. destruct (_generate_results _ _) as [r|]; simpl.
    + split; [intros r' H; now inversion H|]. split; [discriminate|exact D].
    + split; [discriminate|]. split; [intros _ _; exact R|exact D].
Qed.

(** X18.  An engine fresh from its constructor has no strategy, and [run]
    raises on it; once [set_strategy] has been called, also when the
    strategy's [initialize] raised, a strategy is attached and [run] does
    not raise for want of one. *)
Theorem strategy_attached_by_set_strategy {S}
    dp initial_cash commission_rate slippage (e : BacktestEngine.t S) st
    start_date end_date securities frequency :
  run (BacktestEngine.init (S := S) dp initial_cash commission_rate slippage)
      start_date end_date securities frequency
    = (BacktestEngine.init dp initial_cash commission_rate slippage,
       Raised NoStrategy) /\
  (exists st', BacktestEngine.strategy (set_strategy e st).1 = Some st' /\
               same_hooks st st') /\
  (run (set_strategy e st).1 start_date end_date securities frequency).2
    <> Raised NoStrategy.
Proof.
  split; [reflexivity|].
  assert (H : exists st', BacktestEngine.strategy (set_strategy e st).1 = Some st'
                          /\ same_hooks st st').
  { unfold set_strategy. destruct (initialize st _) as [w c]. simpl.
    eexists. split; [reflexivity|]. now repeat split. }
  split; [exact H|]. destruct H as (st' & H & _). unfold run. rewrite H.
  destruct (df_empty _); [discriminate|].
  match goal with |- context [date_loop ?a ?l ?x] =>
    pose proof (date_loop_escapes a l x) as Hesc;
    destruct (date_loop a l x) as [e2 [y|]]
  end; simpl.
  - destruct (Hesc y eq_refl) as (x & _ & [-> | ->]); discriminate.
  - destruct (_generate_results _ _); discriminate.
Qed.

(** ** A run in which no callback raises *)

Section Calm.
Context {S : Type} (st : Strategy S).
Hypothesis Hbefore : forall d w, (before_trading_start st d w).2 = Normal.
Hypothesis Hhandle : forall dd d w, (handle_data st dd d w).2 = Normal.
Hypothesis Hafter : forall d w, (after_trading_end st d w).2 = Normal.

Lemma call_hook_calm ev (hook : Strategy S -> World S -> World S * Completion)
    (e : BacktestEngine.t S) :
  (forall st' w, same_hooks st st' -> (hook st' w).2 = Normal) ->
  (exists st', BacktestEngine.strategy e = Some st' /\ same_hooks st st') ->
  (exists st', BacktestEngine.strategy (call_hook ev hook e).1 = Some st' /\
               same_hooks st st') /\
  BacktestEngine.trace (call_hook ev hook e).1 = BacktestEngine.trace e ++ [ev] /\
  (call_hook ev hook e).2 = inr tt.
Proof.
  intros Hh (st' & Hs & Hsame). unfold call_hook. rewrite Hs.
  pose proof (Hh st' (world_of (log_event e ev) st') Hsame) as Hn.
  destruct (hook st' _) as [w c]. simpl in *. subst c.
  split; [|auto]. eexists. split; [reflexivity|].
  destruct Hsame as (H1 & H2 & H3). now repeat split.
Qed.

Lemma process_date_calm all_data d (e : BacktestEngine.t S) :
  (exists st', BacktestEngine.strategy e = Some st' /\ same_hooks st st') ->
  daily_empty (daily_slice all_data d) = false ->
  let r := process_date all_data d e in
  (exists st', BacktestEngine.strategy r.1 = Some st' /\ same_hooks st st') /\
  BacktestEngine.trace r.1 = BacktestEngine.trace e ++ pipeline d /\
  r.2 = inr tt.
Proof.
  intros Hinv Hne r. subst r. unfold process_date. rewrite Hne. unfold bind.
  destruct (call_hook_calm (EvBeforeTradingStart d)
              (fun s => before_trading_start s d) e) as (I1 & T1 & R1);
    [intros st' w (-> & _); apply Hbefore|exact Hinv|].
  destruct (call_hook _ _ e) as [e1 r1]; simpl in I1, T1, R1; subst r1.
  destruct (call_hook_calm (EvHandleData d)
              (fun s => handle_data s (daily_slice all_data d) d) e1)
    as (I2 & T2 & R2);
    [intros st' w (_ & -> & _); apply Hhandle|exact I1|].
  destruct (call_hook _ _ e1) as [e2 r2]; simpl in I2, T2, R2; subst r2.
  destruct (process_orders_state e2 d (daily_slice all_data d))
    as (_ & _ & _ & _ & _ & T3 & S3 & R3).
  destruct (_process_orders d _ e2) as [e3 r3]; simpl in T3, S3, R3; subst r3.
  unfold mark_prices_step, update_prices_step. simpl.
  match goal with |- context [call_hook ?ev ?h ?x] =>
    destruct (call_hook_calm ev h x) as (I5 & T5 & R5);
      [intros st' w (_ & _ & ->); apply Hafter|simpl; now rewrite S3|];
    destruct (call_hook ev h x) as [e5 r5]
  end; simpl in I5, T5, R5; subst r5. simpl.
  split; [exact I5|]. split; [|reflexivity].
  rewrite T5. simpl. rewrite T3, T2, T1, <- !app_assoc. reflexivity.
Qed.

Lemma loop_calm all_data dates : forall (e : BacktestEngine.t S),
  (exists st', BacktestEngine.strategy e = Some st' /\ same_hooks st st') ->
  Forall (fun d => daily_empty (daily_slice all_data d) = false) dates ->
  (date_loop all_data dates e).2 = None /\
  BacktestEngine.trace (date_loop all_data dates e).1
    = BacktestEngine.trace e ++ concat (List.map pipeline dates).
Proof.
  induction dates as [|d dates IH]; intros e Hinv Hall; simpl.
  - now rewrite app_nil_r.
  - inversion Hall as [|? ? Hd Hrest]; subst.
    destruct (process_date_calm all_data d e Hinv Hd) as (I1 & T1 & R1).
    unfold try_date.
    destruct (process_date all_data d e) as [e1 r1]; simpl in I1, T1, R1.
    subst r1. destruct (IH _ I1 Hrest) as [-> ->].
    split; [reflexivity|]. rewrite T1, <- app_assoc. reflexivity.
Qed.
End Calm.

(** X19.  When no callback of the attached strategy raises, [run] takes
    every trading date of a non-empty table through the whole pipeline, in
    the order of the source: before-trading hook, data hook, settlement,
    price marking, after-trading hook, snapshot; one snapshot step per
    trading date. *)
Theorem run_without_exceptions_runs_every_step {S} (e : BacktestEngine.t S) st
    start_date end_date securities frequency :
  let all_data :=
    BacktestEngine.data_provider e securities start_date end_date frequency in
  BacktestEngine.strategy e = Some st ->
  df_empty all_data = false ->
  (forall d w, (before_trading_start st d w).2 = Normal) ->
  (forall dd d w, (handle_data st dd d w).2 = Normal) ->
  (forall d w, (after_trading_end st d w).2 = Normal) ->
  BacktestEngine.trace (run e start_date end_date securities frequency).1
    = BacktestEngine.trace e
      ++ concat (List.map pipeline (trading_dates all_data)).
Proof.
  intros all_data Hst Hne H1 H2 H3.
  assert (Hall : Forall (fun d => daily_empty (daily_slice all_data d) = false)
                        (trading_dates all_data)).
  { apply List.Forall_forall. intros d Hd.
    apply daily_slice_nonempty; [exact Hne|now apply trading_dates_in_index]. }
  assert (Hinv : exists st',
             BacktestEngine.strategy (set_context_securities e securities)
               = Some st' /\ same_hooks st st').
  { exists st. split; [exact Hst|]. now repeat split. }
  destruct (loop_calm st H1 H2 H3 all_data (trading_dates all_data) _ Hinv
              Hall) as [Hesc Ht].
  unfold run. rewrite Hst. fold all_data. rewrite Hne. cbv zeta.
  destruct (date_loop all_data (trading_dates all_data)
              (set_context_securities e securities)) as [e2 esc].
  simpl in Hesc, Ht. subst esc. exact Ht.
Qed.

Lemma run_without_exceptions_runs_every_step_witness :
  BacktestEngine.strategy calm_engine_ex = Some calm_ex /\
  df_empty flat_data_ex = false /\
  BacktestEngine.trace (run calm_engine_ex 1%Z 5%Z ["A"] "daily").1
    = concat (List.map pipeline [1; 2; 3; 4; 5]%Z).
Proof.
  split; [reflexivity|]. split; [reflexivity|].
  apply (run_without_exceptions_runs_every_step calm_engine_ex calm_ex 1%Z 5%Z
           ["A"] "daily" eq_refl eq_refl).
  - reflexivity.
  - intros dd d w. simpl. now destruct (d =? 1)%Z.
  - reflexivity.
Defined.

(** ** Snapshots *)

Section CalmSnapshots.
Context {S : Type} (st : Strategy S).
Hypothesis Hbefore : forall d, hook_is_calm (before_trading_start st d).
Hypothesis Hhandle : forall dd d, hook_is_calm (handle_data st dd d).
Hypothesis Hafter : forall d, hook_is_calm (after_trading_end st d).

Lemma call_hook_snapshots ev
    (hook : Strategy S -> World S -> World S * Completion)
    (e : BacktestEngine.t S) :
  (forall st', same_hooks st st' -> hook_is_calm (hook st')) ->
  (exists st', BacktestEngine.strategy e = Some st' /\ same_hooks st st') ->
  (exists st', BacktestEngine.strategy (call_hook ev hook e).1 = Some st' /\
               same_hooks st st') /\
  Portfolio.date_history (BacktestEngine.portfolio (call_hook ev hook e).1)
    = Portfolio.date_history (BacktestEngine.portfolio e) /\
  (call_hook ev hook e).2 = inr tt.
Proof.
  intros Hh (st' & Hs & Hsame). unfold call_hook. rewrite Hs.
  destruct (Hh st' Hsame (world_of (log_event e ev) st')) as [Hn Hd].
  destruct (hook st' _) as [w c]. simpl in *. subst c.
  split; [|auto]. eexists. split; [reflexivity|].
  destruct Hsame as (H1 & H2 & H3). now repeat split.
Qed.

Lemma process_date_snapshots all_data d (e : BacktestEngine.t S) :
  (exists st', BacktestEngine.strategy e = Some st' /\ same_hooks st st') ->
  daily_empty (daily_slice all_data d) = false ->
  let r := process_date all_data d e in
  (exists st', BacktestEngine.strategy r.1 = Some st' /\ same_hooks st st') /\
  r.2 = inr tt /\
  Portfolio.date_history (BacktestEngine.portfolio r.1)
    = Portfolio.date_history (BacktestEngine.portfolio e) ++ [d].
Proof.
  intros Hinv Hne r. subst r. unfold process_date. rewrite Hne. unfold bind.
  destruct (call_hook_snapshots (EvBeforeTradingStart d)
              (fun s => before_trading_start s d) e) as (I1 & T1 & R1);
    [intros st' (-> & _); apply Hbefore|exact Hinv|].
  destruct (call_hook _ _ e) as [e1 r1]; simpl in I1, T1, R1; subst r1.
  destruct (call_hook_snapshots (EvHandleData d)
              (fun s => handle_data s (daily_slice all_data d) d) e1)
    as (I2 & T2 & R2);
    [intros st' (_ & -> & _); apply Hhandle|exact I1|].
  destruct (call_hook _ _ e1) as [e2 r2]; simpl in I2, T2, R2; subst r2.
  destruct (process_orders_state e2 d (daily_slice all_data d))
    as (_ & _ & _ & P3 & _ & _ & S3 & R3).
  pose proof (settle_all_date_history (BacktestEngine.order_manager e2) d
                (daily_slice all_data d)
                (OrderManager.orders (BacktestEngine.order_manager e2))
                (BacktestEngine.portfolio e2)) as T3.
  rewrite <- P3 in T3.
  destruct (_process_orders d _ e2) as [e3 r3]; simpl in T3, S3, R3; subst r3.
  unfold mark_prices_step, update_prices_step. simpl.
  match goal with |- context [call_hook ?ev ?h ?x] =>
    destruct (call_hook_snapshots ev h x) as (I5 & T5 & R5);
      [intros st' (_ & _ & ->); apply Hafter|simpl; now rewrite S3|];
    destruct (call_hook ev h x) as [e5 r5]
  end; simpl in I5, T5, R5; subst r5. simpl.
  split; [exact I5|]. split; [reflexivity|].
  rewrite T5. simpl. now rewrite T3, T2, T1.
Qed.

Lemma loop_snapshots all_data dates :
  forall (e : BacktestEngine.t S),
  (exists st', BacktestEngine.strategy e = Some st' /\ same_hooks st st') ->
  Forall (fun d => daily_empty (daily_slice all_data d) = false) dates ->
  (date_loop all_data dates e).2 = None /\
  Portfolio.date_history
    (BacktestEngine.portfolio (date_loop all_data dates e).1)
    = Portfolio.date_history (BacktestEngine.portfolio e) ++ dates.
Proof.
  induction dates as [|d dates IH]; intros e Hinv Hall; simpl.
  - now rewrite app_nil_r.
  - inversion Hall as [|? ? Hd Hrest]; subst.
    destruct (process_date_snapshots all_data d e Hinv Hd) as (I1 & R1 & T1).
    unfold try_date.
    destruct (process_date all_data d e) as [e1 r1]; simpl in I1, T1, R1.
    subst r1. destruct (IH _ I1 Hrest) as [-> ->].
    split; [reflexivity|]. rewrite T1, <- app_assoc. reflexivity.
Qed.
End CalmSnapshots.

(** X24.  When no callback raises and none touches the portfolio's list of
    snapshot dates, [run] records one snapshot per trading date, in date
    order: the list of snapshot dates grows by exactly the trading dates,
    and a returned report lists them. *)
Theorem run_records_every_trading_date {S} (e : BacktestEngine.t S) st
    start_date end_date securities frequency :
  let all_data :=
    BacktestEngine.data_provider e securities start_date end_date frequency in
  let out := run e start_date end_date securities frequency in
  BacktestEngine.strategy e = Some st ->
  df_empty all_data = false ->
  (forall d, hook_is_calm (before_trading_start st d)) ->
  (forall dd d, hook_is_calm (handle_data st dd d)) ->
  (forall d, hook_is_calm (after_trading_end st d)) ->
  Portfolio.date_history (BacktestEngine.portfolio out.1)
    = Portfolio.date_history (BacktestEngine.portfolio e)
      ++ trading_dates all_data /\
  (forall r, out.2 = Returned r ->
     ph_dates (portfolio_history r)
       = Portfolio.date_history (BacktestEngine.portfolio e)
         ++ trading_dates all_data).
Proof.
  intros all_data out Hst Hne H1 H2 H3. subst out.
  assert (Hall : Forall (fun d => daily_empty (daily_slice all_data d) = false)
                        (trading_dates all_data)).
  { apply List.Forall_forall. intros d Hd.
    apply daily_slice_nonempty; [exact Hne|now apply trading_dates_in_index]. }
  assert (Hinv : exists st',
             BacktestEngine.strategy (set_context_securities e securities)
               = Some st' /\ same_hooks st st').
  { exists st. split; [exact Hst|]. now repeat split. }
  destruct (loop_snapshots st H1 H2 H3 all_data (trading_dates all_data) _
              Hinv Hall) as [Hesc Ht].
  simpl in Ht. unfold run. rewrite Hst. fold all_data. rewrite Hne. cbv zeta.
  destruct (date_loop all_data (trading_dates all_data)
              (set_context_securities e securities)) as [e2 esc].
  simpl in Hesc, Ht. subst esc.
  destruct (_generate_results _ _) as [r|] eqn:Er; simpl.
  - split; [exact Ht|]. intros r' Hr. inversion Hr; subst r'.
    destruct (generate_results_inv _ _ r Er) as (an & ts & _ & _ & _ & ->).
    simpl. exact Ht.
  - split; [exact Ht|discriminate].
Qed.

Lemma calm_ex_is_calm :
  (forall d, hook_is_calm (before_trading_start calm_ex d)) /\
  (forall dd d, hook_is_calm (handle_data calm_ex dd d)) /\
  (forall d, hook_is_calm (after_trading_end calm_ex d)).
Proof.
  repeat split; simpl; try reflexivity; now destruct (d =? 1)%Z.
Qed.

Lemma run_records_every_trading_date_witness :
  BacktestEngine.strategy calm_engine_ex = Some calm_ex /\
  df_empty
    (BacktestEngine.data_provider calm_engine_ex ["A"] 1%Z 5%Z "daily")
    = false /\
  Portfolio.date_history
    (BacktestEngine.portfolio (run calm_engine_ex 1%Z 5%Z ["A"] "daily").1)
    = Portfolio.date_history (BacktestEngine.portfolio calm_engine_ex)
      ++ trading_dates
           (BacktestEngine.data_provider calm_engine_ex ["A"] 1%Z 5%Z "daily").
Proof.
  split; [reflexivity|]. split; [reflexivity|].
  destruct calm_ex_is_calm as (H1 & H2 & H3).
  exact (proj1 (run_records_every_trading_date calm_engine_ex calm_ex 1%Z 5%Z
                  ["A"] "daily" eq_refl eq_refl H1 H2 H3)).
Defined.

(** The five snapshots of the scenario without exceptions. *)
Example calm_run_snapshots :
  Portfolio.date_history
    (BacktestEngine.portfolio (run calm_engine_ex 1%Z 5%Z ["A"] "daily").1)
    = [1; 2; 3; 4; 5]%Z.
Proof. reflexivity. Qed.

(** * Maximum drawdown *)

Section Drawdown.
Local Open Scope R_scope.

Lemma xbest_min_low b x :
  low b -> exists b', xbest xmin (Some b) x = Some b' /\ low b'.
Proof.
  intros Hb. unfold xbest. destruct (xis_nan x) eqn:Hn; [eauto|].
  eexists. split; [reflexivity|]. unfold xmin.
  destruct Hb as [->|(m & Hm & ->)].
  - left. now destruct x.
  - destruct x as [r| | |]; simpl; try discriminate.
    + destruct (Rgtb m r) eqn:E.
      * apply Rgtb_true in E. right. exists r. split; [lra|reflexivity].
      * right. eauto.
    + right. eauto.
    + now left.
Qed.

Lemma fold_min_low l : forall b,
  low b -> exists b', fold_left (xbest xmin) l (Some b) = Some b' /\ low b'.
Proof.
  induction l as [|x l IH]; intros b Hb; simpl; [eauto|].
  destruct (xbest_min_low b x Hb) as (b1 & -> & Hb1). now apply IH.
Qed.

(** The computation on a history that is not empty: the first snapshot has
    cumulative return 1 and drawdown 0. *)
Lemma max_drawdown_cons x l :
  _calculate_max_drawdown (x :: l) =
    xabs (default XNaN
            (fold_left (xbest xmin)
               (drawdown_series
                  (cumprod_from (XFin (1 * (1 + 0)))
                     (List.map (xadd (XFin 1))
                        (fillna (XFin 0) (pct_change_from x l))))
                  (Some (XFin (1 * (1 + 0)))))
               (Some (XFin ((1 * (1 + 0) - 1 * (1 + 0)) / (1 * (1 + 0))))))).
Proof.
  unfold _calculate_max_drawdown, pct_change, cumprod, expanding_max,
    xmin_skipna, drawdown_series.
  simpl.
  assert (Hc : Reqb (1 * (1 + 0)) 0 = false) by (apply Reqb_false; lra).
  rewrite Hc. reflexivity.
Qed.

(** X20.  The maximum drawdown is 0.0 for an empty history; for any other
    history it is never NaN and never negative: it is a number that is at
    least 0, or +inf. *)
Theorem max_drawdown_never_nan_nor_negative (returns : list xreal) :
  (returns = [] -> _calculate_max_drawdown returns = XFin 0) /\
  (_calculate_max_drawdown returns = XPInf \/
   exists m, 0 <= m /\ _calculate_max_drawdown returns = XFin m).
Proof.
  split; [now intros ->|].
  destruct returns as [|x l]; [right; exists 0; split; [lra|reflexivity]|].
  rewrite max_drawdown_cons.
  match goal with |- context [fold_left _ ?D (Some (XFin ?z))] =>
    destruct (fold_min_low D (XFin z)) as (b & -> & Hb)
  end.
  { right. eexists. split; [|reflexivity]. unfold Rdiv. lra. }
  simpl. destruct Hb as [->|(m & Hm & ->)]; simpl; [now left|].
  right. eexists. split; [apply Rabs_pos|reflexivity].
Qed.

(** *** A history of positive values *)

Lemma growth_step v x l :
  v <> 0 ->
  List.map (xadd (XFin 1))
    (fillna (XFin 0) (pct_change_from (XFin v) (XFin x :: l)))
  = XFin (1 + (x / v - 1))
    :: List.map (xadd (XFin 1)) (fillna (XFin 0) (pct_change_from (XFin x) l)).
Proof.
  intros Hv. simpl. apply Reqb_false in Hv. now rewrite Hv.
Qed.

Lemma growth_factors vs : forall v,
  0 < v -> Forall (fun x => 0 < x) vs ->
  exists fs,
    List.map (xadd (XFin 1))
      (fillna (XFin 0) (pct_change_from (XFin v) (List.map XFin vs)))
      = List.map XFin fs /\
    Forall (fun f => 0 < f) fs /\
    (Sorted Rle (v :: vs) -> Forall (fun f => 1 <= f) fs).
Proof.
  induction vs as [|x vs IH]; intros v Hv Hall.
  - exists []. repeat split; constructor.
  - inversion Hall as [|? ? Hx Hvs]; subst.
    destruct (IH x Hx Hvs) as (fs & E & Hpos & Hmono).
    exists ((1 + (x / v - 1)) :: fs). simpl.
    assert (Hz : Reqb v 0 = false) by (apply Reqb_false; lra).
    rewrite Hz. simpl. rewrite E. split; [reflexivity|].
    assert (Hq : 0 < x / v) by now apply Rdiv_lt_0_compat.
    split; [constructor; [lra|exact Hpos]|].
    intros Hs. inversion Hs as [|? ? Hs' Hhd]; subst.
    inversion Hhd as [|? ? Hvx]; subst.
    constructor; [|now apply Hmono].
    assert (1 <= x / v); [|lra].
    apply (Rmult_le_reg_r v); [exact Hv|]. unfold Rdiv.
    rewrite Rmult_assoc, Rinv_l by lra. lra.
Qed.

Lemma drawdown_series_cons acc best f l :
  drawdown_series (cumprod_from (XFin acc) (XFin f :: l)) (Some (XFin best)) =
    let c := acc * f in
    let top := if Rgtb c best then c else best in
    xdiv (XFin (c - top)) (XFin top)
    :: drawdown_series (cumprod_from (XFin c) l) (Some (XFin top)).
Proof.
  unfold drawdown_series. simpl. unfold xbest, xmax. simpl.
  now destruct (Rgtb (acc * f) best).
Qed.

Lemma drawdowns_of_positive fs : forall acc best,
  0 < acc -> acc <= best -> Forall (fun f => 0 < f) fs ->
  exists ds,
    drawdown_series (cumprod_from (XFin acc) (List.map XFin fs))
                    (Some (XFin best))
      = List.map XFin ds /\
    Forall (fun d => -1 < d <= 0) ds /\
    (acc = best -> Forall (fun f => 1 <= f) fs -> Forall (fun d => d = 0) ds).
Proof.
  induction fs as [|f fs IH]; intros acc best Hacc Hle Hall.
  - exists []. repeat split; constructor.
  - inversion Hall as [|? ? Hf Hfs]; subst.
    assert (Hc : 0 < acc * f) by now apply Rmult_lt_0_compat.
    cbn [List.map]. rewrite drawdown_series_cons. cbv zeta.
    destruct (Rgtb (acc * f) best) eqn:Eg.
    + apply Rgtb_true in Eg.
      destruct (IH (acc * f) (acc * f) Hc ltac:(lra) Hfs) as (ds & -> & Hb & Hz).
      rewrite xdiv_fin by lra.
      exists (((acc * f - acc * f) / (acc * f)) :: ds).
      split; [reflexivity|].
      assert (E0 : (acc * f - acc * f) / (acc * f) = 0)
        by (unfold Rdiv; ring).
      split; [constructor; [rewrite E0; lra|exact Hb]|].
      intros _ H1. inversion H1; subst.
      constructor; [exact E0|now apply Hz].
    + apply Rgtb_false in Eg.
      destruct (IH (acc * f) best Hc Eg Hfs) as (ds & -> & Hb & Hz).
      assert (Hbest : 0 < best) by lra.
      rewrite xdiv_fin by lra.
      exists (((acc * f - best) / best) :: ds).
      split; [reflexivity|].
      assert (Hq : 0 < acc * f / best) by now apply Rdiv_lt_0_compat.
      assert (Hq1 : acc * f / best <= 1).
      { apply (Rmult_le_reg_r best); [exact Hbest|]. unfold Rdiv.
        rewrite Rmult_assoc, Rinv_l by lra. lra. }
      assert (E1 : (acc * f - best) / best = acc * f / best - 1)
        by (field; lra).
      split; [constructor; [rewrite E1; lra|exact Hb]|].
      intros -> H1. inversion H1 as [|? ? H1f H1fs]; subst.
      assert (Hge : best <= best * f).
      { rewrite <- (Rmult_1_r best) at 1. apply Rmult_le_compat_l; lra. }
      assert (Heq : best * f = best) by lra.
      constructor; [rewrite Heq; unfold Rdiv; ring|].
      rewrite Heq in Hz. now apply Hz.
Qed.

Lemma xbest_min_fin z d :
  xbest xmin (Some (XFin z)) (XFin d)
  = Some (XFin (if Rgtb z d then d else z)).
Proof. unfold xbest, xmin. simpl. now destruct (Rgtb z d). Qed.

Lemma fold_min_fin ds : forall z,
  exists m,
    fold_left (xbest xmin) (List.map XFin ds) (Some (XFin z)) = Some (XFin m) /\
    (m = z \/ In m ds).
Proof.
  induction ds as [|d ds IH]; intros z; [simpl; eauto|].
  cbn [List.map fold_left]. rewrite xbest_min_fin.
  destruct (IH (if Rgtb z d then d else z)) as (m & -> & Hm).
  exists m. split; [reflexivity|].
  destruct Hm as [->|Hm]; [|right; now right].
  destruct (Rgtb z d); [right; now left|now left].
Qed.

Lemma positive_history vs :
  Forall (fun q => 0 < q)%Q vs -> Forall (fun x => 0 < x) (List.map Q2R vs).
Proof.
  induction 1 as [|q l Hq _ IH]; simpl; constructor; [|exact IH].
  rewrite <- RMicromega.Q2R_0. now apply Qlt_Rlt.
Qed.

Lemma nondecreasing_history vs :
  Sorted Qle vs -> Sorted Rle (List.map Q2R vs).
Proof.
  induction 1 as [|q l Hs IH Hhd]; simpl; constructor; [exact IH|].
  destruct Hhd as [|y l' Hqy]; simpl; constructor. now apply Qle_Rle.
Qed.

(** The maximum drawdown of a positive history, with what is known of the
    drawdowns it is the least of. *)
Lemma max_drawdown_positive totals :
  Forall (fun q => 0 < q)%Q totals ->
  exists m,
    _calculate_max_drawdown (returns_series totals) = XFin (Rabs m) /\
    -1 < m <= 0 /\
    (Sorted Qle totals -> m = 0).
Proof.
  intros Hpos. destruct totals as [|t ts].
  { exists 0. split; [simpl; now rewrite Rabs_R0|]. split; [lra|reflexivity]. }
  unfold returns_series. cbn [List.map]. rewrite max_drawdown_cons.
  rewrite <- (List.map_map Q2R XFin).
  apply positive_history in Hpos. simpl in Hpos.
  inversion Hpos as [|? ? Ht Hts]; subst.
  destruct (growth_factors (List.map Q2R ts) (Q2R t) Ht Hts)
    as (fs & -> & Hfs & Hmono).
  destruct (drawdowns_of_positive fs (1 * (1 + 0)) (1 * (1 + 0))
              ltac:(lra) ltac:(lra) Hfs) as (ds & -> & Hds & Hzero).
  destruct (fold_min_fin ds ((1 * (1 + 0) - 1 * (1 + 0)) / (1 * (1 + 0))))
    as (m & -> & Hm).
  exists m. split; [reflexivity|].
  assert (E0 : (1 * (1 + 0) - 1 * (1 + 0)) / (1 * (1 + 0)) = 0)
    by (unfold Rdiv; ring).
  rewrite E0 in Hm. rewrite List.Forall_forall in Hds. split.
  - destruct Hm as [->|Hm]; [lra|now apply Hds].
  - intros Hs. destruct Hm as [->|Hm]; [reflexivity|].
    apply (nondecreasing_history (t :: ts)) in Hs.
    specialize (Hzero eq_refl (Hmono Hs)).
    rewrite List.Forall_forall in Hzero. now apply Hzero.
Qed.

(** X21.  For a history of positive total values the maximum drawdown is a
    number between 0 and 1: a portfolio whose value stays positive never
    shows a drawdown of more than 100 percent. *)
Theorem max_drawdown_of_positive_history totals :
  Forall (fun q => 0 < q)%Q totals ->
  exists m, _calculate_max_drawdown (returns_series totals) = XFin m /\
            0 <= m <= 1.
Proof.
  intros H. destruct (max_drawdown_positive totals H) as (m & -> & Hm & _).
  eexists. split; [reflexivity|]. split; [apply Rabs_pos|].
  rewrite Rabs_left1 by lra. lra.
Qed.

Lemma max_drawdown_of_positive_history_witness :
  Forall (fun q => 0 < q)%Q [100; 80; 120; 90]%Q /\
  exists m,
    _calculate_max_drawdown (returns_series [100; 80; 120; 90]%Q) = XFin m /\
    0 <= m <= 1.
Proof.
  assert (H : Forall (fun q => 0 < q)%Q [100; 80; 120; 90]%Q)
    by (repeat constructor).
  split; [exact H|].
  apply (max_drawdown_of_positive_history [100; 80; 120; 90]%Q H).
Defined.

(** X22.  For a history of positive total values that never falls, a flat
    one in particular, the maximum drawdown is 0. *)
Theorem max_drawdown_of_rising_history totals :
  Forall (fun q => 0 < q)%Q totals ->
  Sorted Qle totals ->
  _calculate_max_drawdown (returns_series totals) = XFin 0.
Proof.
  intros H Hs. destruct (max_drawdown_positive totals H) as (m & -> & _ & Hz).
  rewrite (Hz Hs). now rewrite Rabs_R0.
Qed.

Lemma max_drawdown_of_rising_history_witness :
  Forall (fun q => 0 < q)%Q (Portfolio.total_value_history flat_pf_ex) /\
  Sorted Qle (Portfolio.total_value_history flat_pf_ex) /\
  _calculate_max_drawdown
    (returns_series (Portfolio.total_value_history flat_pf_ex)) = XFin 0.
Proof.
  assert (H : Forall (fun q => 0 < q)%Q (Portfolio.total_value_history flat_pf_ex))
    by (repeat constructor).
  assert (Hs : Sorted Qle (Portfolio.total_value_history flat_pf_ex)).
  { repeat constructor; discriminate. }
  split; [exact H|]. split; [exact Hs|].
  apply (max_drawdown_of_rising_history _ H Hs).
Defined.

(** *** The largest decline from the running peak *)

Lemma drawdowns_are_declines vs : forall v peak k acc best,
  0 < v -> v <= peak -> 0 < k -> acc = k * v -> best = k * peak ->
  Forall (fun x => 0 < x) vs ->
  exists ds,
    drawdown_series
      (cumprod_from (XFin acc)
         (List.map (xadd (XFin 1))
            (fillna (XFin 0) (pct_change_from (XFin v) (List.map XFin vs)))))
      (Some (XFin best))
      = List.map XFin ds /\
    Forall2 (fun d q => d = - q) ds (peak_declines peak vs).
Proof.
  induction vs as [|x vs IH]; intros v peak k acc best Hv Hle Hk Ea Eb Hall.
  - exists []. split; [reflexivity|constructor].
  - inversion Hall as [|? ? Hx Hvs]; subst.
    cbn [List.map]. rewrite growth_step by lra.
    rewrite drawdown_series_cons. cbv zeta.
    set (c := k * v * (1 + (x / v - 1))).
    assert (Ec : c = k * x) by (subst c; field; lra).
    set (top := if Rgtb c (k * peak) then c else k * peak).
    assert (Et : top = k * Rmax peak x).
    { subst top. destruct (Rgtb c (k * peak)) eqn:Eg.
      - apply Rgtb_true in Eg. rewrite Ec in Eg.
        apply Rmult_lt_reg_l in Eg; [|exact Hk].
        rewrite Rmax_right by lra. exact Ec.
      - apply Rgtb_false in Eg. rewrite Ec in Eg.
        apply Rmult_le_reg_l in Eg; [|exact Hk].
        now rewrite Rmax_left by lra. }
    assert (Hpk : 0 < Rmax peak x).
    { apply Rlt_le_trans with peak; [lra|apply Rmax_l]. }
    destruct (IH x (Rmax peak x) k c top Hx (Rmax_r _ _) Hk Ec Et Hvs)
      as (ds & -> & Hds).
    assert (Htop : top <> 0) by (rewrite Et; apply Rgt_not_eq;
                                 now apply Rmult_lt_0_compat).
    rewrite xdiv_fin by exact Htop.
    exists ((c - top) / top :: ds). split; [reflexivity|].
    cbn [peak_declines]. constructor; [|exact Hds].
    rewrite Ec, Et. field. split; lra.
Qed.

Lemma fold_min_is_max ds : forall qs z,
  Forall2 (fun d q => d = - q) ds qs ->
  exists m,
    fold_left (xbest xmin) (List.map XFin ds) (Some (XFin z)) = Some (XFin m) /\
    m = - fold_left Rmax qs (- z).
Proof.
  induction ds as [|d ds IH]; intros qs z H; inversion H as [|? q ? qs' Hd Hr];
    subst.
  - exists z. split; [reflexivity|]. simpl. lra.
  - cbn [List.map fold_left]. rewrite xbest_min_fin.
    destruct (IH qs' (if Rgtb z (- q) then - q else z) Hr) as (m & -> & ->).
    eexists. split; [reflexivity|]. f_equal. f_equal.
    destruct (Rgtb z (- q)) eqn:Eg.
    + apply Rgtb_true in Eg. rewrite Rmax_right by lra. lra.
    + apply Rgtb_false in Eg. now rewrite Rmax_left by lra.
Qed.

Lemma fold_max_ge qs : forall a, a <= fold_left Rmax qs a.
Proof.
  induction qs as [|q qs IH]; intros a; simpl; [lra|].
  apply Rle_trans with (Rmax a q); [apply Rmax_l|apply IH].
Qed.

(** X23.  For a history of positive total values the maximum drawdown is
    the largest relative decline of a snapshot from the highest value
    recorded up to it: the largest (peak - value) / peak. *)
Theorem max_drawdown_is_largest_decline totals :
  Forall (fun q => 0 < q)%Q totals ->
  _calculate_max_drawdown (returns_series totals)
  = XFin (spec_max_drawdown (List.map Q2R totals)).
Proof.
  intros Hpos. destruct totals as [|t ts]; [reflexivity|].
  unfold returns_series. cbn [List.map]. rewrite max_drawdown_cons.
  rewrite <- (List.map_map Q2R XFin).
  apply positive_history in Hpos. simpl in Hpos.
  inversion Hpos as [|? ? Ht Hts]; subst.
  destruct (drawdowns_are_declines (List.map Q2R ts) (Q2R t) (Q2R t)
              (1 * (1 + 0) / Q2R t) (1 * (1 + 0)) (1 * (1 + 0)))
    as (ds & -> & Hds); try lra; try assumption.
  { apply Rdiv_lt_0_compat; lra. }
  { field; lra. }
  { field; lra. }
  destruct (fold_min_is_max ds _
              ((1 * (1 + 0) - 1 * (1 + 0)) / (1 * (1 + 0))) Hds)
    as (m & -> & ->).
  replace (- ((1 * (1 + 0) - 1 * (1 + 0)) / (1 * (1 + 0)))) with 0
    by (unfold Rdiv; ring).
  unfold default, Datatypes.id. cbn [xabs spec_max_drawdown]. f_equal.
  rewrite Rabs_Ropp. apply Rabs_right, Rle_ge, fold_max_ge.
Qed.

Lemma max_drawdown_is_largest_decline_witness :
  Forall (fun q => 0 < q)%Q [100; 80; 120; 90]%Q /\
  _calculate_max_drawdown (returns_series [100; 80; 120; 90]%Q)
  = XFin (spec_max_drawdown (List.map Q2R [100; 80; 120; 90]%Q)).
Proof.
  assert (H : Forall (fun q => 0 < q)%Q [100; 80; 120; 90]%Q)
    by (repeat constructor).
  split; [exact H|].
  apply (max_drawdown_is_largest_decline [100; 80; 120; 90]%Q H).
Defined.

(** A fall from 100 to 80, a new peak of 120 and a fall to 90: the largest
    decline is the last one, a quarter. *)
Example spec_max_drawdown_quarter :
  spec_max_drawdown [100; 80; 120; 90] = 1 / 4.
Proof.
  unfold spec_max_drawdown. cbn [peak_declines fold_left].
  rewrite (Rmax_left 100 80) by lra. rewrite (Rmax_right 100 120) by lra.
  rewrite (Rmax_left 120 90) by lra.
  rewrite (Rmax_right 0 ((100 - 80) / 100)) by lra.
  rewrite (Rmax_left ((100 - 80) / 100) ((120 - 120) / 120)) by lra.
  rewrite (Rmax_right ((100 - 80) / 100) ((120 - 90) / 120)) by lra.
  lra.
Qed.
End Drawdown.
